(** * Air-cargo manifest assistant: aggregation and chart pipeline

    A shallow embedding of [transformManifest] (src/services/apiService.ts)
    and of the chart helpers of the chat assistant
    (src/components/Modal.tsx: [getValueByPath], [normalizeFieldPath],
    [normalizeSpecFields], [getSourceRows], [applyFilters],
    [generateChartDataFromSpec], the histogram and the treemap branch of
    [buildEchartsOption], and the anomaly report [anomalies]) and of the
    rules of [analyzeShipment] (src/utils.ts), with the properties stated
    about them.

    Numbers.  A JavaScript number is modelled by a rational: arithmetic is
    exact, there is no rounding and no overflow.  The values that a
    conversion can produce besides the finite ones (NaN and the two
    infinities) are kept apart in the type [number]; a string that denotes
    a number beyond the range of the doubles reads as an infinity.  Counts
    that the code obtains from [Array.prototype.length] and sums of them
    are integers and are modelled in [Z].  An equality of sums of weights is
    stated in exact arithmetic where the specification states it so; the
    further properties are those that hold of the doubles of the code too,
    which round and add in a given order.

    Objects.  Objects and arrays carry the identity of their allocation
    ([ref]), because [===], [Array.prototype.includes] and the keys of a
    [Map] compare objects by identity and not by content.  [JSON.parse]
    gives every object and array of a document an identity of its own.

    Prototypes.  A property read sees the own properties of an object, the
    elements and the length of an array or a string, and nothing that is
    inherited from a prototype: it is the read of the code for every name
    but the inherited ones ([inherited]).  The conversions [String] and
    [Number] are those of the code on the values none of whose objects has
    a property of its own named [toString] ([plain]); on another value the
    code raises a [TypeError], in a conversion or in a template literal of
    the log.  A theorem that holds on these names and values only has them
    as hypotheses: a field that names no inherited member ([plainField],
    [plainSpec]), a plain document or plain rows.

    Strings.  A string is the sequence of its bytes in UTF-8; the code
    compares, splits and lower-cases field names and identifiers, which are
    ASCII.

    Logging ([console.log], [console.warn], [console.debug]) has no effect
    on the result for a plain document and is left out. *)

From Stdlib Require Import List String Ascii Bool ZArith QArith Qround Qminmax Qabs Lia
  Sorted Permutation.
Import ListNotations.

Set Warnings "-register-all,-notation-for-abbreviation".

Local Open Scope string_scope.
Local Open Scope Z_scope.

(* ================================================================== *)
(** * JavaScript values and the built-ins the code uses *)
(* ================================================================== *)

Module JS.

Inductive value : Type :=
| JUndefined
| JNull
| JBool (b : bool)
| JNum (q : Q)
| JStr (s : string)
| JArray (ref : nat) (items : list value)
| JObject (ref : nat) (props : list (string * value)).
(* [ref] is the identity of the allocation; [props] lists the own
   properties in the order of their enumeration. *)

(** Results of [Number(...)]: a finite number, NaN, or an infinity. *)
Inductive number : Type :=
| Finite (q : Q)
| NaN
| PosInf
| NegInf.

(** Exceptions the modelled code can raise. *)
Inductive exn : Type :=
| TypeError (msg : string)
| RangeError (msg : string).

Inductive result (A : Type) : Type :=
| Ok (a : A)
| Throw (e : exn).
Arguments Ok {A} a.
Arguments Throw {A} e.

Definition bind {A B} (r : result A) (k : A -> result B) : result B :=
  match r with
  | Ok a => k a
  | Throw e => Throw e
  end.

(** ** Strings *)

Definition chars (s : string) : list ascii := list_ascii_of_string s.
Definition str (l : list ascii) : string := string_of_list_ascii l.

Definition code (c : ascii) : Z := Z.of_nat (nat_of_ascii c).

Definition digit_char (d : Z) : ascii := ascii_of_nat (48 + Z.to_nat d).

Fixpoint digits_fuel (fuel : nat) (n : Z) (acc : string) : string :=
  match fuel with
  | O => acc
  | S fuel' =>
      let acc' := String (digit_char (n mod 10)) acc in
      if n <? 10 then acc' else digits_fuel fuel' (n / 10) acc'
  end.

(** Decimal digits of a non-negative integer. *)
Definition digits (n : Z) : string :=
  digits_fuel (S (Z.to_nat (Z.log2 n))) n "".

Definition string_of_nat (n : nat) : string := digits (Z.of_nat n).

Fixpoint frac_digits (fuel : nat) (r d : Z) : string :=
  match fuel with
  | O => ""
  | S fuel' =>
      if r =? 0 then ""
      else String (digit_char ((r * 10) / d)) (frac_digits fuel' ((r * 10) mod d) d)
  end.

(** [Number.prototype.toString] of a finite number.  An integer prints as
    its decimal digits.  Another rational prints as its decimal expansion,
    cut after twenty fractional digits; the engine prints the shortest
    digits that read back as the same double, and switches to exponent
    notation from 1e21 on and under 1e-6, which the model does not. *)
Definition Number_toString (q : Q) : string :=
  let n := Qnum q in
  let d := Zpos (Qden q) in
  let a := Z.abs n in
  let sign := if n <? 0 then "-" else "" in
  let r := a mod d in
  if r =? 0 then sign ++ digits (a / d)
  else sign ++ digits (a / d) ++ "." ++ frac_digits 20 r d.

(** ASCII lower-casing; [toLowerCase] on other letters is not modelled. *)
Definition lower_char (c : ascii) : ascii :=
  let n := nat_of_ascii c in
  if ((65 <=? n) && (n <=? 90))%nat then ascii_of_nat (n + 32) else c.

Fixpoint toLowerCase (s : string) : string :=
  match s with
  | EmptyString => EmptyString
  | String c r => String (lower_char c) (toLowerCase r)
  end.

Fixpoint startsWith (s sub : string) : bool :=
  match sub, s with
  | EmptyString, _ => true
  | String _ _, EmptyString => false
  | String a sub', String b s' => Ascii.eqb a b && startsWith s' sub'
  end.

(** [String.prototype.includes]. *)
Fixpoint includes (s sub : string) : bool :=
  startsWith s sub ||
  match s with
  | EmptyString => false
  | String _ s' => includes s' sub
  end.

Fixpoint endsWith_list (l suffix : list ascii) : bool :=
  if (List.length l =? List.length suffix)%nat then
    if list_eq_dec ascii_dec l suffix then true else false
  else match l with
       | [] => false
       | _ :: l' => endsWith_list l' suffix
       end.

Definition endsWith (s suffix : string) : bool :=
  endsWith_list (chars s) (chars suffix).

(** [String.prototype.split] on a one-character separator. *)
Fixpoint split_chars (sep : ascii) (l : list ascii) (cur : list ascii) : list string :=
  match l with
  | [] => [str (rev cur)]
  | c :: l' =>
      if Ascii.eqb c sep then str (rev cur) :: split_chars sep l' []
      else split_chars sep l' (c :: cur)
  end.

Definition split (sep : ascii) (s : string) : list string :=
  split_chars sep (chars s) [].

Definition dot : ascii := "."%char.

(** ** Reading a number from a string ([StringToNumber]) *)

(** White space and line terminators, in the ASCII range. *)
Definition is_ws (c : ascii) : bool :=
  let n := code c in
  (n =? 32) || ((9 <=? n) && (n <=? 13)).

(** The other white space and line terminators, by their bytes in UTF-8:
    U+00A0 on two bytes; U+1680, U+2000 to U+200A, U+2028, U+2029, U+202F,
    U+205F, U+3000 and U+FEFF on three. *)
Definition is_ws2 (a b : ascii) : bool :=
  (code a =? 194) && (code b =? 160).

Definition is_ws3 (a b c : ascii) : bool :=
  ((code a =? 225) && (code b =? 154) && (code c =? 128)) ||
  ((code a =? 226) && (code b =? 128) &&
   (((128 <=? code c) && (code c <=? 138)) ||
    (code c =? 168) || (code c =? 169) || (code c =? 175))) ||
  ((code a =? 226) && (code b =? 129) && (code c =? 159)) ||
  ((code a =? 227) && (code b =? 128) && (code c =? 128)) ||
  ((code a =? 239) && (code b =? 187) && (code c =? 191)).

(** The list without the white space at its head; [backwards] when the
    list is a string read from its end. *)
Fixpoint trim_left (backwards : bool) (l : list ascii) : list ascii :=
  match l with
  | c :: l1 =>
      if is_ws c then trim_left backwards l1
      else
        match l1 with
        | d :: l2 =>
            if (if backwards then is_ws2 d c else is_ws2 c d) then trim_left backwards l2
            else
              match l2 with
              | e :: l3 =>
                  if (if backwards then is_ws3 e d c else is_ws3 c d e)
                  then trim_left backwards l3
                  else l
              | [] => l
              end
        | [] => l
        end
  | [] => []
  end.

Definition trim (l : list ascii) : list ascii :=
  rev (trim_left true (rev (trim_left false l))).

Definition digit_val (base : Z) (c : ascii) : option Z :=
  let n := code c in
  let d := if (48 <=? n) && (n <=? 57) then Some (n - 48)
           else if (97 <=? n) && (n <=? 102) then Some (n - 87)
           else if (65 <=? n) && (n <=? 70) then Some (n - 55)
           else None in
  match d with
  | Some d => if d <? base then Some d else None
  | None => None
  end.

Fixpoint read_digits (base : Z) (l : list ascii) (acc : Z) (count : nat)
  : Z * nat * list ascii :=
  match l with
  | c :: l' =>
      match digit_val base c with
      | Some d => read_digits base l' (acc * base + d) (S count)
      | None => (acc, count, l)
      end
  | [] => (acc, count, [])
  end.

Definition is_char (c : ascii) (a b : string) : bool :=
  String.eqb (String c "") a || String.eqb (String c "") b.

(** The exponent part, [e] or [E], an optional sign and digits; the rest
    of the string must be empty. *)
Definition read_exponent (l : list ascii) : option Z :=
  match l with
  | [] => Some 0
  | c :: l' =>
      if is_char c "e" "E" then
        let '(neg, l'') :=
          match l' with
          | s :: r => if is_char s "-" "-" then (true, r)
                      else if is_char s "+" "+" then (false, r)
                      else (false, l')
          | [] => (false, l')
          end in
        match read_digits 10 l'' 0 0 with
        | (e, S _, []) => Some (if neg : bool then - e else e)
        | _ => None
        end
      else None
  end.

(** The numbers of the code are doubles: a value of magnitude
    [2^1024 - 2^970] or more, half way between the largest double and
    [2^1024], reads as an infinity, and a value of magnitude [2^-1075] or
    less, half the least double, reads as zero.  Between them the model
    keeps the exact value, where the code rounds to the nearest double. *)
Definition overflow : Q := inject_Z (2 ^ 1024 - 2 ^ 970).

Definition underflow : Q := 1 # (Z.to_pos (2 ^ 1075)).

Definition in_range (q : Q) : number :=
  if Qle_bool overflow q then PosInf
  else if Qle_bool q (- overflow) then NegInf
  else if Qle_bool (Qabs q) underflow then Finite 0
  else Finite q.

Definition read_unsigned_decimal (l : list ascii) : number :=
  if String.eqb (str l) "Infinity" then PosInf
  else
    let '(ip, ci, rest) := read_digits 10 l 0 0 in
    let '(mant, cf, rest') :=
      match rest with
      | c :: r =>
          if Ascii.eqb c dot then
            let '(m, cf, r') := read_digits 10 r ip 0 in (m, cf, r')
          else (ip, O, rest)
      | [] => (ip, O, rest)
      end in
    match (ci + cf)%nat with
    | O => NaN
    | S _ =>
        match read_exponent rest' with
        | Some e => in_range (inject_Z mant * Qpower (inject_Z 10) (e - Z.of_nat cf))
        | None => NaN
        end
    end.

Definition negate (n : number) : number :=
  match n with
  | Finite q => Finite (- q)
  | NaN => NaN
  | PosInf => NegInf
  | NegInf => PosInf
  end.

Definition read_prefixed (base : Z) (l : list ascii) : number :=
  match read_digits base l 0 0 with
  | (n, S _, []) => in_range (inject_Z n)
  | _ => NaN
  end.

Definition StringToNumber (s : string) : number :=
  match trim (chars s) with
  | [] => Finite 0
  | c :: l =>
      if is_char c "-" "-" then negate (read_unsigned_decimal l)
      else if is_char c "+" "+" then read_unsigned_decimal l
      else
        match l with
        | p :: l' =>
            if is_char c "0" "0" && is_char p "x" "X" then read_prefixed 16 l'
            else if is_char c "0" "0" && is_char p "o" "O" then read_prefixed 8 l'
            else if is_char c "0" "0" && is_char p "b" "B" then read_prefixed 2 l'
            else read_unsigned_decimal (c :: l)
        | [] => read_unsigned_decimal (c :: l)
        end
  end.

(** ** Values *)

(** [typeof v === 'object']: true of [null] too. *)
Definition typeof_object (v : value) : bool :=
  match v with
  | JNull | JArray _ _ | JObject _ _ => true
  | _ => false
  end.

Definition typeof_string (v : value) : bool :=
  match v with
  | JStr _ => true
  | _ => false
  end.

Definition Array_isArray (v : value) : bool :=
  match v with
  | JArray _ _ => true
  | _ => false
  end.

(** [Array.isArray(v) ? v : []], as a list of the elements. *)
Definition array_or_empty (v : value) : list value :=
  match v with
  | JArray _ items => items
  | _ => []
  end.

(** Truthiness, as [!v], [v || d] and [if (v)] test it. *)
Definition truthy (v : value) : bool :=
  match v with
  | JUndefined | JNull => false
  | JBool b => b
  | JNum q => negb (Qeq_bool q 0)
  | JStr s => negb (String.eqb s "")
  | JArray _ _ | JObject _ _ => true
  end.

(** [v ?? d]. *)
Definition nullish (v d : value) : value :=
  match v with
  | JUndefined | JNull => d
  | _ => v
  end.

(** [v || d]. *)
Definition or_else (v d : value) : value :=
  if truthy v then v else d.

Fixpoint lookup (k : string) (props : list (string * value)) : value :=
  match props with
  | [] => JUndefined
  | (k', v) :: rest => if String.eqb k k' then v else lookup k rest
  end.

Definition has_key (k : string) (props : list (string * value)) : bool :=
  existsb (fun kv => String.eqb k (fst kv)) props.

(** A canonical array index: decimal digits without a leading zero. *)
Definition parse_index (k : string) : option nat :=
  match read_digits 10 (chars k) 0 0 with
  | (n, S _, []) => if String.eqb (digits n) k then Some (Z.to_nat n) else None
  | _ => None
  end.

(** Reading a property, [v[k]], and [v?.[k]] when [v] may be [null] or
    [undefined] (the code reads a property without [?.] only from values
    it knows not to be nullish).  Own properties of objects, the elements
    and the length of arrays and strings; the members that a value
    inherits from its prototype ([constructor], [toString], ...) are not
    modelled: see [inherited] below. *)
Definition js_get (v : value) (k : string) : value :=
  match v with
  | JObject _ props => lookup k props
  | JArray _ items =>
      if String.eqb k "length" then JNum (inject_Z (Z.of_nat (List.length items)))
      else match parse_index k with
           | Some i => nth i items JUndefined
           | None => JUndefined
           end
  | JStr s =>
      if String.eqb k "length" then JNum (inject_Z (Z.of_nat (String.length s)))
      else match parse_index k with
           | Some i => match String.get i s with
                       | Some c => JStr (String c "")
                       | None => JUndefined
                       end
           | None => JUndefined
           end
  | _ => JUndefined
  end.

(** [k in v]: a [TypeError] unless [v] is an object. *)
Definition has_property (k : string) (v : value) : result bool :=
  match v with
  | JObject _ props => Ok (has_key k props)
  | JArray _ items =>
      Ok (String.eqb k "length" ||
          match parse_index k with
          | Some i => (i <? List.length items)%nat
          | None => false
          end)
  | _ => Throw (TypeError "Cannot use 'in' operator to search for a key in a value that is not an object")
  end.

Fixpoint indexed {A} (f : A -> value) (i : nat) (l : list A) : list (string * value) :=
  match l with
  | [] => []
  | x :: l' => (string_of_nat i, f x) :: indexed f (S i) l'
  end.

(** [Object.entries(v)], in enumeration order. *)
Definition Object_entries (v : value) : list (string * value) :=
  match v with
  | JObject _ props => props
  | JArray _ items => indexed (fun x => x) 0 items
  | JStr s => indexed (fun c => JStr (String c "")) 0 (chars s)
  | _ => []
  end.

(** [String(v)], for a plain [v]: see [plain] below. *)
Fixpoint js_String (v : value) : string :=
  match v with
  | JUndefined => "undefined"
  | JNull => "null"
  | JBool true => "true"
  | JBool false => "false"
  | JNum q => Number_toString q
  | JStr s => s
  | JArray _ items =>
      (fix join (l : list value) : string :=
         match l with
         | [] => ""
         | x :: rest =>
             let sx := match x with
                       | JUndefined | JNull => ""
                       | _ => js_String x
                       end in
             match rest with
             | [] => sx
             | _ :: _ => sx ++ "," ++ join rest
             end
         end) items
  | JObject _ _ => "[object Object]"
  end.

(** [Number(v)], for a plain [v]. *)
Definition js_Number (v : value) : number :=
  match v with
  | JUndefined => NaN
  | JNull => Finite 0
  | JBool true => Finite 1
  | JBool false => Finite 0
  | JNum q => Finite q
  | JStr s => StringToNumber s
  | JArray _ _ | JObject _ _ => StringToNumber (js_String v)
  end.

Definition Number_isFinite (n : number) : bool :=
  match n with
  | Finite _ => true
  | _ => false
  end.

Definition Qlt_bool (x y : Q) : bool := negb (Qle_bool y x).

(** [a < b] and [a <= b] on numbers; false when either is NaN. *)
Definition num_lt (a b : number) : bool :=
  match a, b with
  | NaN, _ | _, NaN => false
  | Finite x, Finite y => Qlt_bool x y
  | Finite _, PosInf => true
  | Finite _, NegInf => false
  | PosInf, _ => false
  | NegInf, NegInf => false
  | NegInf, _ => true
  end.

Definition num_le (a b : number) : bool :=
  match a, b with
  | NaN, _ | _, NaN => false
  | Finite x, Finite y => Qle_bool x y
  | Finite _, PosInf => true
  | Finite _, NegInf => false
  | PosInf, PosInf => true
  | PosInf, _ => false
  | NegInf, _ => true
  end.

(** [a === b].  Objects and arrays are equal when they are the same
    allocation. *)
Definition strict_eq (a b : value) : bool :=
  match a, b with
  | JUndefined, JUndefined => true
  | JNull, JNull => true
  | JBool x, JBool y => Bool.eqb x y
  | JNum x, JNum y => Qeq_bool x y
  | JStr x, JStr y => String.eqb x y
  | JArray r _, JArray r' _ => Nat.eqb r r'
  | JObject r _, JObject r' _ => Nat.eqb r r'
  | _, _ => false
  end.

(** SameValueZero, the comparison of [Map] keys and of
    [Array.prototype.includes]: it differs from [===] on NaN only, which
    no [value] is. *)
Definition same_value_zero (a b : value) : bool := strict_eq a b.

Definition Array_includes (items : list value) (v : value) : bool :=
  existsb (same_value_zero v) items.

(** ** [Map], in insertion order *)

Definition Map (V : Type) : Type := list (value * V).

Fixpoint Map_get {V} (m : Map V) (k : value) : option V :=
  match m with
  | [] => None
  | (k', v) :: rest => if same_value_zero k' k then Some v else Map_get rest k
  end.

Definition Map_has {V} (m : Map V) (k : value) : bool :=
  match Map_get m k with
  | Some _ => true
  | None => false
  end.

(** [m.set(k, v)]: the entry keeps its place when the key is present and is
    added at the end when not. *)
Fixpoint Map_set {V} (m : Map V) (k : value) (v : V) : Map V :=
  match m with
  | [] => [(k, v)]
  | (k', v') :: rest =>
      if same_value_zero k' k then (k', v) :: rest
      else (k', v') :: Map_set rest k v
  end.

(** [Set.prototype.add] on a set of strings, in insertion order. *)
Definition Set_add (s : list string) (x : string) : list string :=
  if existsb (String.eqb x) s then s else s ++ [x].

(** ** The values and the names on which the model is exact *)

(** The members that an object, an array, a string, a number or a boolean
    inherits from its prototype.  [js_get] reads own properties only: for
    a name of this list the code can find an inherited member (a function,
    or the prototype itself for [__proto__]) where [js_get] finds
    [undefined]; for every other name the two agree. *)
Definition prototype_names : list string :=
  [ (* Object.prototype *)
    "constructor"; "__defineGetter__"; "__defineSetter__"; "hasOwnProperty";
    "__lookupGetter__"; "__lookupSetter__"; "isPrototypeOf"; "propertyIsEnumerable";
    "toString"; "valueOf"; "__proto__"; "toLocaleString";
    (* Array.prototype *)
    "at"; "concat"; "copyWithin"; "fill"; "find"; "findIndex"; "findLast";
    "findLastIndex"; "lastIndexOf"; "pop"; "push"; "reverse"; "shift"; "unshift";
    "slice"; "sort"; "splice"; "includes"; "indexOf"; "join"; "keys"; "entries";
    "values"; "forEach"; "filter"; "flat"; "flatMap"; "map"; "every"; "some";
    "reduce"; "reduceRight"; "toReversed"; "toSorted"; "toSpliced"; "with";
    "group"; "groupToMap";
    (* String.prototype *)
    "anchor"; "big"; "blink"; "bold"; "charAt"; "charCodeAt"; "codePointAt";
    "endsWith"; "fontcolor"; "fontsize"; "fixed"; "isWellFormed"; "italics";
    "link"; "localeCompare"; "match"; "matchAll"; "normalize"; "padEnd";
    "padStart"; "repeat"; "replace"; "replaceAll"; "search"; "small"; "split";
    "strike"; "sub"; "substr"; "substring"; "sup"; "startsWith"; "toWellFormed";
    "trim"; "trimStart"; "trimLeft"; "trimEnd"; "trimRight"; "toLocaleLowerCase";
    "toLocaleUpperCase"; "toLowerCase"; "toUpperCase";
    (* Number.prototype *)
    "toExponential"; "toFixed"; "toPrecision" ].

(** [inherited k]: the name [k] is one of [prototype_names], whatever its
    case ([normalizeFieldPath] lower-cases a field before it looks it up
    in its table of aliases, an object literal). *)
Definition inherited (k : string) : bool :=
  existsb (fun name => String.eqb (toLowerCase name) (toLowerCase k)) prototype_names.

(** [plain v]: no object inside [v] has a property of its own named
    [toString].  The values are data, without functions: on an object with
    such a property [String(v)], [Number(v)] and a template literal find no
    method to call and raise a [TypeError], where [js_String] and
    [js_Number] return; on a plain value they are the conversions of the
    code. *)
Fixpoint plain (v : value) : bool :=
  match v with
  | JArray _ items => forallb plain items
  | JObject _ props =>
      negb (has_key "toString" props) &&
      (fix all (l : list (string * value)) : bool :=
         match l with
         | [] => true
         | (_, x) :: rest => plain x && all rest
         end) props
  | _ => true
  end.

End JS.

(* ================================================================== *)
(** * src/types.ts *)
(* ================================================================== *)

(** The interfaces declare [string] for the fields that [transformManifest]
    copies from the raw document; what it stores there is whatever value the
    document holds, so these fields have type [JS.value]. *)
Module Types.

Module Weight.
Record t : Type := { value : Q; unit : string }.
End Weight.

Module ULDContent.
Record t : Type := { uld_id : JS.value; pieces : Z; weight : Weight.t }.
End ULDContent.

Module HouseShipment.
Record t : Type := {
  hawb_number : JS.value;
  customer : JS.value;
  origin : JS.value;
  destination : JS.value;
  pieces : Z;
  actual_weight_kg : Q;
  chargeable_weight_kg : Q;
  remarks : JS.value
}.
End HouseShipment.

Module Shipment.
Record t : Type := {
  awb_number : JS.value;
  pieces : Z;
  weight : Weight.t;
  nature_of_goods : JS.value;
  special_handling_codes : list string;
  storage_instructions : JS.value;
  uld_contents : list ULDContent.t;
  house_shipments : list HouseShipment.t
}.
End Shipment.

Module FlightDetails.
Record t : Type := {
  flight_number : string;
  departure_airport : JS.value;
  arrival_airport : JS.value;
  departure_date : string;
  arrival_date : string
}.
End FlightDetails.

Module ManifestData.
Record t : Type := {
  id : string;
  manifest_number : string;
  flight_details : FlightDetails.t;
  shipments : list Shipment.t;
  total_pieces : Z;
  total_weight : Weight.t
}.
End ManifestData.

End Types.


(* ================================================================== *)
(** * src/services/apiService.ts *)
(* ================================================================== *)

Module ApiService.
Import JS.
Import Types.

Definition asNumber (v : value) : Q :=
  match v with
  | JNum q => q
  | JStr s =>
      match StringToNumber s with
      | Finite parsed => parsed
      | _ => 0
      end
  | _ => 0
  end.

Record UldTotals : Type := { pieces : Z; weightKg : Q }.

Record Accumulator : Type := {
  totalPieces : Z;
  totalWeightKg : Q;
  uldIdToTotals : Map UldTotals;
  houseShipments : list HouseShipment.t;
  natureOfGoods : value;
  shcs : list string
}.

(** [n || 0] and [n || 1] on a count. *)
Definition or_count (n d : Z) : Z := if n =? 0 then d else n.

(** [Array.isArray(hb?.pieces) ? hb.pieces : []]. *)
Definition hbPieces (hb : value) : list value :=
  array_or_empty (js_get hb "pieces").

(** [list.reduce((s, p) => s + asNumber(p?.weight), 0)]. *)
Definition sumPieceWeights (list : list value) : Q :=
  fold_left (fun s p => s + asNumber (js_get p "weight"))%Q list 0%Q.

(** The [piecesCount] of a masterbill. *)
Definition piecesCount (piecesArray housebills : list value) : Z :=
  if (0 <? List.length piecesArray)%nat
  then Z.of_nat (List.length piecesArray)
  else fold_left (fun sum hb => sum + Z.of_nat (List.length (hbPieces hb)))
                 housebills 0.

(** The [totalHouseWeight] of a masterbill. *)
Definition totalHouseWeight (housebills : list value) : Q :=
  fold_left (fun sum hb => sum + sumPieceWeights (hbPieces hb))%Q housebills 0%Q.

(** The [uldPieceCounts] map of a masterbill; [uldId] is the identifier
    that pieces without a [containerNumber] go to. *)
Definition uldPieceCounts (piecesArray : list value) (uldId : value) (piecesCount : Z)
  : Map Z :=
  if (0 <? List.length piecesArray)%nat then
    fold_left (fun counts p =>
                 let uldFromPiece := nullish (js_get p "containerNumber") uldId in
                 let prev := match Map_get counts uldFromPiece with
                             | Some n => n
                             | None => 0
                             end in
                 Map_set counts uldFromPiece (prev + 1))
              piecesArray []
  else
    Map_set [] uldId
            (match Map_get (V := Z) [] uldId with Some n => n | None => 0 end
             + piecesCount).

(** The allocation loop: every ULD of [counts] gets its pieces and its share
    of the weight added to the running totals of the AWB. *)
Definition allocate (counts : Map Z) (totalHouseWeight : Q) (totals : Map UldTotals)
  : Map UldTotals :=
  let totalPiecesForAllocation :=
    or_count (fold_left (fun a b => a + b) (map snd counts) 0) 1 in
  fold_left (fun totals entry =>
               let '(uld, pcs) := entry in
               let uldTotals := match Map_get totals uld with
                                | Some t => t
                                | None => {| pieces := 0; weightKg := 0 |}
                                end in
               let share :=
                 ((inject_Z pcs / inject_Z totalPiecesForAllocation) * totalHouseWeight)%Q in
               Map_set totals uld
                       {| pieces := pieces uldTotals + pcs;
                          weightKg := (weightKg uldTotals + share)%Q |})
            counts totals.

(** The [HouseShipment] built from one housebill. *)
Definition houseShipment (departureAirport arrivalAirport hb : value) : HouseShipment.t :=
  let hbPieces := hbPieces hb in
  let hbPieceCount := Z.of_nat (List.length hbPieces) in
  let hbWeight := sumPieceWeights hbPieces in
  {| HouseShipment.hawb_number := nullish (js_get hb "housebillNumber") (JStr "");
     HouseShipment.customer := nullish (js_get hb "customer") (JStr "");
     HouseShipment.origin := departureAirport;
     HouseShipment.destination := arrivalAirport;
     HouseShipment.pieces := hbPieceCount;
     HouseShipment.actual_weight_kg := hbWeight;
     HouseShipment.chargeable_weight_kg := hbWeight;
     HouseShipment.remarks := nullish (js_get hb "remarks") JUndefined |}.

(** [masterbill.shcs.map(s => String(s?.code ?? ''))], or [[]]. *)
Definition shcsOf (masterbill : value) : list string :=
  map (fun s => js_String (nullish (js_get s "code") (JStr "")))
      (array_or_empty (js_get masterbill "shcs")).

Definition newAccumulator (masterbill : value) : Accumulator :=
  {| totalPieces := 0;
     totalWeightKg := 0;
     uldIdToTotals := [];
     houseShipments := [];
     natureOfGoods := nullish (js_get masterbill "natureOfGoods") (JStr "");
     shcs := [] |}.

(** The body of the loop over the masterbills of one container. *)
Definition processMasterbill (departureAirport arrivalAirport uldId : value)
           (shipmentsByAwb : Map Accumulator) (masterbill : value) : Map Accumulator :=
  let awbNumber := nullish (js_get masterbill "masterbillNumber") (JStr "") in
  if negb (truthy awbNumber) then shipmentsByAwb
  else
    let piecesArray := array_or_empty (js_get masterbill "pieces") in
    let housebills := array_or_empty (js_get masterbill "housebills") in
    let shcs_ := shcsOf masterbill in
    let piecesCount := piecesCount piecesArray housebills in
    let totalHouseWeight := totalHouseWeight housebills in
    let existing := match Map_get shipmentsByAwb awbNumber with
                    | Some acc => acc
                    | None => newAccumulator masterbill
                    end in
    let counts := uldPieceCounts piecesArray uldId piecesCount in
    Map_set shipmentsByAwb awbNumber
      {| totalPieces := totalPieces existing + piecesCount;
         totalWeightKg := (totalWeightKg existing + totalHouseWeight)%Q;
         uldIdToTotals := allocate counts totalHouseWeight (uldIdToTotals existing);
         houseShipments :=
           houseShipments existing
           ++ map (houseShipment departureAirport arrivalAirport) housebills;
         natureOfGoods := natureOfGoods existing;
         shcs := fold_left Set_add shcs_ (shcs existing) |}.

(** The body of the fallback loop over the top-level masterbills: no SHCs,
    and the pieces without a [containerNumber] go to ['UNKNOWN-ULD']. *)
Definition processTopLevelMasterbill (departureAirport arrivalAirport : value)
           (shipmentsByAwb : Map Accumulator) (masterbill : value) : Map Accumulator :=
  let awbNumber := nullish (js_get masterbill "masterbillNumber") (JStr "") in
  if negb (truthy awbNumber) then shipmentsByAwb
  else
    let piecesArray := array_or_empty (js_get masterbill "pieces") in
    let housebills := array_or_empty (js_get masterbill "housebills") in
    let piecesCount := piecesCount piecesArray housebills in
    let totalHouseWeight := totalHouseWeight housebills in
    let existing := match Map_get shipmentsByAwb awbNumber with
                    | Some acc => acc
                    | None => newAccumulator masterbill
                    end in
    let counts := uldPieceCounts piecesArray (JStr "UNKNOWN-ULD") piecesCount in
    Map_set shipmentsByAwb awbNumber
      {| totalPieces := totalPieces existing + piecesCount;
         totalWeightKg := (totalWeightKg existing + totalHouseWeight)%Q;
         uldIdToTotals := allocate counts totalHouseWeight (uldIdToTotals existing);
         houseShipments :=
           houseShipments existing
           ++ map (houseShipment departureAirport arrivalAirport) housebills;
         natureOfGoods := natureOfGoods existing;
         shcs := shcs existing |}.

(** The heuristic search of a container for an array that looks like
    masterbills: the loop over [Object.entries(container || {})].  The
    [in] operator raises when the first element of a candidate is [null],
    for which [typeof] answers ['object'] too. *)
Fixpoint discoverMasterbills (entries : list (string * value)) : result (list value) :=
  match entries with
  | [] => Ok []
  | (key, v) :: rest =>
      match v with
      | JArray _ (sample :: others) =>
          if typeof_object sample then
            bind (has_property "masterbillNumber" sample) (fun a =>
            bind (if a then Ok true else has_property "housebills" sample) (fun b =>
            bind (if b then Ok true else has_property "pieces" sample) (fun c =>
            if c then Ok (sample :: others) else discoverMasterbills rest)))
          else discoverMasterbills rest
      | _ => discoverMasterbills rest
      end
  end.

(** The candidate masterbills of one container. *)
Definition masterbillsOf (container : value) : result (list value) :=
  match js_get container "masterbills" with
  | JArray _ masterbills => Ok masterbills
  | _ =>
      match js_get container "masterbill" with
      | JArray _ masterbills => Ok masterbills
      | _ => discoverMasterbills
               (Object_entries (or_else container (JObject 0 [])))
      end
  end.

(** The loop over the containers; the state is [shipmentsByAwb] and
    [processedMasterbills]. *)
Fixpoint walkContainers (departureAirport arrivalAirport : value)
         (containers : list value) (state : Map Accumulator * Z)
  : result (Map Accumulator * Z) :=
  match containers with
  | [] => Ok state
  | container :: rest =>
      let uldId := nullish (js_get container "containerNumber") (JStr "N/A") in
      bind (masterbillsOf container) (fun masterbills =>
        walkContainers departureAirport arrivalAirport rest
          (fold_left (processMasterbill departureAirport arrivalAirport uldId)
                     masterbills (fst state),
           snd state + Z.of_nat (List.length masterbills)))
  end.

Definition uldContent (entry : value * UldTotals) : ULDContent.t :=
  let '(uldId, totals) := entry in
  {| ULDContent.uld_id := uldId;
     ULDContent.pieces := pieces totals;
     ULDContent.weight := {| Weight.value := weightKg totals; Weight.unit := "kg" |} |}.

Definition shipment (entry : value * Accumulator) : Shipment.t :=
  let '(awbNumber, acc) := entry in
  {| Shipment.awb_number := awbNumber;
     Shipment.pieces := totalPieces acc;
     Shipment.weight := {| Weight.value := totalWeightKg acc; Weight.unit := "kg" |};
     Shipment.nature_of_goods := natureOfGoods acc;
     Shipment.special_handling_codes := shcs acc;
     Shipment.storage_instructions := JUndefined;
     Shipment.uld_contents := map uldContent (uldIdToTotals acc);
     Shipment.house_shipments := houseShipments acc |}.

Definition transformManifest (apiData : value) : result ManifestData.t :=
  let doc := nullish (js_get apiData "doc") apiData in
  let manifestInfo := nullish (js_get doc "manifest") (JObject 0 []) in
  let containers := array_or_empty (js_get doc "containers") in
  let departureAirport := nullish (js_get manifestInfo "pointOfLoading") (JStr "") in
  let arrivalAirport := nullish (js_get manifestInfo "pointOfUnloading") (JStr "") in
  let topLevelMasterbills := array_or_empty (js_get doc "masterbills") in
  bind (walkContainers departureAirport arrivalAirport containers ([], 0)) (fun state =>
  let '(walked, processedMasterbills) := state in
  let shipmentsByAwb :=
    if (processedMasterbills =? 0) && (0 <? List.length topLevelMasterbills)%nat
    then fold_left (processTopLevelMasterbill departureAirport arrivalAirport)
                   topLevelMasterbills walked
    else walked in
  let shipments := map shipment shipmentsByAwb in
  let totalPieces :=
    fold_left (fun sum s => sum + or_count (Shipment.pieces s) 0) shipments 0 in
  let totalWeight :=
    fold_left (fun sum s => sum + asNumber (JNum (Weight.value (Shipment.weight s))))%Q
              shipments 0%Q in
  Ok {| ManifestData.id :=
          js_String (nullish (js_get manifestInfo "id")
                             (nullish (js_get manifestInfo "manifestNo") (JStr "")));
        ManifestData.manifest_number :=
          js_String (nullish (js_get manifestInfo "manifestNo") (JStr ""));
        ManifestData.flight_details :=
          {| FlightDetails.flight_number :=
               js_String (nullish (js_get manifestInfo "flightNo") (JStr ""));
             FlightDetails.departure_airport := departureAirport;
             FlightDetails.arrival_airport := arrivalAirport;
             FlightDetails.departure_date :=
               js_String (nullish (js_get manifestInfo "date") (JStr ""));
             FlightDetails.arrival_date := "" |};
        ManifestData.shipments := shipments;
        ManifestData.total_pieces := totalPieces;
        ManifestData.total_weight :=
          {| Weight.value := totalWeight; Weight.unit := "kg" |} |}).

End ApiService.


(* ================================================================== *)
(** * src/components/Modal.tsx: the chart helpers of the chat assistant *)
(* ================================================================== *)

Module Modal.
Import JS.
Import Types.

Inductive ChartSource : Type := SrcShipments | SrcHawbs | SrcUlds.

Inductive ChartType : Type :=
| Bar | Line | Pie | StackedBar | Scatter | Histogram | Heatmap | Treemap.

Inductive Aggregate : Type := AggSum | AggCount | AggAvg.

Inductive SortDir : Type := Asc | Desc.

(** The operators of [ChartFilter['op']]; the [default] branch of the switch
    in [applyFilters] is for values outside this type. *)
Inductive FilterOp : Type :=
| OpEq | OpNeq | OpContains | OpIn | OpGt | OpGte | OpLt | OpLte.

Module ChartFilter.
Record t : Type := { field : string; op : FilterOp; value : JS.value }.
End ChartFilter.

(** An absent optional field, [undefined] or [null], is [None]. *)
Module ChartSpec.
Record t : Type := {
  source : ChartSource;
  chartType : ChartType;
  xField : option string;
  yField : option string;
  yCategoryField : option string;
  valueField : option string;
  seriesField : option string;
  sizeField : option string;
  parentField : option string;
  childField : option string;
  aggregate : option Aggregate;
  title : option string;
  filters : option (list ChartFilter.t);
  topN : option Q;
  sort : option SortDir;
  unit : option string;
  binCount : option Q;
  stack : option bool
}.
End ChartSpec.

Module DataPoint.
Record t : Type := { name : string; value : Q }.
End DataPoint.

(** A parent of the treemap, with its children. *)
Module TreeNode.
Record t : Type := {
  name : string;
  value : Q;
  children : list (string * Q)   (* the name and the value of each child *)
}.
End TreeNode.

(** A row of the anomaly report. *)
Module Anomaly.
Record t : Type := { awb : JS.value; issue : string; details : option string }.
End Anomaly.

Definition getValueByPath (obj : value) (path : option string) : value :=
  match path with
  | None => JUndefined
  | Some path =>
      if String.eqb path "" then JUndefined
      else if negb (truthy obj) then JUndefined
      else
        let result :=
          if negb (includes path ".") then js_get obj path
          else fold_left (fun acc key =>
                            match acc with
                            | JUndefined | JNull => JUndefined
                            | _ => js_get acc key
                            end)
                         (split dot path) obj in
        if typeof_object result && negb (strict_eq result JNull) then
          match js_get result "value" with
          | JNum val => JNum val
          | JStr val =>
              match StringToNumber val with
              | Finite n => JNum n
              | _ => result
              end
          | _ => result
          end
        else result
  end.

(** The alias table of [normalizeFieldPath], as the own properties of the
    object literal. *)
Definition aliases (source : ChartSource) : list (string * string) :=
  let weight := match source with
                | SrcUlds => "weight.value"
                | SrcHawbs => "actual_weight_kg"
                | SrcShipments => "weight.value"
                end in
  [ ("mawb", "awb_number"); ("mawb_number", "awb_number"); ("awb", "awb_number");
    ("mawbno", "awb_number"); ("mawb_no", "awb_number");
    ("uld", "uld_id"); ("uldid", "uld_id"); ("uld_type", "uld_id");
    ("weight", weight);
    ("weight_kg", weight);
    ("actual_weight", "actual_weight_kg");
    ("pieces", "pieces"); ("pcs", "pieces");
    ("destination", "destination"); ("dest", "destination");
    ("origin", "origin");
    ("customer", "customer");
    ("hawb", "hawb_number"); ("hawb_number", "hawb_number") ].

Fixpoint assoc (k : string) (l : list (string * string)) : option string :=
  match l with
  | [] => None
  | (k', v) :: rest => if String.eqb k k' then Some v else assoc k rest
  end.

(** [!s] on an optional string. *)
Definition missing (s : option string) : bool :=
  match s with
  | None => true
  | Some s => String.eqb s ""
  end.

(** [a || b] on optional strings. *)
Definition str_or (a b : option string) : option string :=
  if missing a then b else a.

Definition normalizeFieldPath (field : option string) (source : ChartSource)
  : option string :=
  match field with
  | None => field
  | Some name =>
      if String.eqb name "" then field
      else
        let f := toLowerCase name in
        str_or (assoc f (aliases source)) field
  end.

Definition defaultCategoryField (src : ChartSource) : string :=
  match src with
  | SrcShipments => "awb_number"
  | SrcUlds => "uld_id"
  | SrcHawbs => "hawb_number"
  end.

Definition isHeatmap (t : ChartType) : bool :=
  match t with Heatmap => true | _ => false end.
Definition isStackedBar (t : ChartType) : bool :=
  match t with StackedBar => true | _ => false end.
Definition isTreemap (t : ChartType) : bool :=
  match t with Treemap => true | _ => false end.

Definition normalizeSpecFields (spec : ChartSpec.t) : ChartSpec.t :=
  let src := ChartSpec.source spec in
  let norm f := str_or (normalizeFieldPath f src) f in
  let xField := norm (ChartSpec.xField spec) in
  let yField := norm (ChartSpec.yField spec) in
  let yCategoryField := norm (ChartSpec.yCategoryField spec) in
  let valueField := norm (ChartSpec.valueField spec) in
  let seriesField := norm (ChartSpec.seriesField spec) in
  let sizeField := norm (ChartSpec.sizeField spec) in
  let parentField := norm (ChartSpec.parentField spec) in
  let childField := norm (ChartSpec.childField spec) in
  let xField := if missing xField then Some (defaultCategoryField src) else xField in
  let yField :=
    if missing yField
    then Some (match src with SrcHawbs => "actual_weight_kg" | _ => "weight.value" end)
    else yField in
  let yCategoryField :=
    if isHeatmap (ChartSpec.chartType spec) && missing yCategoryField
    then Some (match src with
               | SrcUlds => "uld_id" | SrcHawbs => "destination" | SrcShipments => "uld_id"
               end)
    else yCategoryField in
  let valueField :=
    if isHeatmap (ChartSpec.chartType spec) && missing valueField
    then yField else valueField in
  let seriesField :=
    if isStackedBar (ChartSpec.chartType spec) && missing seriesField
    then Some (match src with
               | SrcUlds => "uld_id" | SrcHawbs => "destination" | SrcShipments => "awb_number"
               end)
    else seriesField in
  let parentField :=
    if isTreemap (ChartSpec.chartType spec) && missing parentField
    then Some "awb_number" else parentField in
  let childField :=
    if isTreemap (ChartSpec.chartType spec) && missing childField
    then Some "hawb_number" else childField in
  let valueField :=
    if isTreemap (ChartSpec.chartType spec) && missing valueField
    then Some "actual_weight_kg" else valueField in
  {| ChartSpec.source := src;
     ChartSpec.chartType := ChartSpec.chartType spec;
     ChartSpec.xField := xField;
     ChartSpec.yField := yField;
     ChartSpec.yCategoryField := yCategoryField;
     ChartSpec.valueField := valueField;
     ChartSpec.seriesField := seriesField;
     ChartSpec.sizeField := sizeField;
     ChartSpec.parentField := parentField;
     ChartSpec.childField := childField;
     ChartSpec.aggregate := ChartSpec.aggregate spec;
     ChartSpec.title := ChartSpec.title spec;
     ChartSpec.filters := ChartSpec.filters spec;
     ChartSpec.topN := ChartSpec.topN spec;
     ChartSpec.sort := ChartSpec.sort spec;
     ChartSpec.unit := ChartSpec.unit spec;
     ChartSpec.binCount := ChartSpec.binCount spec;
     ChartSpec.stack := ChartSpec.stack spec |}.

(** [{ ...spec, xField: x }]. *)
Definition with_xField (spec : ChartSpec.t) (x : string) : ChartSpec.t :=
  {| ChartSpec.source := ChartSpec.source spec;
     ChartSpec.chartType := ChartSpec.chartType spec;
     ChartSpec.xField := Some x;
     ChartSpec.yField := ChartSpec.yField spec;
     ChartSpec.yCategoryField := ChartSpec.yCategoryField spec;
     ChartSpec.valueField := ChartSpec.valueField spec;
     ChartSpec.seriesField := ChartSpec.seriesField spec;
     ChartSpec.sizeField := ChartSpec.sizeField spec;
     ChartSpec.parentField := ChartSpec.parentField spec;
     ChartSpec.childField := ChartSpec.childField spec;
     ChartSpec.aggregate := ChartSpec.aggregate spec;
     ChartSpec.title := ChartSpec.title spec;
     ChartSpec.filters := ChartSpec.filters spec;
     ChartSpec.topN := ChartSpec.topN spec;
     ChartSpec.sort := ChartSpec.sort spec;
     ChartSpec.unit := ChartSpec.unit spec;
     ChartSpec.binCount := ChartSpec.binCount spec;
     ChartSpec.stack := ChartSpec.stack spec |}.

(** [q || 0] and [q || 1] on a number. *)
Definition or_zero (q : Q) : Q := if Qeq_bool q 0 then 0%Q else q.
Definition or_zero_one (q : Q) : Q := if Qeq_bool q 0 then 1%Q else q.

(** The object literals below are allocated at every call; their identity
    is never compared, and they carry the reference 0. *)
Definition obj (props : list (string * value)) : value := JObject 0 props.

Definition shipmentRow (m : ManifestData.t) (s : Shipment.t) : value :=
  obj [ ("awb_number", Shipment.awb_number s);
        ("pieces", JNum (inject_Z (Shipment.pieces s)));
        ("weight_kg", JNum (or_zero (Weight.value (Shipment.weight s))));
        ("weight", obj [ ("value", JNum (or_zero (Weight.value (Shipment.weight s)))) ]);
        ("nature_of_goods", Shipment.nature_of_goods s);
        ("destination", FlightDetails.arrival_airport (ManifestData.flight_details m));
        ("origin", FlightDetails.departure_airport (ManifestData.flight_details m)) ].

Definition uldRow (s : Shipment.t) (u : ULDContent.t) : value :=
  obj [ ("awb_number", Shipment.awb_number s);
        ("uld_id", ULDContent.uld_id u);
        ("pieces", JNum (inject_Z (ULDContent.pieces u)));
        ("weight_kg", JNum (or_zero (Weight.value (ULDContent.weight u))));
        ("weight", obj [ ("value", JNum (or_zero (Weight.value (ULDContent.weight u)))) ]) ].

Definition hawbRow (s : Shipment.t) (h : HouseShipment.t) : value :=
  obj [ ("awb_number", Shipment.awb_number s);
        ("hawb_number", HouseShipment.hawb_number h);
        ("customer", HouseShipment.customer h);
        ("destination", HouseShipment.destination h);
        ("origin", HouseShipment.origin h);
        ("pieces", JNum (inject_Z (HouseShipment.pieces h)));
        ("weight_kg", JNum (HouseShipment.actual_weight_kg h));
        ("actual_weight_kg", JNum (HouseShipment.actual_weight_kg h)) ].

Definition applyFilters (rows : list value) (filters : option (list ChartFilter.t))
  : list value :=
  match filters with
  | None => rows
  | Some [] => rows
  | Some filters =>
      filter (fun row =>
                forallb (fun f =>
                           let v := getValueByPath row (Some (ChartFilter.field f)) in
                           let val := ChartFilter.value f in
                           match ChartFilter.op f with
                           | OpEq => strict_eq v val
                           | OpNeq => negb (strict_eq v val)
                           | OpContains =>
                               typeof_string v &&
                               includes (toLowerCase (js_String v))
                                        (toLowerCase (js_String val))
                           | OpIn => Array_isArray val && Array_includes (array_or_empty val) v
                           | OpGt => num_lt (js_Number val) (js_Number v)
                           | OpGte => num_le (js_Number val) (js_Number v)
                           | OpLt => num_lt (js_Number v) (js_Number val)
                           | OpLte => num_le (js_Number v) (js_Number val)
                           end)
                        filters)
             rows
  end.

Section Assistant.

(** The [manifestData] prop of the component. *)
Variable manifestData : option ManifestData.t.

Definition getSourceRows (source : ChartSource) : list value :=
  match manifestData with
  | None => []
  | Some m =>
      match source with
      | SrcShipments => map (shipmentRow m) (ManifestData.shipments m)
      | SrcUlds =>
          flat_map (fun s => map (uldRow s) (Shipment.uld_contents s))
                   (ManifestData.shipments m)
      | SrcHawbs =>
          flat_map (fun s => map (hawbRow s) (Shipment.house_shipments s))
                   (ManifestData.shipments m)
      end
  end.

(** The key under which a row is grouped. *)
Definition groupKey (row : value) (x : option string) : string :=
  let keyRaw := getValueByPath row x in
  if strict_eq keyRaw JUndefined || strict_eq keyRaw JNull || strict_eq keyRaw (JStr "")
  then "" else js_String keyRaw.

(** [!key || key === 'undefined']. *)
Definition unresolved (key : string) : bool :=
  String.eqb key "" || String.eqb key "undefined".

(** The number a row contributes, [Number.isFinite(yVal) ? yVal : 0]. *)
Definition rowValue (row : value) (y : string) : Q :=
  let raw := getValueByPath row (Some y) in
  let raw :=
    if strict_eq raw JUndefined || (typeof_object raw && negb (strict_eq raw JNull)) then
      let raw := if negb (String.eqb y "") && endsWith y "weight"
                 then getValueByPath row (Some (y ++ ".value")) else raw in
      if strict_eq raw JUndefined
      then nullish (getValueByPath row (Some "weight.value"))
                   (getValueByPath row (Some "weight_kg"))
      else raw
    else raw in
  let yValRaw := nullish raw (if String.eqb y "value" then JNum 1 else JNum 0) in
  let yVal := match yValRaw with
              | JNum q => Finite q
              | _ => match js_Number yValRaw with
                     | NaN => Finite 0
                     | Finite q => if Qeq_bool q 0 then Finite 0 else Finite q
                     | n => n
                     end
              end in
  match yVal with
  | Finite q => q
  | _ => 0%Q
  end.

(** The loop over the filtered rows: the state is [groups] and
    [undefinedName]. *)
Definition groupRows (x : option string) (y : string) (sourceRows : list value)
  : Map (list Q) * Z :=
  fold_left (fun state row =>
               let '(groups, undefinedName) := state in
               let key := groupKey row x in
               let arr := match Map_get groups (JStr key) with
                          | Some arr => arr
                          | None => []
                          end in
               (Map_set groups (JStr key) (arr ++ [rowValue row y])%list,
                if unresolved key then undefinedName + 1 else undefinedName))
            sourceRows ([], 0).

Definition total (values : list Q) : Q :=
  fold_left (fun a b => a + b)%Q values 0%Q.

Definition aggregateGroup (agg : Aggregate) (entry : value * list Q) : DataPoint.t :=
  let '(name, values) := entry in
  let name := js_String name in
  let value :=
    match agg with
    | AggCount => inject_Z (Z.of_nat (List.length values))
    | AggAvg =>
        match values with
        | [] => 0%Q
        | _ :: _ => (total values / inject_Z (Z.of_nat (List.length values)))%Q
        end
    | AggSum => total values
    end in
  {| DataPoint.name := if String.eqb name "" then "Unknown" else name;
     DataPoint.value := value |}.

(** [Array.prototype.sort] with a comparator that orders by value: a stable
    sort, here by insertion. *)
Fixpoint insertPoint (before : DataPoint.t -> DataPoint.t -> bool) (p : DataPoint.t)
         (sorted : list DataPoint.t) : list DataPoint.t :=
  match sorted with
  | [] => [p]
  | q :: rest =>
      if before q p then q :: insertPoint before p rest else p :: q :: rest
  end.

Definition sortPoints (dir : SortDir) (data : list DataPoint.t) : list DataPoint.t :=
  let before q p :=
    match dir with
    | Asc => Qlt_bool (DataPoint.value q) (DataPoint.value p)
    | Desc => Qlt_bool (DataPoint.value p) (DataPoint.value q)
    end in
  fold_right (insertPoint before) [] data.

(** [data.slice(0, n)] for a positive [n]. *)
Definition slice0 {A} (data : list A) (n : Q) : list A :=
  firstn (Z.to_nat (Qfloor n)) data.

Definition truncatePoints (topN : option Q) (data : list DataPoint.t) : list DataPoint.t :=
  let data :=
    match topN with
    | Some n => if Qlt_bool 0 n then slice0 data n else data
    | None => data
    end in
  let noTopN := match topN with
                | Some n => Qeq_bool n 0
                | None => true
                end in
  if noTopN && (20 <? List.length data)%nat then firstn 20 data else data.

(** The first part of a pass of [generateChartDataFromSpec] over a
    normalised specification: the rows of the source are filtered and
    grouped; the result is [groups] and [undefinedName]. *)
Definition groupedRows (specN : ChartSpec.t) : Map (list Q) * Z :=
  let rowsPre := getSourceRows (ChartSpec.source specN) in
  let sourceRows := applyFilters rowsPre (ChartSpec.filters specN) in
  let x := ChartSpec.xField specN in
  let y := match str_or (ChartSpec.yField specN) (Some "value") with
           | Some y => y
           | None => "value"
           end in
  groupRows x y sourceRows.

(** The second part: the groups are aggregated, sorted and cut; the result
    is [data] and [undefinedName]. *)
Definition shapeData (specN : ChartSpec.t) : list DataPoint.t * Z :=
  let agg := match ChartSpec.aggregate specN with
             | Some agg => agg
             | None => AggSum
             end in
  let '(groups, undefinedName) := groupedRows specN in
  let data := map (aggregateGroup agg) groups in
  let data := match ChartSpec.sort specN with
              | Some dir => sortPoints dir data
              | None => data
              end in
  (truncatePoints (ChartSpec.topN specN) data, undefinedName).

(** [undefinedName > data.length / 2] and [fallbackX !== x]. *)
Definition needsRetry (specN : ChartSpec.t) (data : list DataPoint.t) (undefinedName : Z)
  : bool :=
  Qlt_bool (inject_Z (Z.of_nat (List.length data)) / 2) (inject_Z undefinedName)
  && negb (match ChartSpec.xField specN with
           | Some x => String.eqb (defaultCategoryField (ChartSpec.source specN)) x
           | None => false
           end).

(** [generateChartDataFromSpec] calls itself on the retry; [fuel] bounds the
    depth of the calls. *)
Fixpoint generateChartDataFromSpec (fuel : nat) (spec : ChartSpec.t)
  : option (list DataPoint.t) :=
  match fuel with
  | O => None
  | S fuel' =>
      let specN := normalizeSpecFields spec in
      let '(data, undefinedName) := shapeData specN in
      if needsRetry specN data undefinedName
      then generateChartDataFromSpec fuel'
             (with_xField specN (defaultCategoryField (ChartSpec.source specN)))
      else Some data
  end.

(** ** The histogram branch of [buildEchartsOption] *)

Record HistogramOption : Type := {
  labels : list string;   (* xAxis.data *)
  counts : list Z         (* series[0].data *)
}.

(** The dash between the bounds of a label, U+2013, in UTF-8. *)
Definition en_dash : string :=
  String (ascii_of_nat 226) (String (ascii_of_nat 128) (String (ascii_of_nat 147) "")).

(** [x.toFixed(0)]. *)
Definition toFixed0 (x : Q) : string :=
  if Qlt_bool x 0 then "-" ++ digits (Qfloor (- x + (1 # 2)))
  else digits (Qfloor (x + (1 # 2))).

(** [new Array(n)]: a [RangeError] unless [n] is an integer (the caller
    keeps [n] between 5 and 50). *)
Definition newArray (n : Q) : result nat :=
  if Qeq_bool n (inject_Z (Qfloor n)) && Qle_bool 0 n
  then Ok (Z.to_nat (Qfloor n))
  else Throw (RangeError "Invalid array length").

Fixpoint increment (counts : list Z) (idx : nat) : list Z :=
  match counts, idx with
  | [], _ => []
  | c :: rest, O => (c + 1) :: rest
  | c :: rest, S i => c :: increment rest i
  end.

(** The values that are binned. *)
Definition histogramValues (spec : ChartSpec.t) : list Q :=
  let rows := applyFilters (getSourceRows (ChartSpec.source spec)) (ChartSpec.filters spec) in
  flat_map (fun r =>
              match js_Number (or_else (getValueByPath r (ChartSpec.xField spec)) (JNum 0)) with
              | Finite v => [v]
              | _ => []
              end)
           rows.

Definition histogramBins (spec : ChartSpec.t) : Q :=
  let binCount := match ChartSpec.binCount spec with
                  | Some n => if Qeq_bool n 0 then 12%Q else n
                  | None => 12%Q
                  end in
  Qmax 5 (Qmin binCount 50).

Definition histogramMin (values : list Q) : Q := fold_right Qmin 0%Q values.
Definition histogramMax (values : list Q) : Q := fold_right Qmax 1%Q values.

Definition histogramStep (values : list Q) (bins : Q) : Q :=
  or_zero_one ((histogramMax values - histogramMin values) / bins).

Definition histogram (spec : ChartSpec.t) : result HistogramOption :=
  let values := histogramValues spec in
  let bins := histogramBins spec in
  let min := histogramMin values in
  let step := histogramStep values bins in
  bind (newArray bins) (fun n =>
  let counts :=
    fold_left (fun counts v =>
                 let idx := Qfloor ((v - min) / step) in
                 let idx := if Qle_bool bins (inject_Z idx) then Qfloor bins - 1 else idx in
                 let idx := if idx <? 0 then 0 else idx in
                 increment counts (Z.to_nat idx))
              values (repeat 0 n) in
  Ok {| labels :=
          map (fun i => toFixed0 (min + inject_Z (Z.of_nat i) * step)
                        ++ en_dash ++ toFixed0 (min + (inject_Z (Z.of_nat i) + 1) * step))
              (seq 0 n);
        counts := counts |}).

(** ** The treemap branch of [buildEchartsOption] *)

(** [Array.prototype.sort] with a comparator for which [before a b] says
    that [a] comes strictly before [b]: a stable sort, by insertion. *)
Fixpoint insertBy {A} (before : A -> A -> bool) (x : A) (sorted : list A) : list A :=
  match sorted with
  | [] => [x]
  | y :: rest => if before y x then y :: insertBy before x rest else x :: y :: rest
  end.

Definition sortBy {A} (before : A -> A -> bool) (l : list A) : list A :=
  fold_right (insertBy before) [] l.

(** The body of the loop over the rows: a row without a parent, a child or
    a finite value is dropped. *)
Definition treemapRow (spec : ChartSpec.t) (map : Map TreeNode.t) (r : value)
  : Map TreeNode.t :=
  let parent :=
    js_String (nullish (getValueByPath r (str_or (ChartSpec.parentField spec)
                                                 (Some "awb_number"))) (JStr "")) in
  let child :=
    js_String (nullish (getValueByPath r (str_or (ChartSpec.childField spec)
                                                (Some "hawb_number"))) (JStr "")) in
  let raw := nullish (getValueByPath r (str_or (ChartSpec.valueField spec)
                                               (Some "actual_weight_kg"))) (JNum 0) in
  match js_Number raw with
  | Finite v =>
      if String.eqb parent "" || String.eqb child "" then map
      else
        let node := match Map_get map (JStr parent) with
                    | Some node => node
                    | None => {| TreeNode.name := parent;
                                 TreeNode.value := 0;
                                 TreeNode.children := [] |}
                    end in
        Map_set map (JStr parent)
                {| TreeNode.name := TreeNode.name node;
                   TreeNode.value := (TreeNode.value node + Qmax 0 v)%Q;
                   TreeNode.children :=
                     (TreeNode.children node ++ [(child, Qmax 0 v)])%list |}
  | _ => map
  end.

(** The [data] of the treemap series. *)
Definition treemap (spec : ChartSpec.t) : list TreeNode.t :=
  let rows := applyFilters (getSourceRows SrcHawbs) (ChartSpec.filters spec) in
  let map := fold_left (treemapRow spec) rows [] in
  sortBy (fun a b => Qlt_bool (TreeNode.value b) (TreeNode.value a))
         (filter (fun n => Qlt_bool 0 (TreeNode.value n)
                           && (0 <? List.length (TreeNode.children n))%nat)
                 (List.map snd map)).

(** ** The anomaly report *)

(** The letter delta, U+0394, in UTF-8. *)
Definition delta_sign : string :=
  String (ascii_of_nat 206) (String (ascii_of_nat 148) "").

(** The rows that one shipment adds to [anomalies]. *)
Definition shipmentAnomalies (s : Shipment.t) : list Anomaly.t :=
  let weight := Weight.value (Shipment.weight s) in
  let totalHouseWeight :=
    fold_left (fun sum h => sum + or_zero (HouseShipment.actual_weight_kg h))%Q
              (Shipment.house_shipments s) 0%Q in
  let delta := Qabs (or_zero weight - totalHouseWeight) in
  (if Qlt_bool (Qmax 50 (or_zero weight * (5 # 100))) delta
   then [ {| Anomaly.awb := Shipment.awb_number s;
             Anomaly.issue := "Weight mismatch";
             Anomaly.details :=
               Some ("MAWB " ++ Number_toString weight ++ "kg vs HAWBs "
                     ++ Number_toString totalHouseWeight ++ "kg ("
                     ++ delta_sign ++ " " ++ Number_toString delta ++ "kg)") |} ]
   else [])
  ++
  (if (List.length (Shipment.uld_contents s) =? 0)%nat
   then [ {| Anomaly.awb := Shipment.awb_number s;
             Anomaly.issue := "No ULD association";
             Anomaly.details := None |} ]
   else [])%list.

(** The [anomalies] of the component. *)
Definition anomalies : list Anomaly.t :=
  match manifestData with
  | None => []
  | Some m => flat_map shipmentAnomalies (ManifestData.shipments m)
  end.

End Assistant.

End Modal.


(* ================================================================== *)
(** * src/utils.ts: the rules of [analyzeShipment] *)
(* ================================================================== *)

Module Utils.
Import JS.
Import Types.

Inductive Level : Type := Warning | Info | Critical.

Module ShipmentIssue.
Record t : Type := { id : string; level : Level; message : string; suggestion : string }.
End ShipmentIssue.

(** The double quote, which the messages hold. *)
Definition quote : string := String (ascii_of_nat 34) "".

Definition vagueGoodsDescriptions : list string :=
  [ "general cargo"; "consolidated"; "goods"; "samples" ].

(** [v.toLowerCase()]: a [TypeError] unless [v] is a string. *)
Definition call_toLowerCase (v : value) : result string :=
  match v with
  | JStr s => Ok (toLowerCase s)
  | _ => Throw (TypeError "toLowerCase is not a function")
  end.

(** [descriptions.some(d => nature_of_goods.toLowerCase().includes(d))]. *)
Fixpoint someVague (nature_of_goods : value) (descriptions : list string) : result bool :=
  match descriptions with
  | [] => Ok false
  | vagueDesc :: rest =>
      bind (call_toLowerCase nature_of_goods) (fun lowered =>
        if includes lowered vagueDesc then Ok true
        else someVague nature_of_goods rest)
  end.

(** [house_shipments.some(h => h.remarks?.toLowerCase().includes('high value'))]. *)
Fixpoint someHighValue (house_shipments : list HouseShipment.t) : result bool :=
  match house_shipments with
  | [] => Ok false
  | h :: rest =>
      match HouseShipment.remarks h with
      | JUndefined | JNull => someHighValue rest
      | remarks =>
          bind (call_toLowerCase remarks) (fun lowered =>
            if includes lowered "high value" then Ok true
            else someHighValue rest)
      end
  end.

Definition codes_include (codes : list string) (code : string) : bool :=
  existsb (String.eqb code) codes.

Definition analyzeShipment (shipment : Shipment.t) : result (list ShipmentIssue.t) :=
  let awb := js_String (Shipment.awb_number shipment) in
  let codes := Shipment.special_handling_codes shipment in
  bind (someVague (Shipment.nature_of_goods shipment) vagueGoodsDescriptions) (fun vague =>
  let issues1 :=
    if vague : bool then
      [ {| ShipmentIssue.id := "issue-nog-" ++ awb;
           ShipmentIssue.level := Warning;
           ShipmentIssue.message :=
             "Vague " ++ quote ++ "Nature of Goods" ++ quote ++ " description.";
           ShipmentIssue.suggestion :=
             "Consider providing a more detailed description to avoid potential customs delays. For example, instead of "
             ++ quote ++ "Samples" ++ quote ++ ", specify "
             ++ quote ++ "Apparel Samples" ++ quote ++ "." |} ]
    else [] in
  let issues2 :=
    if codes_include codes "AVI" then
      [ {| ShipmentIssue.id := "issue-avi-" ++ awb;
           ShipmentIssue.level := Info;
           ShipmentIssue.message := "Shipment contains live animals (AVI).";
           ShipmentIssue.suggestion :=
             "Ensure all IATA Live Animals Regulations (LAR) documentation is complete and attached. Verify container is compliant." |} ]
    else [] in
  let issues3 :=
    if codes_include codes "DGR" then
      [ {| ShipmentIssue.id := "issue-dgr-" ++ awb;
           ShipmentIssue.level := Critical;
           ShipmentIssue.message := "Dangerous Goods (DGR) detected.";
           ShipmentIssue.suggestion :=
             "Verify the Shipper's Declaration for Dangerous Goods is accurate and that all packaging and labeling requirements are met." |} ]
    else [] in
  let issues4 :=
    if codes_include codes "PIL" && negb (truthy (Shipment.storage_instructions shipment)) then
      [ {| ShipmentIssue.id := "issue-pil-" ++ awb;
           ShipmentIssue.level := Warning;
           ShipmentIssue.message := "Perishable goods (PIL) have no storage instructions.";
           ShipmentIssue.suggestion :=
             "Add specific temperature range and storage instructions to prevent spoilage and ensure compliance." |} ]
    else [] in
  bind (someHighValue (Shipment.house_shipments shipment)) (fun highValue =>
  let issues5 :=
    if highValue : bool then
      [ {| ShipmentIssue.id := "issue-val-" ++ awb;
           ShipmentIssue.level := Info;
           ShipmentIssue.message := "High-value cargo detected in HAWB remarks.";
           ShipmentIssue.suggestion :=
             "Confirm if special security arrangements (e.g., "
             ++ quote ++ "Secure Storage" ++ quote ++ ") are required and in place." |} ]
    else [] in
  Ok (issues1 ++ issues2 ++ issues3 ++ issues4 ++ issues5)%list)).

End Utils.

(* ================================================================== *)
(** * The chart specifications on which the model is exact *)
(* ================================================================== *)

Module Domain.
Import JS.
Import Modal.

(** A field of a chart specification that is written in ASCII, on which
    [toLowerCase] is the lower-casing of the code, and none of whose
    segments is an inherited name. *)
Definition plainField (field : option string) : bool :=
  match field with
  | Some path =>
      forallb (fun c => code c <? 128) (chars path) &&
      forallb (fun key => negb (inherited key)) (split dot path)
  | None => true
  end.

(** A filter on such a field, by a plain value. *)
Definition plainFilter (f : ChartFilter.t) : bool :=
  plainField (Some (ChartFilter.field f)) && plain (ChartFilter.value f).

Definition plainFilters (filters : option (list ChartFilter.t)) : bool :=
  match filters with
  | Some fs => forallb plainFilter fs
  | None => true
  end.

(** A chart specification whose fields and filters are plain. *)
Definition plainSpec (spec : ChartSpec.t) : bool :=
  plainField (ChartSpec.xField spec) &&
  plainField (ChartSpec.yField spec) &&
  plainField (ChartSpec.yCategoryField spec) &&
  plainField (ChartSpec.valueField spec) &&
  plainField (ChartSpec.seriesField spec) &&
  plainField (ChartSpec.sizeField spec) &&
  plainField (ChartSpec.parentField spec) &&
  plainField (ChartSpec.childField spec) &&
  plainFilters (ChartSpec.filters spec).

End Domain.

(* ================================================================== *)
(** * The vocabulary of the specification *)
(* ================================================================== *)

Module Spec.
Import JS.
Import Modal.

(** The sums that the specification writes with a capital sigma. *)
Definition sumZ (l : list Z) : Z := fold_right Z.add 0 l.
Definition sumQ (l : list Q) : Q := fold_right Qplus 0%Q l.

(** [occurs x v]: the value [x] is [v] or lies inside [v]. *)
Inductive occurs (x : value) : value -> Prop :=
| occurs_here : occurs x x
| occurs_item ref items y : In y items -> occurs x y -> occurs x (JArray ref items)
| occurs_prop ref props k y : In (k, y) props -> occurs x y -> occurs x (JObject ref props).





(** An object that is not [null]. *)
Definition nonNullObject (v : value) : Prop :=
  match v with
  | JArray _ _ | JObject _ _ => True
  | _ => False
  end.


(** Strict equality: the same primitive value, or the same object. *)
Inductive strictlyEqual : value -> value -> Prop :=
| equal_undefined : strictlyEqual JUndefined JUndefined
| equal_null : strictlyEqual JNull JNull
| equal_bool b : strictlyEqual (JBool b) (JBool b)
| equal_num x y : (x == y)%Q -> strictlyEqual (JNum x) (JNum y)
| equal_str s : strictlyEqual (JStr s) (JStr s)
| equal_array ref items items' : strictlyEqual (JArray ref items) (JArray ref items')
| equal_object ref props props' : strictlyEqual (JObject ref props) (JObject ref props').








End Spec.

(* ================================================================== *)
(** * Sample inputs *)
(* ================================================================== *)

Module Examples.
Import JS.

(** One container with one masterbill, [AWB1], whose housebill has two
    pieces of 5 and 7 kg; a second masterbill has no number. *)
Definition sample_doc : value :=
  JObject 1
    [ ("manifest", JObject 2 [ ("manifestNo", JStr "M-100");
                               ("pointOfLoading", JStr "TLV");
                               ("pointOfUnloading", JStr "JFK") ]);
      ("containers",
       JArray 3
         [ JObject 4
             [ ("containerNumber", JStr "AKE12345");
               ("masterbills",
                JArray 5
                  [ JObject 6
                      [ ("masterbillNumber", JStr "AWB1");
                        ("housebills",
                         JArray 7
                           [ JObject 8
                               [ ("housebillNumber", JStr "H1");
                                 ("pieces",
                                  JArray 9 [ JObject 10 [ ("weight", JNum 5) ];
                                             JObject 11 [ ("weight", JNum 7) ] ]) ] ]) ];
                    JObject 12
                      [ ("masterbillNumber", JStr "");
                        ("housebills",
                         JArray 13
                           [ JObject 14
                               [ ("pieces", JArray 15 [ JObject 16 [ ("weight", JNum 3) ] ]) ] ]) ] ]) ] ]) ].

(** What [transformManifest] makes of [sample_doc]. *)
Definition sample_house : Types.HouseShipment.t :=
  {| Types.HouseShipment.hawb_number := JStr "H1";
     Types.HouseShipment.customer := JStr "";
     Types.HouseShipment.origin := JStr "TLV";
     Types.HouseShipment.destination := JStr "JFK";
     Types.HouseShipment.pieces := 2;
     Types.HouseShipment.actual_weight_kg := 12;
     Types.HouseShipment.chargeable_weight_kg := 12;
     Types.HouseShipment.remarks := JUndefined |}.

Definition sample_shipment : Types.Shipment.t :=
  {| Types.Shipment.awb_number := JStr "AWB1";
     Types.Shipment.pieces := 2;
     Types.Shipment.weight := {| Types.Weight.value := 12; Types.Weight.unit := "kg" |};
     Types.Shipment.nature_of_goods := JStr "";
     Types.Shipment.special_handling_codes := [];
     Types.Shipment.storage_instructions := JUndefined;
     Types.Shipment.uld_contents :=
       [ {| Types.ULDContent.uld_id := JStr "AKE12345";
            Types.ULDContent.pieces := 2;
            Types.ULDContent.weight :=
              {| Types.Weight.value := 24 # 2; Types.Weight.unit := "kg" |} |} ];
     Types.Shipment.house_shipments := [ sample_house ] |}.

Definition sample_manifest : Types.ManifestData.t :=
  {| Types.ManifestData.id := "M-100";
     Types.ManifestData.manifest_number := "M-100";
     Types.ManifestData.flight_details :=
       {| Types.FlightDetails.flight_number := "";
          Types.FlightDetails.departure_airport := JStr "TLV";
          Types.FlightDetails.arrival_airport := JStr "JFK";
          Types.FlightDetails.departure_date := "";
          Types.FlightDetails.arrival_date := "" |};
     Types.ManifestData.shipments := [ sample_shipment ];
     Types.ManifestData.total_pieces := 2;
     Types.ManifestData.total_weight :=
       {| Types.Weight.value := 12; Types.Weight.unit := "kg" |} |}.

(** A document without containers, with one masterbill at the top level:
    two pieces, one of them in the container [PMC777]. *)
Definition top_level_doc : value :=
  JObject 1
    [ ("masterbills",
       JArray 2
         [ JObject 3
             [ ("masterbillNumber", JStr "AWB9");
               ("pieces", JArray 4 [ JObject 5 [ ("containerNumber", JStr "PMC777") ];
                                     JObject 6 [] ]);
               ("housebills",
                JArray 7
                  [ JObject 8
                      [ ("pieces", JArray 9 [ JObject 10 [ ("weight", JStr "8") ] ]) ] ]) ] ]) ].

(** A container without [masterbills] or [masterbill], one of whose
    properties is an array that starts with [null]:
    [{"containers": [{"items": [null]}]}]. *)
Definition null_sample_doc : value :=
  JObject 1 [ ("containers", JArray 2 [ JObject 3 [ ("items", JArray 4 [ JNull ]) ] ]) ].

(** A manifest with three shipments of 0, 10 and 20 pieces. *)
Definition chart_shipment (awb : string) (pieces : Z) : Types.Shipment.t :=
  {| Types.Shipment.awb_number := JStr awb;
     Types.Shipment.pieces := pieces;
     Types.Shipment.weight := {| Types.Weight.value := 1; Types.Weight.unit := "kg" |};
     Types.Shipment.nature_of_goods := JStr "";
     Types.Shipment.special_handling_codes := [];
     Types.Shipment.storage_instructions := JUndefined;
     Types.Shipment.uld_contents := [];
     Types.Shipment.house_shipments := [] |}.

Definition chart_manifest : Types.ManifestData.t :=
  {| Types.ManifestData.id := "M-200";
     Types.ManifestData.manifest_number := "M-200";
     Types.ManifestData.flight_details :=
       {| Types.FlightDetails.flight_number := "LY001";
          Types.FlightDetails.departure_airport := JStr "TLV";
          Types.FlightDetails.arrival_airport := JStr "JFK";
          Types.FlightDetails.departure_date := "";
          Types.FlightDetails.arrival_date := "" |};
     Types.ManifestData.shipments :=
       [ chart_shipment "AWB-A" 0; chart_shipment "AWB-B" 10; chart_shipment "AWB-C" 20 ];
     Types.ManifestData.total_pieces := 30;
     Types.ManifestData.total_weight :=
       {| Types.Weight.value := 3; Types.Weight.unit := "kg" |} |}.

(** A chart of the shipments of [chart_manifest] over the field [x]. *)
Definition chart_spec (chartType : Modal.ChartType) (x : string) (binCount : option Q)
  : Modal.ChartSpec.t :=
  {| Modal.ChartSpec.source := Modal.SrcShipments;
     Modal.ChartSpec.chartType := chartType;
     Modal.ChartSpec.xField := Some x;
     Modal.ChartSpec.yField := None;
     Modal.ChartSpec.yCategoryField := None;
     Modal.ChartSpec.valueField := None;
     Modal.ChartSpec.seriesField := None;
     Modal.ChartSpec.sizeField := None;
     Modal.ChartSpec.parentField := None;
     Modal.ChartSpec.childField := None;
     Modal.ChartSpec.aggregate := None;
     Modal.ChartSpec.title := None;
     Modal.ChartSpec.filters := None;
     Modal.ChartSpec.topN := None;
     Modal.ChartSpec.sort := None;
     Modal.ChartSpec.unit := None;
     Modal.ChartSpec.binCount := binCount;
     Modal.ChartSpec.stack := None |}.

(** The histogram of the pieces, asked for with two bins. *)
Definition histogram_spec : Modal.ChartSpec.t :=
  chart_spec Modal.Histogram "pieces" (Some 2%Q).

(** A bar chart over a field that no row has. *)
Definition unknown_field_spec : Modal.ChartSpec.t :=
  chart_spec Modal.Bar "carrier" None.



(** The labels of five bins of width 4 from 0. *)
Definition five_labels : list string :=
  map (fun b => (digits (fst b) ++ Modal.en_dash ++ digits (snd b))%string)
      [ (0, 4); (4, 8); (8, 12); (12, 16); (16, 20) ].

End Examples.

(* ================================================================== *)
(** * Invariants and auxiliary definitions of the proofs *)
(* ================================================================== *)

Module Invariants.
Import JS Types ApiService Modal Spec.
Local Open Scope list_scope.

Section Aggregation.

Variables apiData departureAirport arrivalAirport : value.

(** A house shipment of the state was built from a housebill of the
    document. *)
Definition houseOk (hs : HouseShipment.t) : Prop :=
  exists hb, occurs hb apiData /\ hs = houseShipment departureAirport arrivalAirport hb.

(** The ULD totals of an accumulator add up to its own totals. *)
Definition accSums (acc : Accumulator) : Prop :=
  sumZ (map (fun e => pieces (snd e)) (uldIdToTotals acc)) = totalPieces acc /\
  (sumQ (map (fun e => weightKg (snd e)) (uldIdToTotals acc)) == totalWeightKg acc)%Q /\
  Forall houseOk (houseShipments acc).

(** An accumulator stored in the map has been through one masterbill at
    least, and has a ULD. *)
Definition accOk (acc : Accumulator) : Prop :=
  accSums acc /\ uldIdToTotals acc <> [].

Definition entryOk (e : value * Accumulator) : Prop :=
  truthy (fst e) = true /\ accOk (snd e).

Definition mapOk (m : Map Accumulator) : Prop := Forall entryOk m.

End Aggregation.

(** The parts of the raw document that [transformManifest] names. *)
Definition docOf (apiData : value) : value := nullish (js_get apiData "doc") apiData.
Definition manifestInfoOf (apiData : value) : value :=
  nullish (js_get (docOf apiData) "manifest") (JObject 0 []).
Definition departureOf (apiData : value) : value :=
  nullish (js_get (manifestInfoOf apiData) "pointOfLoading") (JStr "").
Definition arrivalOf (apiData : value) : value :=
  nullish (js_get (manifestInfoOf apiData) "pointOfUnloading") (JStr "").

(** One step of the walk along a path in [getValueByPath]. *)
Definition step (acc : value) (key : string) : value :=
  match acc with
  | JUndefined | JNull => JUndefined
  | _ => js_get acc key
  end.




End Invariants.

(* ================================================================== *)
(** * Further invariants, orders and sample inputs *)
(* ================================================================== *)

Module AggregateFacts.
Import JS Types ApiService Modal Spec Invariants.
Local Open Scope list_scope.

(** The accumulator of an AWB after one more masterbill. *)
Definition addMasterbill (departureAirport arrivalAirport : value) (existing : Accumulator)
           (piecesArray housebills : list value) (uldId : value) (codes : list string)
  : Accumulator :=
  {| totalPieces := totalPieces existing + piecesCount piecesArray housebills;
     totalWeightKg := (totalWeightKg existing + totalHouseWeight housebills)%Q;
     uldIdToTotals :=
       allocate (uldPieceCounts piecesArray uldId (piecesCount piecesArray housebills))
                (totalHouseWeight housebills) (uldIdToTotals existing);
     houseShipments :=
       houseShipments existing
       ++ map (houseShipment departureAirport arrivalAirport) housebills;
     natureOfGoods := natureOfGoods existing;
     shcs := codes |}.

(** No two keys of a map are the same key. *)
Definition distinctKeys {V} (m : Map V) : Prop :=
  ForallOrdPairs (fun a b => same_value_zero a b = false) (map fst m).

(** What an accumulator keeps besides the sums of its ULDs: its weight is
    the weight of its house shipments, which are on the route of the
    manifest; its counts are not negative, and it has no weight without
    pieces; its codes and its ULDs are without repetition. *)
Definition accExtra (departureAirport arrivalAirport : value) (acc : Accumulator) : Prop :=
  (totalWeightKg acc
   == sumQ (map HouseShipment.actual_weight_kg (houseShipments acc)))%Q /\
  Forall (fun hs => HouseShipment.origin hs = departureAirport /\
                    HouseShipment.destination hs = arrivalAirport)
         (houseShipments acc) /\
  0 <= totalPieces acc /\
  (totalPieces acc = 0 -> (totalWeightKg acc == 0)%Q) /\
  Forall (fun e => 0 <= pieces (snd e)) (uldIdToTotals acc) /\
  NoDup (shcs acc) /\
  distinctKeys (uldIdToTotals acc).

(** The invariant of the map: its keys are distinct, and its accumulators
    have the invariant above. *)
Definition mapExtra (departureAirport arrivalAirport : value) (m : Map Accumulator)
  : Prop :=
  distinctKeys m /\ Forall (fun e => accExtra departureAirport arrivalAirport (snd e)) m.

End AggregateFacts.

Module MoreExamples.
Import JS Types ApiService.

(** Two containers that share the masterbill [AWB1]; the second container
    also carries [AWB2], whose codes repeat. *)
Definition two_container_doc : value :=
  JObject 1
    [ ("manifest", JObject 2 [ ("manifestNo", JStr "M-300");
                               ("pointOfLoading", JStr "TLV");
                               ("pointOfUnloading", JStr "LHR") ]);
      ("containers",
       JArray 3
         [ JObject 4
             [ ("containerNumber", JStr "AKE1");
               ("masterbills",
                JArray 5
                  [ JObject 6
                      [ ("masterbillNumber", JStr "AWB1");
                        ("shcs", JArray 7 [ JObject 8 [ ("code", JStr "PIL") ] ]);
                        ("housebills",
                         JArray 9
                           [ JObject 10
                               [ ("housebillNumber", JStr "H1");
                                 ("pieces", JArray 11 [ JObject 12 [ ("weight", JNum 5) ] ]) ] ]) ] ]) ];
           JObject 13
             [ ("containerNumber", JStr "AKE2");
               ("masterbills",
                JArray 14
                  [ JObject 15
                      [ ("masterbillNumber", JStr "AWB1");
                        ("shcs", JArray 16 [ JObject 17 [ ("code", JStr "PIL") ] ]);
                        ("housebills",
                         JArray 18
                           [ JObject 19
                               [ ("housebillNumber", JStr "H2");
                                 ("remarks", JStr "High value, handle with care");
                                 ("pieces", JArray 20 [ JObject 21 [ ("weight", JStr "2.5") ];
                                                        JObject 22 [ ("weight", JNum 1) ] ]) ] ]) ];
                    JObject 23
                      [ ("masterbillNumber", JStr "AWB2");
                        ("natureOfGoods", JStr "Consolidated electronics");
                        ("shcs", JArray 24 [ JObject 25 [ ("code", JStr "DGR") ];
                                             JObject 26 [ ("code", JStr "DGR") ] ]);
                        ("housebills", JArray 27 []) ] ]) ] ]) ].

(** What [transformManifest] returns for it. *)
Definition two_container_manifest : ManifestData.t :=
  Eval vm_compute in
    match transformManifest two_container_doc with
    | Ok md => md
    | Throw _ => Examples.sample_manifest
    end.

(** The pieces of the shipments of [chart_manifest] by AWB, sorted. *)
Definition chart_spec_sorted (dir : Modal.SortDir) : Modal.ChartSpec.t :=
  {| Modal.ChartSpec.source := Modal.SrcShipments;
     Modal.ChartSpec.chartType := Modal.Bar;
     Modal.ChartSpec.xField := Some "awb";
     Modal.ChartSpec.yField := Some "pcs";
     Modal.ChartSpec.yCategoryField := None;
     Modal.ChartSpec.valueField := None;
     Modal.ChartSpec.seriesField := None;
     Modal.ChartSpec.sizeField := None;
     Modal.ChartSpec.parentField := None;
     Modal.ChartSpec.childField := None;
     Modal.ChartSpec.aggregate := Some Modal.AggSum;
     Modal.ChartSpec.title := None;
     Modal.ChartSpec.filters := None;
     Modal.ChartSpec.topN := None;
     Modal.ChartSpec.sort := Some dir;
     Modal.ChartSpec.unit := None;
     Modal.ChartSpec.binCount := None;
     Modal.ChartSpec.stack := None |}.

(** The number of the shipments of [chart_manifest] by AWB. *)
Definition chart_spec_count : Modal.ChartSpec.t :=
  {| Modal.ChartSpec.source := Modal.SrcShipments;
     Modal.ChartSpec.chartType := Modal.Bar;
     Modal.ChartSpec.xField := Some "awb";
     Modal.ChartSpec.yField := None;
     Modal.ChartSpec.yCategoryField := None;
     Modal.ChartSpec.valueField := None;
     Modal.ChartSpec.seriesField := None;
     Modal.ChartSpec.sizeField := None;
     Modal.ChartSpec.parentField := None;
     Modal.ChartSpec.childField := None;
     Modal.ChartSpec.aggregate := Some Modal.AggCount;
     Modal.ChartSpec.title := None;
     Modal.ChartSpec.filters := None;
     Modal.ChartSpec.topN := None;
     Modal.ChartSpec.sort := None;
     Modal.ChartSpec.unit := None;
     Modal.ChartSpec.binCount := None;
     Modal.ChartSpec.stack := None |}.

(** One point for each shipment of [chart_manifest]. *)
Definition awb_points : list Modal.DataPoint.t :=
  [ {| Modal.DataPoint.name := "AWB-A"; Modal.DataPoint.value := 1 |};
    {| Modal.DataPoint.name := "AWB-B"; Modal.DataPoint.value := 1 |};
    {| Modal.DataPoint.name := "AWB-C"; Modal.DataPoint.value := 1 |} ].

(** A masterbill with two pieces and no housebill. *)
Definition pieces_only_doc : value :=
  JObject 1
    [ ("containers",
       JArray 2
         [ JObject 3
             [ ("containerNumber", JStr "AKE1");
               ("masterbills",
                JArray 4
                  [ JObject 5
                      [ ("masterbillNumber", JStr "AWB9");
                        ("pieces", JArray 6 [ JObject 7 []; JObject 8 [] ]) ] ]) ] ]) ].

Definition pieces_only_manifest : ManifestData.t :=
  Eval vm_compute in
    match transformManifest pieces_only_doc with
    | Ok md => md
    | Throw _ => Examples.sample_manifest
    end.

Definition first_shipment (md : ManifestData.t) : Shipment.t :=
  hd Examples.sample_shipment (ManifestData.shipments md).

End MoreExamples.

Module NormalizerFacts.
Import JS Modal.

(** A field name after [normalizeFieldPath], or itself when the result is
    empty: [normalizeFieldPath(f, source) || f]. *)
Definition norm (src : ChartSource) (f : option string) : option string :=
  str_or (normalizeFieldPath f src) f.

(** A field after the normalisation: its canonical name, or the default
    [d] when the condition [c] holds and the field is missing. *)
Definition fill (src : ChartSource) (c : bool) (d : option string) (f : option string) : option string :=
  if c && missing (norm src f) then d else norm src f.

Definition yDefault (src : ChartSource) : string :=
  match src with SrcHawbs => "actual_weight_kg" | _ => "weight.value" end.

Definition yCategoryDefault (src : ChartSource) : string :=
  match src with SrcUlds => "uld_id" | SrcHawbs => "destination" | SrcShipments => "uld_id" end.

Definition seriesDefault (src : ChartSource) : string :=
  match src with SrcUlds => "uld_id" | SrcHawbs => "destination" | SrcShipments => "awb_number" end.

Definition fixedName (src : ChartSource) (d : option string) : Prop :=
  norm src d = d /\ missing d = false.

End NormalizerFacts.

Module ShaperFacts.
Import JS Modal.

(** The order that a sort direction asks of two consecutive points. *)
Definition inOrder (dir : SortDir) (a b : DataPoint.t) : Prop :=
  match dir with
  | Asc => (DataPoint.value a <= DataPoint.value b)%Q
  | Desc => (DataPoint.value b <= DataPoint.value a)%Q
  end.

(** The value field that a pass of [generateChartDataFromSpec] reads. *)
Definition valueFieldOf (specN : ChartSpec.t) : string :=
  match str_or (ChartSpec.yField specN) (Some "value") with
  | Some y => y
  | None => "value"
  end.


(** The rows that a chart is made of. *)
Definition chartRows (manifestData : option Types.ManifestData.t) (spec : ChartSpec.t)
  : list value :=
  applyFilters (getSourceRows manifestData (ChartSpec.source spec)) (ChartSpec.filters spec).

(** [insertPoint] puts a point after the points that [beforeDir] places
    strictly before it. *)
Definition beforeDir (dir : SortDir) (q p : DataPoint.t) : bool :=
  match dir with
  | Asc => Qlt_bool (DataPoint.value q) (DataPoint.value p)
  | Desc => Qlt_bool (DataPoint.value p) (DataPoint.value q)
  end.

End ShaperFacts.

Module ChartFacts.
Import JS Modal.



(** A node of the treemap that is as its rows made it: it carries the
    name it is filed under, which is not empty; its value is the sum of the
    values of its children, which are named and not negative. *)
Definition nodeOk (e : value * TreeNode.t) : Prop :=
  fst e = JStr (TreeNode.name (snd e)) /\
  TreeNode.name (snd e) <> "" /\
  (TreeNode.value (snd e) == Spec.sumQ (map snd (TreeNode.children (snd e))))%Q /\
  Forall (fun c => fst c <> "" /\ (0 <= snd c)%Q) (TreeNode.children (snd e)).

(** The order of the nodes of the treemap: the larger value first. *)
Definition descending (a b : TreeNode.t) : Prop :=
  (TreeNode.value b <= TreeNode.value a)%Q.

End ChartFacts.

(* ================================================================== *)
(** * Properties of [transformManifest] *)
(* ================================================================== *)

Import JS Types ApiService Modal Spec Invariants Examples.
Import Domain.
Local Open Scope list_scope.


Section Sums.

Lemma fold_left_add_sumZ {A} (f : A -> Z) (l : list A) (a : Z) :
  fold_left (fun acc x => acc + f x) l a = a + sumZ (map f l).
Proof.
  revert a; induction l as [|x l IH]; intros a; simpl.
  - lia.
  - rewrite IH. lia.
Qed.

Lemma fold_left_add_sumQ {A} (f : A -> Q) (l : list A) (a : Q) :
  (fold_left (fun acc x => acc + f x) l a == a + sumQ (map f l))%Q.
Proof.
  revert a; induction l as [|x l IH]; intros a; simpl.
  - ring.
  - rewrite IH. ring.
Qed.

Lemma sumZ_cons (x : Z) (l : list Z) : sumZ (x :: l) = x + sumZ l.
Proof. reflexivity. Qed.

Lemma sumQ_cons (x : Q) (l : list Q) : sumQ (x :: l) = (x + sumQ l)%Q.
Proof. reflexivity. Qed.

Lemma sumZ_app (l1 l2 : list Z) : sumZ (l1 ++ l2) = sumZ l1 + sumZ l2.
Proof. induction l1; simpl; lia. Qed.

End Sums.

Section MapFacts.

Context {V : Type}.

Lemma Map_get_In (m : Map V) (k : value) (v : V) :
  Map_get m k = Some v -> exists k', In (k', v) m.
Proof.
  induction m as [|[k' v'] m IH]; simpl; [discriminate|].
  destruct (same_value_zero k' k).
  - intros [= ->]. exists k'. now left.
  - intros H. destruct (IH H) as [k'' Hin]. exists k''. now right.
Qed.

(** Setting a key keeps a property of the entries, provided the new value
    has it; the place of an old key is taken by the old key itself. *)
Lemma Map_set_Forall (K : value -> Prop) (P : V -> Prop) (m : Map V) (k : value) (v : V) :
  Forall (fun e => K (fst e) /\ P (snd e)) m -> K k -> P v ->
  Forall (fun e => K (fst e) /\ P (snd e)) (Map_set m k v).
Proof.
  intros Hm Hk Hv. induction m as [|[k' v'] m IH]; simpl.
  - constructor; [split; assumption | constructor].
  - inversion Hm as [|? ? Hhead Hrest]; subst.
    destruct (same_value_zero k' k).
    + constructor; [split; simpl; [apply Hhead | exact Hv] | exact Hrest].
    + constructor; [exact Hhead | apply IH; exact Hrest].
Qed.

Lemma Map_set_not_nil (m : Map V) (k : value) (v : V) : Map_set m k v <> [].
Proof. destruct m as [|[k' v'] m]; simpl; [|destruct (same_value_zero k' k)]; discriminate. Qed.

Lemma Map_set_sumZ (g : V -> Z) (m : Map V) (k : value) (v : V) :
  sumZ (map (fun e => g (snd e)) (Map_set m k v))
  = sumZ (map (fun e => g (snd e)) m)
    - match Map_get m k with Some old => g old | None => 0 end + g v.
Proof.
  induction m as [|[k' v'] m IH]; simpl.
  - lia.
  - destruct (same_value_zero k' k); simpl.
    + lia.
    + rewrite IH. lia.
Qed.

Lemma Map_set_sumQ (g : V -> Q) (m : Map V) (k : value) (v : V) :
  (sumQ (map (fun e => g (snd e)) (Map_set m k v))
   == sumQ (map (fun e => g (snd e)) m)
      - match Map_get m k with Some old => g old | None => 0 end + g v)%Q.
Proof.
  induction m as [|[k' v'] m IH]; simpl.
  - ring.
  - destruct (same_value_zero k' k); simpl.
    + ring.
    + rewrite IH. ring.
Qed.

End MapFacts.

Section Allocation.

Lemma uldPieceCounts_sum (piecesArray : list value) (uldId : value) (n : Z) :
  sumZ (map snd (uldPieceCounts piecesArray uldId n))
  = if (0 <? List.length piecesArray)%nat then Z.of_nat (List.length piecesArray) else n.
Proof.
  unfold uldPieceCounts. destruct (0 <? List.length piecesArray)%nat.
  - assert (H : forall (counts : Map Z),
               sumZ (map snd (fold_left (fun counts p =>
                   let uldFromPiece := nullish (js_get p "containerNumber") uldId in
                   let prev := match Map_get counts uldFromPiece with
                               | Some n => n | None => 0 end in
                   Map_set counts uldFromPiece (prev + 1)) piecesArray counts))
               = sumZ (map snd counts) + Z.of_nat (List.length piecesArray)).
    { induction piecesArray as [|p l IH]; intros counts.
      - simpl. lia.
      - cbn [fold_left]. rewrite IH.
        rewrite (Map_set_sumZ (fun z => z)).
        change (fun e : value * Z => snd e) with (@snd value Z).
        cbn [List.length]. destruct (Map_get counts _); lia. }
    rewrite H. simpl. lia.
  - simpl. lia.
Qed.

Lemma piecesCount_nonneg (piecesArray housebills : list value) :
  0 <= piecesCount piecesArray housebills.
Proof.
  unfold piecesCount. destruct (0 <? List.length piecesArray)%nat; [lia|].
  rewrite fold_left_add_sumZ.
  induction housebills; simpl; lia.
Qed.

(** A masterbill without any piece has no weight to allocate. *)
Lemma piecesCount_zero_weight (piecesArray housebills : list value) :
  piecesCount piecesArray housebills = 0 ->
  (totalHouseWeight housebills == 0)%Q.
Proof.
  unfold piecesCount, totalHouseWeight.
  destruct (0 <? List.length piecesArray)%nat eqn:E.
  - apply Nat.ltb_lt in E. lia.
  - rewrite fold_left_add_sumZ, fold_left_add_sumQ. clear E.
    induction housebills as [|hb l IH]; intros H.
    + simpl. ring.
    + assert (Hl : 0 <= sumZ (map (fun hb => Z.of_nat (List.length (hbPieces hb))) l)).
      { clear. induction l; simpl; lia. }
      rewrite map_cons, sumZ_cons in H. rewrite map_cons, sumQ_cons.
      destruct (hbPieces hb) eqn:Ehb; [|cbn [List.length] in H; lia].
      assert (IH' := IH ltac:(cbn [List.length] in H; lia)). rewrite Qplus_0_l in IH'.
      rewrite IH'. unfold sumPieceWeights. simpl. ring.
Qed.

Lemma allocate_pieces (counts : Map Z) (w : Q) (totals : Map UldTotals) :
  sumZ (map (fun e => pieces (snd e)) (allocate counts w totals))
  = sumZ (map (fun e => pieces (snd e)) totals) + sumZ (map snd counts).
Proof.
  unfold allocate. generalize (or_count (fold_left (fun a b => a + b) (map snd counts) 0) 1).
  intros t. revert totals.
  induction counts as [|[uld pcs] counts IH]; intros totals.
  - simpl. lia.
  - cbn [fold_left]. rewrite IH. rewrite (Map_set_sumZ pieces).
    rewrite map_cons, sumZ_cons. cbn [snd pieces].
    destruct (Map_get totals uld); cbn [pieces]; lia.
Qed.

Lemma allocate_weight_gen (counts : Map Z) (t : Z) (w : Q) (totals : Map UldTotals) :
  (sumQ (map (fun e => weightKg (snd e))
             (fold_left (fun totals entry =>
               let '(uld, pcs) := entry in
               let uldTotals := match Map_get totals uld with
                                | Some t => t
                                | None => {| pieces := 0; weightKg := 0 |}
                                end in
               let share := ((inject_Z pcs / inject_Z t) * w)%Q in
               Map_set totals uld
                       {| pieces := pieces uldTotals + pcs;
                          weightKg := (weightKg uldTotals + share)%Q |})
            counts totals))
   == sumQ (map (fun e => weightKg (snd e)) totals)
      + (inject_Z (sumZ (map snd counts)) / inject_Z t) * w)%Q.
Proof.
  revert totals.
  induction counts as [|[uld pcs] counts IH]; intros totals.
  - simpl. unfold Qdiv. ring.
  - cbn [fold_left]. rewrite IH. rewrite (Map_set_sumQ weightKg).
    rewrite map_cons, sumZ_cons. cbn [snd weightKg]. rewrite inject_Z_plus.
    destruct (Map_get totals uld); cbn [weightKg]; unfold Qdiv; ring.
Qed.

(** The shares of the ULDs of a masterbill add up to its weight. *)
Lemma allocate_weight (counts : Map Z) (w : Q) (totals : Map UldTotals) :
  (sumZ (map snd counts) = 0 -> (w == 0)%Q) ->
  (sumQ (map (fun e => weightKg (snd e)) (allocate counts w totals))
   == sumQ (map (fun e => weightKg (snd e)) totals) + w)%Q.
Proof.
  intros Hzero. unfold allocate. rewrite allocate_weight_gen.
  rewrite (fold_left_add_sumZ (fun b => b)), map_id, Z.add_0_l.
  unfold or_count. destruct (sumZ (map snd counts) =? 0) eqn:E.
  - apply Z.eqb_eq in E. rewrite (Hzero E), E. unfold Qdiv. ring.
  - apply Z.eqb_neq in E.
    assert (Hne : ~ (inject_Z (sumZ (map snd counts)) == 0)%Q).
    { unfold Qeq. simpl. lia. }
    field. exact Hne.
Qed.

End Allocation.

Section Provenance.

Lemma occurs_trans (x y z : value) : occurs x y -> occurs y z -> occurs x z.
Proof.
  intros Hxy Hyz. induction Hyz.
  - exact Hxy.
  - eapply occurs_item; eauto.
  - eapply occurs_prop; eauto.
Qed.

Lemma lookup_In (k : string) (props : list (string * value)) :
  lookup k props = JUndefined \/ In (k, lookup k props) props.
Proof.
  induction props as [|[k' v] props IH]; simpl.
  - now left.
  - destruct (String.eqb k k') eqn:E.
    + apply String.eqb_eq in E. subst. right. now left.
    + destruct IH as [IH|IH]; [now left | right; now right].
Qed.

Lemma nth_default_or_In {A} (i : nat) (l : list A) (d : A) : nth i l d = d \/ In (nth i l d) l.
Proof.
  destruct (Nat.lt_ge_cases i (List.length l)) as [H|H].
  - right. now apply nth_In.
  - left. now apply nth_overflow.
Qed.

(** An array or an object read from a property is a part of the value it
    is read from. *)
Lemma js_get_occurs (v : value) (k : string) :
  match js_get v k with
  | JArray _ _ | JObject _ _ => occurs (js_get v k) v
  | _ => True
  end.
Proof.
  destruct v; simpl; try exact I.
  - destruct (String.eqb k "length"); [exact I|].
    destruct (parse_index k); [|exact I].
    destruct (String.get n s); exact I.
  - destruct (String.eqb k "length"); [exact I|].
    destruct (parse_index k) as [i|]; [|exact I].
    destruct (nth_default_or_In i items JUndefined) as [E|E].
    + rewrite E. exact I.
    + destruct (nth i items JUndefined); try exact I;
        (eapply occurs_item; [exact E | constructor]).
  - destruct (lookup_In k props) as [E|E].
    + rewrite E. exact I.
    + destruct (lookup k props); try exact I;
        (eapply occurs_prop; [exact E | constructor]).
Qed.

Lemma array_or_empty_occurs (v x : value) (k : string) :
  In x (array_or_empty (js_get v k)) -> occurs x v.
Proof.
  assert (H := js_get_occurs v k).
  destruct (js_get v k) eqn:E; simpl; try contradiction.
  intros Hin. apply occurs_trans with (JArray ref items); [|exact H].
  eapply occurs_item; [exact Hin | constructor].
Qed.

(** The same through [apiData?.doc ?? apiData]. *)
Lemma doc_array_occurs (apiData x : value) (k : string) :
  In x (array_or_empty (js_get (nullish (js_get apiData "doc") apiData) k)) ->
  occurs x apiData.
Proof.
  intros Hin. assert (H := array_or_empty_occurs _ _ _ Hin).
  assert (Hdoc := js_get_occurs apiData "doc").
  destruct (js_get apiData "doc") eqn:E; cbn [nullish] in *; try exact H;
    try (apply occurs_trans with (1 := H); exact Hdoc);
    inversion H; subst; simpl in Hin; try contradiction.
  destruct (String.eqb k "length"); [contradiction|].
  destruct (parse_index k); [|contradiction].
  destruct (String.get n s); contradiction.
Qed.

Lemma indexed_In {A} (f : A -> value) (i : nat) (l : list A) (k : string) (v : value) :
  In (k, v) (indexed f i l) -> exists a, In a l /\ v = f a.
Proof.
  revert i. induction l as [|a l IH]; simpl; intros i; [contradiction|].
  intros [[= _ <-]|H].
  - exists a. split; [now left | reflexivity].
  - destruct (IH _ H) as [b [Hb ->]]. exists b. split; [now right | reflexivity].
Qed.

Lemma entries_array_occurs (c : value) (k : string) (ref : nat) (items : list value) :
  In (k, JArray ref items) (Object_entries c) -> occurs (JArray ref items) c.
Proof.
  destruct c; simpl; try contradiction.
  - intros H. apply indexed_In in H. destruct H as [a [_ H]]. discriminate.
  - intros H. apply indexed_In in H. destruct H as [a [Ha ->]].
    eapply occurs_item; [exact Ha | constructor].
  - intros H. eapply occurs_prop; [exact H | constructor].
Qed.

Lemma discoverMasterbills_In (entries : list (string * value)) (ms : list value) :
  discoverMasterbills entries = Ok ms -> ms <> [] ->
  exists k ref, In (k, JArray ref ms) entries.
Proof.
  induction entries as [|[k v] entries IH]; simpl.
  - intros [= <-] H. now contradiction H.
  - assert (Hrest : discoverMasterbills entries = Ok ms -> ms <> [] ->
                    exists k0 ref, (k, v) = (k0, JArray ref ms) \/ In (k0, JArray ref ms) entries).
    { intros H1 H2. destruct (IH H1 H2) as [k0 [ref H]]. exists k0, ref. now right. }
    destruct v; try exact Hrest.
    destruct items as [|sample others]; [exact Hrest|].
    destruct (typeof_object sample); [|exact Hrest].
    destruct (has_property "masterbillNumber" sample) as [a|]; simpl; [|discriminate].
    destruct a; simpl.
    + intros [= <-] _. exists k, ref. now left.
    + destruct (has_property "housebills" sample) as [b|]; simpl; [|discriminate].
      destruct b; simpl.
      * intros [= <-] _. exists k, ref. now left.
      * destruct (has_property "pieces" sample) as [c|]; simpl; [|discriminate].
        destruct c; [|exact Hrest].
        intros [= <-] _. exists k, ref. now left.
Qed.

Lemma discovered_occurs (container : value) (ms : list value) (x : value) :
  discoverMasterbills (Object_entries (or_else container (JObject 0 []))) = Ok ms ->
  In x ms -> occurs x container.
Proof.
  intros H Hin.
  destruct (discoverMasterbills_In _ _ H) as [k [ref Hk]].
  { intros ->. contradiction. }
  unfold or_else in Hk. destruct (truthy container); [|simpl in Hk; contradiction].
  apply entries_array_occurs in Hk.
  apply occurs_trans with (JArray ref ms); [|exact Hk].
  apply occurs_item with x; [exact Hin | apply occurs_here].
Qed.

(** The candidate masterbills of a container are parts of the container. *)
Lemma masterbillsOf_occurs (container : value) (ms : list value) (x : value) :
  masterbillsOf container = Ok ms -> In x ms -> occurs x container.
Proof.
  unfold masterbillsOf. intros H Hin.
  assert (Hvia : forall k, In x (array_or_empty (js_get container k)) -> occurs x container)
    by (intros k; apply array_or_empty_occurs).
  destruct (js_get container "masterbills") eqn:E1;
    try (injection H as <-; apply (Hvia "masterbills"); rewrite E1; exact Hin);
    destruct (js_get container "masterbill") eqn:E2;
    try (injection H as <-; apply (Hvia "masterbill"); rewrite E2; exact Hin);
    exact (discovered_occurs _ _ _ H Hin).
Qed.

End Provenance.

Section Invariant.

Variables apiData departureAirport arrivalAirport : value.

Local Notation houseOk := (houseOk apiData departureAirport arrivalAirport).
Local Notation accSums := (accSums apiData departureAirport arrivalAirport).
Local Notation accOk := (accOk apiData departureAirport arrivalAirport).
Local Notation mapOk := (mapOk apiData departureAirport arrivalAirport).

Lemma uldPieceCounts_total (piecesArray housebills : list value) (uldId : value) :
  sumZ (map snd (uldPieceCounts piecesArray uldId (piecesCount piecesArray housebills)))
  = piecesCount piecesArray housebills.
Proof.
  rewrite uldPieceCounts_sum. unfold piecesCount.
  destruct (0 <? List.length piecesArray)%nat; reflexivity.
Qed.

Lemma uldPieceCounts_not_nil (piecesArray : list value) (uldId : value) (n : Z) :
  uldPieceCounts piecesArray uldId n <> [].
Proof.
  unfold uldPieceCounts.
  destruct piecesArray as [|p l]; cbn [List.length Nat.ltb Nat.leb].
  - apply Map_set_not_nil.
  - cbn [fold_left].
    generalize (Map_set_not_nil (V := Z) [] (nullish (js_get p "containerNumber") uldId)
                  (match Map_get (V := Z) [] (nullish (js_get p "containerNumber") uldId)
                   with Some n => n | None => 0 end + 1)).
    generalize (Map_set (V := Z) [] (nullish (js_get p "containerNumber") uldId)
                  (match Map_get (V := Z) [] (nullish (js_get p "containerNumber") uldId)
                   with Some n => n | None => 0 end + 1)).
    induction l as [|q l IH]; intros m Hm; cbn [fold_left]; [exact Hm|].
    apply IH. apply Map_set_not_nil.
Qed.

Lemma allocate_not_nil (counts : Map Z) (w : Q) (totals : Map UldTotals) :
  counts <> [] \/ totals <> [] -> allocate counts w totals <> [].
Proof.
  unfold allocate.
  generalize (or_count (fold_left (fun a b => a + b) (map snd counts) 0) 1). intros t.
  revert totals. induction counts as [|[uld pcs] counts IH]; intros totals H.
  - destruct H as [H|H]; [now contradiction H | exact H].
  - cbn [fold_left]. apply IH. right. apply Map_set_not_nil.
Qed.

(** One masterbill added to an accumulator. *)
Lemma accOk_update (existing : Accumulator) (piecesArray housebills : list value)
      (uldId nog : value) (codes : list string) :
  accSums existing ->
  Forall (fun hb => occurs hb apiData) housebills ->
  accOk {| totalPieces := totalPieces existing + piecesCount piecesArray housebills;
           totalWeightKg := (totalWeightKg existing + totalHouseWeight housebills)%Q;
           uldIdToTotals :=
             allocate (uldPieceCounts piecesArray uldId (piecesCount piecesArray housebills))
                      (totalHouseWeight housebills) (uldIdToTotals existing);
           houseShipments :=
             houseShipments existing
             ++ map (houseShipment departureAirport arrivalAirport) housebills;
           natureOfGoods := nog;
           shcs := codes |}.
Proof.
  intros (Hp & Hw & Hh) Hocc.
  unfold accOk, accSums; cbn [totalPieces totalWeightKg uldIdToTotals houseShipments].
  repeat split.
  - rewrite allocate_pieces, uldPieceCounts_total, Hp. reflexivity.
  - rewrite allocate_weight.
    + rewrite Hw. reflexivity.
    + rewrite uldPieceCounts_total. apply piecesCount_zero_weight.
  - apply Forall_app. split; [exact Hh|].
    apply Forall_map. eapply Forall_impl; [|exact Hocc].
    intros hb Hhb. exists hb. split; [exact Hhb | reflexivity].
  - apply allocate_not_nil. left. apply uldPieceCounts_not_nil.
Qed.

Lemma accSums_new (masterbill : value) : accSums (newAccumulator masterbill).
Proof. unfold accSums. simpl. repeat split. constructor. Qed.

Lemma existing_accSums (m : Map Accumulator) (k masterbill : value) :
  mapOk m ->
  accSums (match Map_get m k with Some acc => acc | None => newAccumulator masterbill end).
Proof.
  intros Hm. destruct (Map_get m k) as [acc|] eqn:E; [|apply accSums_new].
  destruct (Map_get_In _ _ _ E) as [k' Hin].
  unfold mapOk in Hm. rewrite Forall_forall in Hm.
  exact (proj1 (proj2 (Hm _ Hin))).
Qed.

Lemma housebills_occur (masterbill : value) :
  occurs masterbill apiData ->
  Forall (fun hb => occurs hb apiData) (array_or_empty (js_get masterbill "housebills")).
Proof.
  intros H. apply Forall_forall. intros hb Hin.
  apply occurs_trans with masterbill; [|exact H].
  now apply array_or_empty_occurs with "housebills".
Qed.

(** Both loop bodies keep the invariant of the map. *)
Lemma processMasterbill_ok (uldId : value) (m : Map Accumulator) (masterbill : value) :
  mapOk m -> occurs masterbill apiData ->
  mapOk (processMasterbill departureAirport arrivalAirport uldId m masterbill).
Proof.
  intros Hm Hocc. unfold processMasterbill.
  destruct (truthy (nullish (js_get masterbill "masterbillNumber") (JStr ""))) eqn:Et;
    cbn [negb]; [|exact Hm].
  apply (Map_set_Forall (fun k => truthy k = true) accOk); [exact Hm | exact Et |].
  apply accOk_update; [now apply existing_accSums | now apply housebills_occur].
Qed.

Lemma processTopLevelMasterbill_ok (m : Map Accumulator) (masterbill : value) :
  mapOk m -> occurs masterbill apiData ->
  mapOk (processTopLevelMasterbill departureAirport arrivalAirport m masterbill).
Proof.
  intros Hm Hocc. unfold processTopLevelMasterbill.
  destruct (truthy (nullish (js_get masterbill "masterbillNumber") (JStr ""))) eqn:Et;
    cbn [negb]; [|exact Hm].
  apply (Map_set_Forall (fun k => truthy k = true) accOk); [exact Hm | exact Et |].
  apply accOk_update; [now apply existing_accSums | now apply housebills_occur].
Qed.

Lemma fold_left_ok (step : Map Accumulator -> value -> Map Accumulator)
      (masterbills : list value) (m : Map Accumulator) :
  (forall m mb, mapOk m -> occurs mb apiData -> mapOk (step m mb)) ->
  (forall mb, In mb masterbills -> occurs mb apiData) ->
  mapOk m -> mapOk (fold_left step masterbills m).
Proof.
  intros Hstep. revert m. induction masterbills as [|mb l IH]; intros m Hin Hm.
  - exact Hm.
  - cbn [fold_left]. apply IH.
    + intros x Hx. apply Hin. now right.
    + apply Hstep; [exact Hm | apply Hin; now left].
Qed.

Lemma walkContainers_ok (containers : list value) (state state' : Map Accumulator * Z) :
  (forall c, In c containers -> occurs c apiData) ->
  mapOk (fst state) ->
  walkContainers departureAirport arrivalAirport containers state = Ok state' ->
  mapOk (fst state').
Proof.
  revert state. induction containers as [|c l IH]; intros state Hin Hm.
  - intros [= <-]. exact Hm.
  - cbn [walkContainers]. destruct (masterbillsOf c) as [ms|] eqn:E; [|discriminate].
    cbn [bind]. apply IH.
    + intros x Hx. apply Hin. now right.
    + cbn [fst]. apply fold_left_ok; [intros; now apply processMasterbill_ok | | exact Hm].
      intros mb Hmb. apply occurs_trans with c.
      * now apply masterbillsOf_occurs with ms.
      * apply Hin. now left.
Qed.

End Invariant.

Section Aggregator.

Lemma or_count_zero (n : Z) : or_count n 0 = n.
Proof. unfold or_count. destruct (n =? 0) eqn:E; [apply Z.eqb_eq in E; lia | reflexivity]. Qed.

(** What [transformManifest] returns: the shipments of a map that has the
    invariant, and the totals taken over them. *)
Lemma transformManifest_shape (apiData : value) (md : ManifestData.t) :
  transformManifest apiData = Ok md ->
  exists m : Map Accumulator,
    mapOk apiData (departureOf apiData) (arrivalOf apiData) m /\
    ManifestData.shipments md = map shipment m /\
    ManifestData.total_pieces md
      = fold_left (fun sum s => sum + or_count (Shipment.pieces s) 0) (map shipment m) 0 /\
    Weight.value (ManifestData.total_weight md)
      = fold_left (fun sum s => sum + asNumber (JNum (Weight.value (Shipment.weight s))))%Q
                  (map shipment m) 0%Q.
Proof.
  unfold transformManifest.
  fold (docOf apiData). fold (manifestInfoOf apiData).
  fold (departureOf apiData). fold (arrivalOf apiData).
  destruct (walkContainers (departureOf apiData) (arrivalOf apiData)
              (array_or_empty (js_get (docOf apiData) "containers")) ([], 0))
    as [[walked processed]|] eqn:Ew; cbn [bind]; [|discriminate].
  assert (Hwalked : mapOk apiData (departureOf apiData) (arrivalOf apiData) walked).
  { change walked with (fst (walked, processed)).
    eapply walkContainers_ok; [| |exact Ew].
    - intros c Hc. unfold docOf in Hc. now apply doc_array_occurs with "containers".
    - constructor. }
  intros [= <-]. cbn [ManifestData.shipments ManifestData.total_pieces
                      ManifestData.total_weight Weight.value].
  eexists. split; [|repeat split].
  destruct ((processed =? 0) &&
            (0 <? List.length (array_or_empty (js_get (docOf apiData) "masterbills")))%nat).
  - apply fold_left_ok; [intros; now apply processTopLevelMasterbill_ok | | exact Hwalked].
    intros mb Hmb. unfold docOf in Hmb. now apply doc_array_occurs with "masterbills".
  - exact Hwalked.
Qed.

(** Every shipment of the result comes from an entry of the map, with a
    truthy key and an accumulator that has the invariant. *)
Lemma shipment_from_entry (apiData : value) (md : ManifestData.t) (s : Shipment.t) :
  transformManifest apiData = Ok md ->
  In s (ManifestData.shipments md) ->
  exists k acc,
    s = shipment (k, acc) /\ truthy k = true /\
    accSums apiData (departureOf apiData) (arrivalOf apiData) acc /\
    uldIdToTotals acc <> [].
Proof.
  intros H Hs. destruct (transformManifest_shape _ _ H) as (m & Hm & Hsh & _).
  rewrite Hsh in Hs. apply in_map_iff in Hs. destruct Hs as [[k acc] [<- Hin]].
  unfold mapOk in Hm. rewrite Forall_forall in Hm.
  specialize (Hm _ Hin). unfold entryOk, accOk in Hm. cbn [fst snd] in Hm.
  exists k, acc. tauto.
Qed.

End Aggregator.

(** [transformManifest] returns a manifest when the masterbills of every
    container can be found; this is so of a container with an array under
    [masterbills] or [masterbill]. *)
Lemma walkContainers_returns (departureAirport arrivalAirport : value)
      (containers : list value) (state : Map Accumulator * Z) :
  Forall (fun c => exists ms, masterbillsOf c = Ok ms) containers ->
  exists state', walkContainers departureAirport arrivalAirport containers state = Ok state'.
Proof.
  intros H. revert state. induction H as [|c l [ms Hc] _ IH]; intros state.
  - now exists state.
  - cbn [walkContainers]. rewrite Hc. cbn [bind]. apply IH.
Qed.

Lemma transformManifest_returns (apiData : value) :
  Forall (fun c => exists ms, masterbillsOf c = Ok ms)
         (array_or_empty (js_get (docOf apiData) "containers")) ->
  exists md, transformManifest apiData = Ok md.
Proof.
  intros H. unfold transformManifest. fold (docOf apiData).
  destruct (walkContainers_returns
              (nullish (js_get (nullish (js_get (docOf apiData) "manifest") (JObject 0 []))
                               "pointOfLoading") (JStr ""))
              (nullish (js_get (nullish (js_get (docOf apiData) "manifest") (JObject 0 []))
                               "pointOfUnloading") (JStr ""))
              _ ([], 0) H) as [[walked processed] E].
  rewrite E. cbn [bind]. eexists. reflexivity.
Qed.

Lemma masterbillsOf_explicit (container : value) (ref : nat) (ms : list value) :
  js_get container "masterbills" = JArray ref ms \/
  (Array_isArray (js_get container "masterbills") = false /\
   js_get container "masterbill" = JArray ref ms) ->
  masterbillsOf container = Ok ms.
Proof.
  unfold masterbillsOf. intros [H | [H1 H2]].
  - now rewrite H.
  - rewrite H2. now destruct (js_get container "masterbills").
Qed.

(** The fallback path: the pieces without a container go to [UNKNOWN-ULD],
    and the weight of the housebills is shared by the count of pieces. *)
Example top_level_fallback :
  exists md,
    transformManifest top_level_doc = Ok md /\
    map (fun s => (Shipment.awb_number s, Shipment.pieces s,
                   map (fun u => (ULDContent.uld_id u, ULDContent.pieces u,
                                  Qred (Weight.value (ULDContent.weight u))))
                       (Shipment.uld_contents s)))
        (ManifestData.shipments md)
    = [ (JStr "AWB9", 2,
         [ (JStr "PMC777", 1, 4%Q); (JStr "UNKNOWN-ULD", 1, 4%Q) ]) ].
Proof. eexists. split; reflexivity. Qed.

(** C1.  The totals of the manifest that [transformManifest] returns are
    the sums over its shipments: [total_pieces] is the sum of their
    [pieces], and [total_weight.value] is the sum of their [weight.value]. *)
Theorem transformManifest_totals (apiData : value) (md : ManifestData.t) :
  transformManifest apiData = Ok md ->
  ManifestData.total_pieces md
    = sumZ (map Shipment.pieces (ManifestData.shipments md)) /\
  (Weight.value (ManifestData.total_weight md)
    == sumQ (map (fun s => Weight.value (Shipment.weight s)) (ManifestData.shipments md)))%Q.
Proof.
  intros H. destruct (transformManifest_shape _ _ H) as (m & _ & -> & -> & ->).
  split.
  - rewrite fold_left_add_sumZ, Z.add_0_l. f_equal.
    apply map_ext. intros s. apply or_count_zero.
  - rewrite fold_left_add_sumQ, Qplus_0_l. reflexivity.
Qed.

Lemma transformManifest_totals_witness :
  transformManifest sample_doc = Ok sample_manifest /\
  ManifestData.total_pieces sample_manifest
    = sumZ (map Shipment.pieces (ManifestData.shipments sample_manifest)) /\
  (Weight.value (ManifestData.total_weight sample_manifest)
    == sumQ (map (fun s => Weight.value (Shipment.weight s))
                 (ManifestData.shipments sample_manifest)))%Q.
Proof.
  split; [reflexivity|].
  apply (transformManifest_totals sample_doc sample_manifest). reflexivity.
Defined.

(** C2.  In every shipment that [transformManifest] returns with ULD
    contents, the weights of the ULD contents add up to the weight of the
    shipment. *)
Theorem transformManifest_uld_weight (apiData : value) (md : ManifestData.t) (s : Shipment.t) :
  transformManifest apiData = Ok md ->
  In s (ManifestData.shipments md) ->
  Shipment.uld_contents s <> [] ->
  (sumQ (map (fun u => Weight.value (ULDContent.weight u)) (Shipment.uld_contents s))
   == Weight.value (Shipment.weight s))%Q.
Proof.
  intros H Hs _.
  destruct (shipment_from_entry _ _ _ H Hs) as (k & acc & -> & _ & Hsums & _).
  destruct Hsums as (_ & Hw & _).
  cbn [shipment Shipment.uld_contents Shipment.weight Weight.value].
  rewrite map_map. rewrite <- Hw.
  assert (E : map (fun x => Weight.value (ULDContent.weight (uldContent x))) (uldIdToTotals acc)
              = map (fun e => weightKg (snd e)) (uldIdToTotals acc)).
  { apply map_ext. intros [u t]. reflexivity. }
  rewrite E. reflexivity.
Qed.

Lemma transformManifest_uld_weight_witness :
  transformManifest sample_doc = Ok sample_manifest /\
  In sample_shipment (ManifestData.shipments sample_manifest) /\
  Shipment.uld_contents sample_shipment <> [] /\
  (sumQ (map (fun u => Weight.value (ULDContent.weight u))
             (Shipment.uld_contents sample_shipment))
   == Weight.value (Shipment.weight sample_shipment))%Q.
Proof.
  assert (H : transformManifest sample_doc = Ok sample_manifest) by reflexivity.
  assert (Hin : In sample_shipment (ManifestData.shipments sample_manifest))
    by (left; reflexivity).
  assert (Hne : Shipment.uld_contents sample_shipment <> []) by discriminate.
  split; [exact H | split; [exact Hin | split; [exact Hne |]]].
  exact (transformManifest_uld_weight sample_doc sample_manifest sample_shipment H Hin Hne).
Defined.

(** C10.  In every shipment that [transformManifest] returns, the pieces of
    the ULD contents add up to the pieces of the shipment. *)
Theorem transformManifest_uld_pieces (apiData : value) (md : ManifestData.t) (s : Shipment.t) :
  transformManifest apiData = Ok md ->
  In s (ManifestData.shipments md) ->
  sumZ (map ULDContent.pieces (Shipment.uld_contents s)) = Shipment.pieces s.
Proof.
  intros H Hs.
  destruct (shipment_from_entry _ _ _ H Hs) as (k & acc & -> & _ & Hsums & _).
  destruct Hsums as (Hp & _).
  cbn [shipment Shipment.uld_contents Shipment.pieces].
  rewrite map_map, <- Hp. f_equal. apply map_ext. intros [u t]. reflexivity.
Qed.

Lemma transformManifest_uld_pieces_witness :
  transformManifest sample_doc = Ok sample_manifest /\
  In sample_shipment (ManifestData.shipments sample_manifest) /\
  sumZ (map ULDContent.pieces (Shipment.uld_contents sample_shipment))
    = Shipment.pieces sample_shipment.
Proof.
  assert (H : transformManifest sample_doc = Ok sample_manifest) by reflexivity.
  assert (Hin : In sample_shipment (ManifestData.shipments sample_manifest))
    by (left; reflexivity).
  split; [exact H | split; [exact Hin |]].
  exact (transformManifest_uld_pieces sample_doc sample_manifest sample_shipment H Hin).
Defined.

(** C9.  Every house shipment that [transformManifest] returns has its
    chargeable weight equal to its actual weight, and both are the sum of
    the weights of the pieces of the housebill of the document it was built
    from. *)
Theorem transformManifest_house_weights
        (apiData : value) (md : ManifestData.t) (s : Shipment.t) (hs : HouseShipment.t) :
  transformManifest apiData = Ok md ->
  In s (ManifestData.shipments md) ->
  In hs (Shipment.house_shipments s) ->
  HouseShipment.chargeable_weight_kg hs = HouseShipment.actual_weight_kg hs /\
  exists hb : value,
    occurs hb apiData /\
    HouseShipment.hawb_number hs = nullish (js_get hb "housebillNumber") (JStr "") /\
    HouseShipment.pieces hs = Z.of_nat (List.length (hbPieces hb)) /\
    (HouseShipment.actual_weight_kg hs
     == sumQ (map (fun p => asNumber (js_get p "weight")) (hbPieces hb)))%Q.
Proof.
  intros H Hs Hhs.
  destruct (shipment_from_entry _ _ _ H Hs) as (k & acc & -> & _ & Hsums & _).
  destruct Hsums as (_ & _ & Hh).
  cbn [shipment Shipment.house_shipments] in Hhs.
  rewrite Forall_forall in Hh. destruct (Hh _ Hhs) as (hb & Hocc & ->).
  split; [reflexivity|].
  exists hb. repeat split; try assumption.
  cbn [houseShipment HouseShipment.actual_weight_kg]. unfold sumPieceWeights.
  rewrite fold_left_add_sumQ, Qplus_0_l. reflexivity.
Qed.

Lemma transformManifest_house_weights_witness :
  transformManifest sample_doc = Ok sample_manifest /\
  In sample_shipment (ManifestData.shipments sample_manifest) /\
  In sample_house (Shipment.house_shipments sample_shipment) /\
  HouseShipment.chargeable_weight_kg sample_house
    = HouseShipment.actual_weight_kg sample_house.
Proof.
  assert (H : transformManifest sample_doc = Ok sample_manifest) by reflexivity.
  assert (Hin : In sample_shipment (ManifestData.shipments sample_manifest))
    by (left; reflexivity).
  assert (Hh : In sample_house (Shipment.house_shipments sample_shipment))
    by (left; reflexivity).
  split; [exact H | split; [exact Hin | split; [exact Hh |]]].
  exact (proj1 (transformManifest_house_weights
                  sample_doc sample_manifest sample_shipment sample_house H Hin Hh)).
Defined.

Section Skipped.

Variables departureAirport arrivalAirport : value.





End Skipped.



(** C3.  [transformManifest] does raise an exception: on a container that
    has no [masterbills] or [masterbill] array and has a property holding
    an array that starts with [null], the heuristic search applies [in] to
    [null], which is a [TypeError]. *)
Theorem transformManifest_null_sample_throws :
  exists msg, transformManifest null_sample_doc = Throw (TypeError msg).
Proof. eexists. reflexivity. Qed.

(* ================================================================== *)
(** * Properties of the chart helpers *)
(* ================================================================== *)


Section Accessor.













Lemma nonNullObject_test (r : value) :
  typeof_object r && negb (strict_eq r JNull) = true <-> nonNullObject r.
Proof. destruct r; simpl; intuition discriminate. Qed.

End Accessor.



Section Filters.

Lemma strict_eq_iff (a b : value) : strict_eq a b = true <-> strictlyEqual a b.
Proof.
  split.
  - destruct a, b; simpl; try discriminate; intros H.
    + constructor.
    + constructor.
    + apply Bool.eqb_prop in H. subst. constructor.
    + apply Qeq_bool_iff in H. now constructor.
    + apply String.eqb_eq in H. subst. constructor.
    + apply Nat.eqb_eq in H. subst. constructor.
    + apply Nat.eqb_eq in H. subst. constructor.
  - destruct 1; simpl.
    + reflexivity.
    + reflexivity.
    + apply Bool.eqb_reflx.
    + now apply Qeq_bool_iff.
    + apply String.eqb_refl.
    + apply Nat.eqb_refl.
    + apply Nat.eqb_refl.
Qed.

Lemma Qlt_bool_iff (x y : Q) : Qlt_bool x y = true <-> (x < y)%Q.
Proof.
  unfold Qlt_bool. rewrite negb_true_iff. split.
  - intros H. apply Qnot_le_lt. intros Hle. apply Qle_bool_iff in Hle. congruence.
  - intros H. destruct (Qle_bool y x) eqn:E; [|reflexivity].
    apply Qle_bool_iff in E. exfalso. exact (Qlt_not_le _ _ H E).
Qed.








End Filters.



Section Shaper.

Variable manifestData : option ManifestData.t.










(** The specification of the retry keeps its category field through the
    normalisation. *)
Lemma retry_xField (spec : ChartSpec.t) :
  let retry := with_xField spec (defaultCategoryField (ChartSpec.source spec)) in
  ChartSpec.source (normalizeSpecFields retry) = ChartSpec.source spec /\
  ChartSpec.xField (normalizeSpecFields retry)
  = Some (defaultCategoryField (ChartSpec.source spec)).
Proof.
  cbv zeta. split; [reflexivity|].
  unfold normalizeSpecFields, with_xField. cbn [ChartSpec.xField ChartSpec.source].
  destruct (ChartSpec.source spec); reflexivity.
Qed.

Lemma retry_once (spec : ChartSpec.t) (fuel : nat) :
  let retry := with_xField spec (defaultCategoryField (ChartSpec.source spec)) in
  generateChartDataFromSpec manifestData (S fuel) retry
  = Some (fst (shapeData manifestData (normalizeSpecFields retry))).
Proof.
  cbv zeta. cbn [generateChartDataFromSpec].
  destruct (shapeData manifestData _) as [data u] eqn:E. cbn [fst].
  unfold needsRetry. destruct (retry_xField spec) as [Hs Hx]. cbv zeta in Hs, Hx.
  rewrite Hx, Hs, String.eqb_refl. cbn [negb]. now rewrite andb_false_r.
Qed.

End Shaper.

(** Two calls are enough: [generateChartDataFromSpec] returns, with or
    without a retry. *)
Lemma generateChartDataFromSpec_returns
      (manifestData : option ManifestData.t) (spec : ChartSpec.t) :
  exists data,
    forall fuel, generateChartDataFromSpec manifestData (S (S fuel)) spec = Some data.
Proof.
  cbn [generateChartDataFromSpec].
  destruct (shapeData manifestData (normalizeSpecFields spec)) as [data u].
  destruct (needsRetry (normalizeSpecFields spec) data u).
  - eexists. intros fuel.
    exact (retry_once manifestData (normalizeSpecFields spec) fuel).
  - now exists data.
Qed.




(** ** The histogram *)

(** C4, as the code has it.  The histogram does not go under five bins:
    with the values 0, 10 and 20 and a [binCount] of 2 it has 5 bins of
    width 4 over the range from 0 to 20, with the counts 1, 0, 1, 0, 1: the
    value 0 is in the first bin, 10 in the third, and 20 in the last one by
    the clamp of the index. *)
Theorem histogram_five_bins (manifestData : option ManifestData.t) (spec : ChartSpec.t) :
  histogramValues manifestData spec = [0; 10; 20]%Q ->
  ChartSpec.binCount spec = Some 2%Q ->
  histogramBins spec = 5%Q /\
  histogramMin [0; 10; 20]%Q = 0%Q /\
  (histogramStep [0; 10; 20]%Q 5 == 4)%Q /\
  histogram manifestData spec = Ok {| labels := five_labels; counts := [1; 0; 1; 0; 1] |}.
Proof.
  intros Hv Hb. unfold histogram, histogramBins. rewrite Hv, Hb.
  repeat split.
Qed.

Lemma histogram_five_bins_witness :
  histogramValues (Some chart_manifest) histogram_spec = [0; 10; 20]%Q /\
  ChartSpec.binCount histogram_spec = Some 2%Q /\
  histogram (Some chart_manifest) histogram_spec
  = Ok {| labels := five_labels; counts := [1; 0; 1; 0; 1] |}.
Proof.
  assert (Hv : histogramValues (Some chart_manifest) histogram_spec = [0; 10; 20]%Q)
    by reflexivity.
  assert (Hb : ChartSpec.binCount histogram_spec = Some 2%Q) by reflexivity.
  split; [exact Hv | split; [exact Hb |]].
  exact (proj2 (proj2 (proj2 (histogram_five_bins (Some chart_manifest) histogram_spec Hv Hb)))).
Defined.

(** The claim C4 as stated fails: the three shipments of [chart_manifest]
    have 0, 10 and 20 pieces, the specification asks for two bins, and the
    counts are not 2 and 1. *)
Lemma histogram_two_bins_counterexample :
  histogramValues (Some chart_manifest) histogram_spec = [0; 10; 20]%Q /\
  ChartSpec.binCount histogram_spec = Some 2%Q /\
  ~ (exists h, histogram (Some chart_manifest) histogram_spec = Ok h /\
               counts h = [2; 1]).
Proof.
  split; [reflexivity | split; [reflexivity |]].
  intros [h [H Hc]]. vm_compute in H. injection H as <-. discriminate Hc.
Qed.

(* ================================================================== *)
(** * Further properties of [transformManifest] *)
(* ================================================================== *)

Import JS Types ApiService Modal Utils Spec Invariants Examples.
Import Domain AggregateFacts MoreExamples NormalizerFacts ShaperFacts ChartFacts.
Local Open Scope list_scope.

Section MoreAggregation.

Variables departureAirport arrivalAirport : value.

Lemma processMasterbill_unfold (uldId : value) (m : Map Accumulator) (masterbill : value) :
  processMasterbill departureAirport arrivalAirport uldId m masterbill
  = let awbNumber := nullish (js_get masterbill "masterbillNumber") (JStr "") in
    if negb (truthy awbNumber) then m
    else
      let existing := match Map_get m awbNumber with
                      | Some acc => acc
                      | None => newAccumulator masterbill
                      end in
      Map_set m awbNumber
        (addMasterbill departureAirport arrivalAirport existing
           (array_or_empty (js_get masterbill "pieces"))
           (array_or_empty (js_get masterbill "housebills")) uldId
           (fold_left Set_add (shcsOf masterbill) (shcs existing))).
Proof. reflexivity. Qed.

Lemma processTopLevelMasterbill_unfold (m : Map Accumulator) (masterbill : value) :
  processTopLevelMasterbill departureAirport arrivalAirport m masterbill
  = let awbNumber := nullish (js_get masterbill "masterbillNumber") (JStr "") in
    if negb (truthy awbNumber) then m
    else
      let existing := match Map_get m awbNumber with
                      | Some acc => acc
                      | None => newAccumulator masterbill
                      end in
      Map_set m awbNumber
        (addMasterbill departureAirport arrivalAirport existing
           (array_or_empty (js_get masterbill "pieces"))
           (array_or_empty (js_get masterbill "housebills")) (JStr "UNKNOWN-ULD")
           (fold_left Set_add [] (shcs existing))).
Proof. reflexivity. Qed.

(** A property of the map of the shipments that both loop bodies keep holds
    of the map that [transformManifest] finalizes. *)
Lemma walkContainers_keeps (P : Map Accumulator -> Prop)
      (containers : list value) (state state' : Map Accumulator * Z) :
  (forall uldId m mb, P m ->
     P (processMasterbill departureAirport arrivalAirport uldId m mb)) ->
  P (fst state) ->
  walkContainers departureAirport arrivalAirport containers state = Ok state' ->
  P (fst state').
Proof.
  intros Hstep. revert state. induction containers as [|c l IH]; intros state Hm.
  - intros [= <-]. exact Hm.
  - cbn [walkContainers]. destruct (masterbillsOf c) as [ms|]; [|discriminate].
    cbn [bind]. apply IH. cbn [fst].
    generalize (fst state) Hm. clear -Hstep.
    induction ms as [|mb ms IHm]; intros m Hm; [exact Hm|].
    cbn [fold_left]. apply IHm. now apply Hstep.
Qed.

End MoreAggregation.

Lemma transformManifest_keeps (P : Map Accumulator -> Prop) (apiData : value)
      (md : ManifestData.t) :
  P [] ->
  (forall uldId m mb, P m ->
     P (processMasterbill (departureOf apiData) (arrivalOf apiData) uldId m mb)) ->
  (forall m mb, P m ->
     P (processTopLevelMasterbill (departureOf apiData) (arrivalOf apiData) m mb)) ->
  transformManifest apiData = Ok md ->
  exists m, P m /\ ManifestData.shipments md = map shipment m /\
            ManifestData.flight_details md
            = {| FlightDetails.flight_number :=
                   js_String (nullish (js_get (manifestInfoOf apiData) "flightNo") (JStr ""));
                 FlightDetails.departure_airport := departureOf apiData;
                 FlightDetails.arrival_airport := arrivalOf apiData;
                 FlightDetails.departure_date :=
                   js_String (nullish (js_get (manifestInfoOf apiData) "date") (JStr ""));
                 FlightDetails.arrival_date := "" |}.
Proof.
  intros Hnil Hstep Htop. unfold transformManifest.
  fold (docOf apiData). fold (manifestInfoOf apiData).
  fold (departureOf apiData). fold (arrivalOf apiData).
  destruct (walkContainers (departureOf apiData) (arrivalOf apiData)
              (array_or_empty (js_get (docOf apiData) "containers")) ([], 0))
    as [[walked processed]|] eqn:Ew; cbn [bind]; [|discriminate].
  assert (Hwalked : P walked).
  { change walked with (fst (walked, processed)).
    exact (walkContainers_keeps _ _ P _ ([], 0) _ Hstep Hnil Ew). }
  intros [= <-]. cbn [ManifestData.shipments ManifestData.flight_details].
  eexists. split; [|split; reflexivity].
  destruct ((processed =? 0) &&
            (0 <? List.length (array_or_empty (js_get (docOf apiData) "masterbills")))%nat).
  - generalize walked Hwalked.
    induction (array_or_empty (js_get (docOf apiData) "masterbills")) as [|mb ms IHm];
      intros m Hm; [exact Hm|].
    cbn [fold_left]. apply IHm. now apply Htop.
  - exact Hwalked.
Qed.

Section KeyFacts.

Context {V : Type}.

Lemma ForallOrdPairs_snoc {A} (R : A -> A -> Prop) (l : list A) (x : A) :
  ForallOrdPairs R l -> Forall (fun a => R a x) l -> ForallOrdPairs R (l ++ [x]).
Proof.
  induction 1 as [|a l Ha _ IH]; intros Hx; cbn [app].
  - constructor; constructor.
  - inversion Hx; subst. constructor.
    + apply Forall_app. split; [exact Ha | constructor; [assumption | constructor]].
    + now apply IH.
Qed.

(** Setting a key keeps the keys, or adds the key after keys that differ
    from it. *)
Lemma Map_set_keys (m : Map V) (k : value) (v : V) :
  map fst (Map_set m k v) = map fst m \/
  (map fst (Map_set m k v) = map fst m ++ [k] /\
   Forall (fun k' => same_value_zero k' k = false) (map fst m)).
Proof.
  induction m as [|[k' v'] m IH]; cbn [Map_set map fst app].
  - right. split; [reflexivity | constructor].
  - destruct (same_value_zero k' k) eqn:E; cbn [map fst].
    + now left.
    + destruct IH as [IH | [IH1 IH2]].
      * left. now rewrite IH.
      * right. split; [now rewrite IH1 | now constructor].
Qed.

Lemma Map_set_distinct (m : Map V) (k : value) (v : V) :
  distinctKeys m -> distinctKeys (Map_set m k v).
Proof.
  unfold distinctKeys. intros H.
  destruct (Map_set_keys m k v) as [E | [E Hk]]; rewrite E.
  - exact H.
  - now apply ForallOrdPairs_snoc.
Qed.

Lemma Map_set_values (P : V -> Prop) (m : Map V) (k : value) (v : V) :
  Forall (fun e => P (snd e)) m -> P v -> Forall (fun e => P (snd e)) (Map_set m k v).
Proof.
  intros Hm Hv. induction m as [|[k' v'] m IH]; cbn [Map_set].
  - now repeat constructor.
  - inversion Hm; subst. destruct (same_value_zero k' k); constructor; auto.
Qed.

Lemma Map_get_value (P : V -> Prop) (m : Map V) (k : value) (d : V) :
  Forall (fun e => P (snd e)) m -> P d ->
  P (match Map_get m k with Some v => v | None => d end).
Proof.
  intros Hm Hd. induction m as [|[k' v'] m IH]; cbn [Map_get]; [exact Hd|].
  inversion Hm; subst. destruct (same_value_zero k' k); auto.
Qed.

End KeyFacts.

Section MoreAllocation.

Lemma sumQ_app (l1 l2 : list Q) : (sumQ (l1 ++ l2) == sumQ l1 + sumQ l2)%Q.
Proof. induction l1 as [|x l1 IH]; simpl; [ring | rewrite IH; ring]. Qed.

Lemma uldPieceCounts_nonneg (piecesArray : list value) (uldId : value) (n : Z) :
  0 <= n -> Forall (fun e => 0 <= snd e) (uldPieceCounts piecesArray uldId n).
Proof.
  intros Hn. unfold uldPieceCounts. destruct (0 <? List.length piecesArray)%nat.
  - generalize (@nil (value * Z)) (Forall_nil (fun e : value * Z => 0 <= snd e)).
    induction piecesArray as [|p l IH]; intros counts Hc; [exact Hc|].
    cbn [fold_left]. apply IH.
    apply (Map_set_values (fun z => 0 <= z)); [exact Hc|].
    assert (H := Map_get_value (fun z => 0 <= z) counts
                   (nullish (js_get p "containerNumber") uldId) 0 Hc (Z.le_refl 0)).
    cbv beta in H. lia.
  - cbn. constructor; [cbn; lia | constructor].
Qed.

Lemma allocate_keeps (P : UldTotals -> Prop) (counts : Map Z) (w : Q)
      (totals : Map UldTotals) :
  (forall t pcs share, (P t \/ t = {| pieces := 0; weightKg := 0 |}) ->
     In pcs (map snd counts) ->
     P {| pieces := pieces t + pcs; weightKg := (weightKg t + share)%Q |}) ->
  Forall (fun e => P (snd e)) totals ->
  Forall (fun e => P (snd e)) (allocate counts w totals).
Proof.
  unfold allocate.
  generalize (or_count (fold_left (fun a b => a + b) (map snd counts) 0) 1). intros t.
  revert totals. induction counts as [|[uld pcs] counts IH]; intros totals Hstep Ht.
  - exact Ht.
  - cbn [fold_left]. apply IH.
    + intros t0 p share H0 Hp. apply Hstep; [exact H0 | now right].
    + apply Map_set_values; [exact Ht|]. apply Hstep; [|now left].
      destruct (Map_get totals uld) as [old|] eqn:E; [left | now right].
      clear -E Ht. induction totals as [|[k' v'] totals IHt]; [discriminate|].
      inversion Ht; subst. cbn [Map_get] in E.
      destruct (same_value_zero k' uld); [now injection E as <- | auto].
Qed.

Lemma allocate_distinct (counts : Map Z) (w : Q) (totals : Map UldTotals) :
  distinctKeys totals -> distinctKeys (allocate counts w totals).
Proof.
  unfold allocate.
  generalize (or_count (fold_left (fun a b => a + b) (map snd counts) 0) 1). intros t.
  revert totals. induction counts as [|[uld pcs] counts IH]; intros totals H; [exact H|].
  cbn [fold_left]. apply IH. now apply Map_set_distinct.
Qed.

Lemma Set_add_NoDup (s : list string) (x : string) : NoDup s -> NoDup (Set_add s x).
Proof.
  intros H. unfold Set_add. destruct (existsb (String.eqb x) s) eqn:E; [exact H|].
  apply NoDup_app; [exact H | repeat constructor; intros [] | ].
  intros y Hy [Hxy | []]. subst y.
  assert (Hex : existsb (String.eqb x) s = true).
  { apply existsb_exists. exists x. split; [exact Hy | apply String.eqb_refl]. }
  congruence.
Qed.

Lemma fold_Set_add_NoDup (codes s : list string) : NoDup s -> NoDup (fold_left Set_add codes s).
Proof.
  revert s. induction codes as [|c codes IH]; intros s H; [exact H|].
  cbn [fold_left]. apply IH. now apply Set_add_NoDup.
Qed.

Lemma totalHouseWeight_houses (departureAirport arrivalAirport : value)
      (housebills : list value) :
  (totalHouseWeight housebills
   == sumQ (map HouseShipment.actual_weight_kg
                (map (houseShipment departureAirport arrivalAirport) housebills)))%Q.
Proof.
  unfold totalHouseWeight. rewrite fold_left_add_sumQ, Qplus_0_l, map_map. reflexivity.
Qed.

End MoreAllocation.

Section ExtraInvariant.

Variables departureAirport arrivalAirport : value.

Local Notation mapExtra := (mapExtra departureAirport arrivalAirport).

Lemma accExtra_new (masterbill : value) :
  accExtra departureAirport arrivalAirport (newAccumulator masterbill).
Proof.
  unfold accExtra, distinctKeys. cbn. repeat split; try constructor; try lia.
Qed.

Lemma accExtra_add (existing : Accumulator) (piecesArray housebills : list value)
      (uldId : value) (codes : list string) :
  accExtra departureAirport arrivalAirport existing ->
  accExtra departureAirport arrivalAirport
    (addMasterbill departureAirport arrivalAirport existing piecesArray housebills uldId
       (fold_left Set_add codes (shcs existing))).
Proof.
  intros (Hw & Hr & Hp & Hz & Hu & Hc & Hd).
  assert (Hn := piecesCount_nonneg piecesArray housebills).
  unfold accExtra, addMasterbill.
  cbn [totalPieces totalWeightKg uldIdToTotals houseShipments shcs].
  repeat split.
  - rewrite map_app, sumQ_app, Hw, <- totalHouseWeight_houses. reflexivity.
  - apply Forall_app. split; [exact Hr|].
    apply Forall_map, Forall_forall. intros hb _. split; reflexivity.
  - lia.
  - intros H0. rewrite Hz by lia.
    rewrite (piecesCount_zero_weight piecesArray housebills) by lia. reflexivity.
  - apply (allocate_keeps (fun t => 0 <= pieces t)); [|exact Hu].
    intros t pcs share Ht Hin. cbn [pieces].
    assert (Hpcs : 0 <= pcs).
    { assert (Hall := uldPieceCounts_nonneg piecesArray uldId _ Hn).
      apply in_map_iff in Hin. destruct Hin as [e [<- He]].
      rewrite Forall_forall in Hall. now apply Hall. }
    destruct Ht as [Ht | ->]; cbn [pieces]; lia.
  - now apply fold_Set_add_NoDup.
  - now apply allocate_distinct.
Qed.

Lemma mapExtra_set (m : Map Accumulator) (k masterbill : value)
      (piecesArray housebills : list value) (uldId : value) (codes : list string) :
  mapExtra m ->
  let existing := match Map_get m k with Some acc => acc | None => newAccumulator masterbill end in
  mapExtra (Map_set m k
              (addMasterbill departureAirport arrivalAirport existing piecesArray housebills
                 uldId (fold_left Set_add codes (shcs existing)))).
Proof.
  intros [Hd Ha] existing. split.
  - now apply Map_set_distinct.
  - apply Map_set_values; [exact Ha|]. apply accExtra_add.
    apply (Map_get_value (accExtra departureAirport arrivalAirport));
      [exact Ha | apply accExtra_new].
Qed.

Lemma processMasterbill_extra (uldId : value) (m : Map Accumulator) (masterbill : value) :
  mapExtra m -> mapExtra (processMasterbill departureAirport arrivalAirport uldId m masterbill).
Proof.
  intros H. rewrite processMasterbill_unfold. cbv zeta.
  destruct (negb (truthy _)); [exact H | now apply mapExtra_set].
Qed.

Lemma processTopLevelMasterbill_extra (m : Map Accumulator) (masterbill : value) :
  mapExtra m -> mapExtra (processTopLevelMasterbill departureAirport arrivalAirport m masterbill).
Proof.
  intros H. rewrite processTopLevelMasterbill_unfold. cbv zeta.
  destruct (negb (truthy _)); [exact H | now apply mapExtra_set].
Qed.

End ExtraInvariant.

(** The shipments that [transformManifest] returns come from a map with
    distinct keys, of accumulators with the invariant. *)
Lemma transformManifest_extra (apiData : value) (md : ManifestData.t) :
  transformManifest apiData = Ok md ->
  exists m,
    mapExtra (departureOf apiData) (arrivalOf apiData) m /\
    ManifestData.shipments md = map shipment m /\
    FlightDetails.departure_airport (ManifestData.flight_details md) = departureOf apiData /\
    FlightDetails.arrival_airport (ManifestData.flight_details md) = arrivalOf apiData.
Proof.
  intros H.
  destruct (transformManifest_keeps
              (mapExtra (departureOf apiData) (arrivalOf apiData)) apiData md) as (m & Hm & Hs & Hf).
  - split; constructor.
  - intros. now apply processMasterbill_extra.
  - intros. now apply processTopLevelMasterbill_extra.
  - exact H.
  - exists m. rewrite Hf. split; [exact Hm | split; [exact Hs | split; reflexivity]].
Qed.


Section OrderedPairs.

Lemma ForallOrdPairs_map {A B} (f : A -> B) (R : B -> B -> Prop) (l : list A) :
  ForallOrdPairs R (map f l) -> ForallOrdPairs (fun a b => R (f a) (f b)) l.
Proof.
  induction l as [|a l IH]; cbn [map]; intros H; [constructor|].
  inversion H; subst. constructor; [|now apply IH].
  now apply Forall_map.
Qed.

Lemma ForallOrdPairs_impl {A} (R R' : A -> A -> Prop) (l : list A) :
  (forall a b, R a b -> R' a b) -> ForallOrdPairs R l -> ForallOrdPairs R' l.
Proof.
  intros HR. induction 1; constructor; [|assumption].
  eapply Forall_impl; [|eassumption]. apply HR.
Qed.

End OrderedPairs.

(** X1.  The AWB number is a key: no two shipments that
    [transformManifest] returns have the same [awb_number]. *)
Theorem transformManifest_awb_unique (apiData : value) (md : ManifestData.t) :
  transformManifest apiData = Ok md ->
  ForallOrdPairs (fun s1 s2 => ~ strictlyEqual (Shipment.awb_number s1) (Shipment.awb_number s2))
                 (ManifestData.shipments md).
Proof.
  intros H. destruct (transformManifest_extra _ _ H) as (m & [Hd _] & -> & _).
  apply (ForallOrdPairs_map Shipment.awb_number (fun a b => ~ strictlyEqual a b)).
  assert (E : map Shipment.awb_number (map shipment m) = map fst m).
  { rewrite map_map. apply map_ext. intros [k acc]. reflexivity. }
  rewrite E. eapply ForallOrdPairs_impl; [|exact Hd].
  intros a b Hab Heq. apply strict_eq_iff in Heq. unfold same_value_zero in Hab. congruence.
Qed.

Lemma transformManifest_awb_unique_witness :
  transformManifest two_container_doc = Ok two_container_manifest /\
  ForallOrdPairs (fun s1 s2 => ~ strictlyEqual (Shipment.awb_number s1) (Shipment.awb_number s2))
                 (ManifestData.shipments two_container_manifest).
Proof.
  assert (H : transformManifest two_container_doc = Ok two_container_manifest)
    by (vm_compute; reflexivity).
  split; [exact H |].
  exact (transformManifest_awb_unique two_container_doc two_container_manifest H).
Defined.

Lemma shipment_extra (apiData : value) (md : ManifestData.t) (s : Shipment.t) :
  transformManifest apiData = Ok md ->
  In s (ManifestData.shipments md) ->
  exists k acc,
    s = shipment (k, acc) /\
    accExtra (FlightDetails.departure_airport (ManifestData.flight_details md))
             (FlightDetails.arrival_airport (ManifestData.flight_details md)) acc.
Proof.
  intros H Hs. destruct (transformManifest_extra _ _ H) as (m & [_ Hm] & Hsh & -> & ->).
  rewrite Hsh in Hs. apply in_map_iff in Hs. destruct Hs as [[k acc] [<- Hin]].
  rewrite Forall_forall in Hm. exists k, acc. split; [reflexivity | exact (Hm _ Hin)].
Qed.

(** X2.  Weight comes from the house bills alone: a shipment that
    [transformManifest] returns without house shipments weighs 0 kg,
    whatever the number of its pieces. *)
Theorem transformManifest_weight_needs_houses
        (apiData : value) (md : ManifestData.t) (s : Shipment.t) :
  transformManifest apiData = Ok md ->
  In s (ManifestData.shipments md) ->
  Shipment.house_shipments s = [] ->
  (Weight.value (Shipment.weight s) == 0)%Q.
Proof.
  intros H Hs Hh. destruct (shipment_extra _ _ _ H Hs) as (k & acc & -> & Hw & _).
  cbn [shipment Shipment.house_shipments Shipment.weight Weight.value] in *.
  rewrite Hw, Hh. reflexivity.
Qed.

Lemma transformManifest_weight_needs_houses_witness :
  transformManifest pieces_only_doc = Ok pieces_only_manifest /\
  In (first_shipment pieces_only_manifest) (ManifestData.shipments pieces_only_manifest) /\
  Shipment.house_shipments (first_shipment pieces_only_manifest) = [] /\
  Shipment.pieces (first_shipment pieces_only_manifest) = 2 /\
  (Weight.value (Shipment.weight (first_shipment pieces_only_manifest)) == 0)%Q.
Proof.
  assert (H : transformManifest pieces_only_doc = Ok pieces_only_manifest)
    by (vm_compute; reflexivity).
  assert (Hin : In (first_shipment pieces_only_manifest)
                   (ManifestData.shipments pieces_only_manifest)) by (left; reflexivity).
  assert (Hh : Shipment.house_shipments (first_shipment pieces_only_manifest) = [])
    by reflexivity.
  split; [exact H | split; [exact Hin | split; [exact Hh | split; [reflexivity |]]]].
  exact (transformManifest_weight_needs_houses _ _ _ H Hin Hh).
Defined.

(** X3.  Every house shipment that [transformManifest] returns has the
    route of the flight: its origin is the departure airport of the
    manifest and its destination the arrival airport. *)
Theorem transformManifest_house_route
        (apiData : value) (md : ManifestData.t) (s : Shipment.t) (hs : HouseShipment.t) :
  transformManifest apiData = Ok md ->
  In s (ManifestData.shipments md) ->
  In hs (Shipment.house_shipments s) ->
  HouseShipment.origin hs
    = FlightDetails.departure_airport (ManifestData.flight_details md) /\
  HouseShipment.destination hs
    = FlightDetails.arrival_airport (ManifestData.flight_details md).
Proof.
  intros H Hs Hhs. destruct (shipment_extra _ _ _ H Hs) as (k & acc & -> & _ & Hr & _).
  rewrite Forall_forall in Hr. exact (Hr _ Hhs).
Qed.

Lemma transformManifest_house_route_witness :
  transformManifest sample_doc = Ok sample_manifest /\
  In sample_shipment (ManifestData.shipments sample_manifest) /\
  In sample_house (Shipment.house_shipments sample_shipment) /\
  HouseShipment.origin sample_house
    = FlightDetails.departure_airport (ManifestData.flight_details sample_manifest) /\
  HouseShipment.destination sample_house
    = FlightDetails.arrival_airport (ManifestData.flight_details sample_manifest).
Proof.
  assert (H : transformManifest sample_doc = Ok sample_manifest) by reflexivity.
  assert (Hin : In sample_shipment (ManifestData.shipments sample_manifest))
    by (left; reflexivity).
  assert (Hh : In sample_house (Shipment.house_shipments sample_shipment))
    by (left; reflexivity).
  split; [exact H | split; [exact Hin | split; [exact Hh |]]].
  exact (transformManifest_house_route _ _ _ _ H Hin Hh).
Defined.

(** X4.  The special handling codes of a shipment that [transformManifest]
    returns hold no code twice. *)
Theorem transformManifest_codes_unique
        (apiData : value) (md : ManifestData.t) (s : Shipment.t) :
  transformManifest apiData = Ok md ->
  In s (ManifestData.shipments md) ->
  NoDup (Shipment.special_handling_codes s).
Proof.
  intros H Hs.
  destruct (shipment_extra _ _ _ H Hs) as (k & acc & -> & _ & _ & _ & _ & _ & Hc & _).
  exact Hc.
Qed.

Lemma transformManifest_codes_unique_witness :
  transformManifest two_container_doc = Ok two_container_manifest /\
  In (first_shipment two_container_manifest) (ManifestData.shipments two_container_manifest) /\
  NoDup (Shipment.special_handling_codes (first_shipment two_container_manifest)).
Proof.
  assert (H : transformManifest two_container_doc = Ok two_container_manifest)
    by (vm_compute; reflexivity).
  assert (Hin : In (first_shipment two_container_manifest)
                   (ManifestData.shipments two_container_manifest)) by (left; reflexivity).
  split; [exact H | split; [exact Hin |]].
  exact (transformManifest_codes_unique _ _ _ H Hin).
Defined.

(** X5.  Within a shipment that [transformManifest] returns, no two ULD
    contents have the same [uld_id]. *)
Theorem transformManifest_uld_unique
        (apiData : value) (md : ManifestData.t) (s : Shipment.t) :
  transformManifest apiData = Ok md ->
  In s (ManifestData.shipments md) ->
  ForallOrdPairs (fun u1 u2 => ~ strictlyEqual (ULDContent.uld_id u1) (ULDContent.uld_id u2))
                 (Shipment.uld_contents s).
Proof.
  intros H Hs.
  destruct (shipment_extra _ _ _ H Hs) as (k & acc & -> & _ & _ & _ & _ & _ & _ & Hd).
  cbn [shipment Shipment.uld_contents].
  apply (ForallOrdPairs_map ULDContent.uld_id (fun a b => ~ strictlyEqual a b)).
  assert (E : map ULDContent.uld_id (map uldContent (uldIdToTotals acc))
              = map fst (uldIdToTotals acc)).
  { rewrite map_map. apply map_ext. intros [u t]. reflexivity. }
  rewrite E. eapply ForallOrdPairs_impl; [|exact Hd].
  intros a b Hab Heq. apply strict_eq_iff in Heq. unfold same_value_zero in Hab. congruence.
Qed.

Lemma transformManifest_uld_unique_witness :
  transformManifest two_container_doc = Ok two_container_manifest /\
  In (first_shipment two_container_manifest) (ManifestData.shipments two_container_manifest) /\
  ForallOrdPairs (fun u1 u2 => ~ strictlyEqual (ULDContent.uld_id u1) (ULDContent.uld_id u2))
                 (Shipment.uld_contents (first_shipment two_container_manifest)).
Proof.
  assert (H : transformManifest two_container_doc = Ok two_container_manifest)
    by (vm_compute; reflexivity).
  assert (Hin : In (first_shipment two_container_manifest)
                   (ManifestData.shipments two_container_manifest)) by (left; reflexivity).
  split; [exact H | split; [exact Hin |]].
  exact (transformManifest_uld_unique _ _ _ H Hin).
Defined.

(** X6.  No count of pieces that [transformManifest] returns is negative,
    and a shipment without pieces has no weight. *)
Theorem transformManifest_pieces_nonneg
        (apiData : value) (md : ManifestData.t) (s : Shipment.t) :
  transformManifest apiData = Ok md ->
  In s (ManifestData.shipments md) ->
  0 <= Shipment.pieces s /\
  Forall (fun u => 0 <= ULDContent.pieces u) (Shipment.uld_contents s) /\
  (Shipment.pieces s = 0 -> (Weight.value (Shipment.weight s) == 0)%Q).
Proof.
  intros H Hs.
  destruct (shipment_extra _ _ _ H Hs) as (k & acc & -> & _ & _ & Hp & Hz & Hu & _).
  cbn [shipment Shipment.pieces Shipment.uld_contents Shipment.weight Weight.value].
  split; [exact Hp | split; [| exact Hz]].
  apply Forall_map. eapply Forall_impl; [|exact Hu]. intros [u t] Ht. exact Ht.
Qed.

Lemma transformManifest_pieces_nonneg_witness :
  transformManifest two_container_doc = Ok two_container_manifest /\
  In (first_shipment two_container_manifest) (ManifestData.shipments two_container_manifest) /\
  0 <= Shipment.pieces (first_shipment two_container_manifest).
Proof.
  assert (H : transformManifest two_container_doc = Ok two_container_manifest)
    by (vm_compute; reflexivity).
  assert (Hin : In (first_shipment two_container_manifest)
                   (ManifestData.shipments two_container_manifest)) by (left; reflexivity).
  split; [exact H | split; [exact Hin |]].
  exact (proj1 (transformManifest_pieces_nonneg _ _ _ H Hin)).
Defined.

(** X7.  On a plain document, [transformManifest] returns a manifest,
    without an exception, whenever every container has an array under
    [masterbills] or under [masterbill]: the heuristic search is then the
    only part that can raise.  (On a document that is not plain, the
    conversions to a string raise, those of the log among them.) *)
Theorem transformManifest_returns_explicit (apiData : value) :
  plain apiData = true ->
  Forall (fun c => Array_isArray (js_get c "masterbills") = true \/
                   Array_isArray (js_get c "masterbill") = true)
         (array_or_empty (js_get (docOf apiData) "containers")) ->
  exists md, transformManifest apiData = Ok md.
Proof.
  intros _ H. apply transformManifest_returns.
  eapply Forall_impl; [|exact H]. intros c [Hc | Hc].
  - destruct (js_get c "masterbills") as [| | | | |ref ms|] eqn:E; try discriminate.
    exists ms. apply (masterbillsOf_explicit c ref). now left.
  - destruct (js_get c "masterbill") as [| | | | |ref ms|] eqn:E2; try discriminate.
    destruct (Array_isArray (js_get c "masterbills")) eqn:E.
    + destruct (js_get c "masterbills") as [| | | | |ref' ms'|] eqn:E1; try discriminate.
      exists ms'. apply (masterbillsOf_explicit c ref'). now left.
    + exists ms. apply (masterbillsOf_explicit c ref). right. now split.
Qed.

Lemma transformManifest_returns_explicit_witness :
  plain two_container_doc = true /\
  transformManifest two_container_doc = Ok two_container_manifest.
Proof.
  assert (Hp : plain two_container_doc = true) by reflexivity.
  split; [exact Hp |].
  destruct (transformManifest_returns_explicit two_container_doc Hp
              ltac:(repeat constructor)) as [md Hmd].
  rewrite Hmd. f_equal. apply (f_equal (fun r => match r with
                                                 | Ok m => m
                                                 | Throw _ => two_container_manifest
                                                 end)) in Hmd.
  rewrite <- Hmd. vm_compute. reflexivity.
Defined.

(** X8.  A plain document without an array of containers and without an
    array of top-level masterbills -- [null], a number, a string, an empty
    object -- gives a manifest without shipments, with 0 pieces and a
    weight of 0 kg. *)
Theorem transformManifest_empty (apiData : value) :
  plain apiData = true ->
  array_or_empty (js_get (docOf apiData) "containers") = [] ->
  array_or_empty (js_get (docOf apiData) "masterbills") = [] ->
  exists md,
    transformManifest apiData = Ok md /\
    ManifestData.shipments md = [] /\
    ManifestData.total_pieces md = 0 /\
    ManifestData.total_weight md = {| Weight.value := 0; Weight.unit := "kg" |}.
Proof.
  intros _ Hc Hm. unfold transformManifest. fold (docOf apiData). rewrite Hc, Hm.
  cbn. eexists. repeat split.
Qed.

Lemma transformManifest_empty_witness :
  exists md,
    transformManifest JNull = Ok md /\
    ManifestData.shipments md = [] /\
    ManifestData.total_pieces md = 0 /\
    ManifestData.total_weight md = {| Weight.value := 0; Weight.unit := "kg" |}.
Proof.
  apply (transformManifest_empty JNull); reflexivity.
Defined.

Section Fallback.

Lemma fold_processed (departureAirport arrivalAirport : value) (containers : list value)
      (state state' : Map Accumulator * Z) :
  walkContainers departureAirport arrivalAirport containers state = Ok state' ->
  snd state <= snd state' /\
  ((exists c mb ms, In c containers /\ masterbillsOf c = Ok (mb :: ms)) ->
   snd state < snd state').
Proof.
  revert state. induction containers as [|c l IH]; intros state.
  - intros [= <-]. split; [lia | intros (c & _ & _ & [] & _)].
  - cbn [walkContainers]. destruct (masterbillsOf c) as [found|] eqn:E; [|discriminate].
    cbn [bind]. intros H. destruct (IH _ H) as [Hle Hlt]. cbn [snd] in Hle, Hlt.
    split; [lia|].
    intros (c' & mb & ms & [<- | Hin] & Hc').
    + rewrite E in Hc'. injection Hc' as ->. cbn [List.length] in Hle. lia.
    + assert (snd state + Z.of_nat (List.length found) < snd state')
        by (apply Hlt; now exists c', mb, ms).
      lia.
Qed.

End Fallback.

(** X9.  The top-level masterbills are a fallback only: once the walk over
    the containers has found a candidate masterbill, even one that is then
    skipped, [transformManifest] does not read them.  Two documents with
    the same manifest block and the same containers then give the same
    result, whatever their top-level masterbills. *)
Theorem transformManifest_ignores_top_level (apiData apiData' : value) :
  manifestInfoOf apiData = manifestInfoOf apiData' ->
  array_or_empty (js_get (docOf apiData) "containers")
    = array_or_empty (js_get (docOf apiData') "containers") ->
  (exists c mb ms,
     In c (array_or_empty (js_get (docOf apiData) "containers")) /\
     masterbillsOf c = Ok (mb :: ms)) ->
  transformManifest apiData = transformManifest apiData'.
Proof.
  intros Hinfo Hcs Hfound. unfold transformManifest.
  fold (docOf apiData). fold (docOf apiData').
  fold (manifestInfoOf apiData). fold (manifestInfoOf apiData').
  rewrite <- Hinfo, <- Hcs.
  destruct (walkContainers _ _ _ ([], 0)) as [[walked processed]|] eqn:Ew; [|reflexivity].
  destruct (fold_processed _ _ _ _ _ Ew) as [_ Hlt]. specialize (Hlt Hfound).
  cbn [snd] in Hlt. cbn [bind].
  assert (E : (processed =? 0) = false) by (apply Z.eqb_neq; lia).
  rewrite E. reflexivity.
Qed.

Lemma transformManifest_ignores_top_level_witness :
  transformManifest
    (JObject 1 [ ("containers",
                  JArray 2 [ JObject 3 [ ("masterbills", JArray 4 [ JNull ]) ] ]);
                 ("masterbills",
                  JArray 5 [ JObject 6 [ ("masterbillNumber", JStr "AWB7") ] ]) ])
  = transformManifest
      (JObject 1 [ ("containers",
                    JArray 2 [ JObject 3 [ ("masterbills", JArray 4 [ JNull ]) ] ]) ]).
Proof.
  apply transformManifest_ignores_top_level; [reflexivity | reflexivity |].
  exists (JObject 3 [ ("masterbills", JArray 4 [ JNull ]) ]), JNull, [].
  split; [left; reflexivity | reflexivity].
Defined.

(* ================================================================== *)
(** * The anomaly report and the rules of [analyzeShipment] *)
(* ================================================================== *)

(** X10.  The anomaly report of the assistant never holds the row
    [No ULD association] for a manifest that [transformManifest] returns:
    every shipment of such a manifest has a ULD, so that a weight mismatch
    is the only anomaly that can be reported. *)
Theorem anomalies_of_transformManifest (apiData : value) (md : ManifestData.t) :
  transformManifest apiData = Ok md ->
  Forall (fun s => Shipment.uld_contents s <> []) (ManifestData.shipments md) /\
  Forall (fun a => Anomaly.issue a = "Weight mismatch") (anomalies (Some md)).
Proof.
  intros H.
  assert (Hu : Forall (fun s => Shipment.uld_contents s <> []) (ManifestData.shipments md)).
  { apply Forall_forall. intros s Hs.
    destruct (shipment_from_entry _ _ _ H Hs) as (k & acc & -> & _ & _ & Hne).
    cbn [shipment Shipment.uld_contents]. intros E. apply Hne.
    now apply map_eq_nil in E. }
  split; [exact Hu |]. unfold anomalies.
  induction Hu as [|s l Hs _ IH]; [constructor|].
  cbn [flat_map]. apply Forall_app. split; [|exact IH].
  unfold shipmentAnomalies. apply Forall_app. split.
  - destruct (Qlt_bool _ _); repeat constructor.
  - destruct (Shipment.uld_contents s); [now contradiction Hs | constructor].
Qed.

Lemma anomalies_of_transformManifest_witness :
  transformManifest two_container_doc = Ok two_container_manifest /\
  Forall (fun s => Shipment.uld_contents s <> [])
         (ManifestData.shipments two_container_manifest) /\
  Forall (fun a => Anomaly.issue a = "Weight mismatch")
         (anomalies (Some two_container_manifest)).
Proof.
  assert (H : transformManifest two_container_doc = Ok two_container_manifest)
    by (vm_compute; reflexivity).
  split; [exact H |].
  exact (anomalies_of_transformManifest two_container_doc two_container_manifest H).
Defined.

Section Issues.

Lemma someVague_string (s : string) (descriptions : list string) :
  exists b, someVague (JStr s) descriptions = Ok b.
Proof.
  induction descriptions as [|d l IH]; cbn [someVague call_toLowerCase bind].
  - now exists false.
  - destruct (includes (toLowerCase s) d); [now exists true | exact IH].
Qed.

Lemma someVague_not_string (v : value) :
  typeof_string v = false ->
  exists msg, someVague v vagueGoodsDescriptions = Throw (TypeError msg).
Proof.
  destruct v; cbn; try discriminate; intros _; eexists; reflexivity.
Qed.

Lemma someHighValue_strings (house_shipments : list HouseShipment.t) :
  Forall (fun h => match HouseShipment.remarks h with
                   | JUndefined | JNull | JStr _ => True
                   | _ => False
                   end) house_shipments ->
  exists b, someHighValue house_shipments = Ok b.
Proof.
  induction 1 as [|h l Hh _ IH]; cbn [someHighValue].
  - now exists false.
  - destruct (HouseShipment.remarks h); try contradiction; try exact IH.
    cbn [call_toLowerCase bind].
    destruct (includes (toLowerCase s) "high value"); [now exists true | exact IH].
Qed.

End Issues.

(** X11.  [analyzeShipment] returns its issues when the nature of goods is
    a string and every remark is a string or absent; it raises a
    [TypeError] when the nature of goods is anything but a string, as it
    calls [toLowerCase] on it. *)
Theorem analyzeShipment_returns (shipment : Shipment.t) :
  (forall s,
     Shipment.nature_of_goods shipment = JStr s ->
     Forall (fun h => match HouseShipment.remarks h with
                      | JUndefined | JNull | JStr _ => True
                      | _ => False
                      end) (Shipment.house_shipments shipment) ->
     exists issues, analyzeShipment shipment = Ok issues) /\
  (typeof_string (Shipment.nature_of_goods shipment) = false ->
   exists msg, analyzeShipment shipment = Throw (TypeError msg)).
Proof.
  split.
  - intros s Hs Hr. unfold analyzeShipment. rewrite Hs.
    destruct (someVague_string s vagueGoodsDescriptions) as [b ->]. cbn [bind].
    destruct (someHighValue_strings _ Hr) as [b' ->]. cbn [bind].
    eexists. reflexivity.
  - intros Hn. unfold analyzeShipment.
    destruct (someVague_not_string _ Hn) as [msg ->]. cbn [bind]. now exists msg.
Qed.

Lemma analyzeShipment_returns_witness :
  exists issues, analyzeShipment (first_shipment two_container_manifest) = Ok issues.
Proof.
  apply (proj1 (analyzeShipment_returns (first_shipment two_container_manifest)) "").
  - reflexivity.
  - repeat constructor.
Defined.

(** X12.  [transformManifest] never fills the storage instructions, so
    that [analyzeShipment] reports every shipment it returns with the code
    [PIL] as perishable goods without storage instructions, a warning. *)
Theorem analyzeShipment_perishable
        (apiData : value) (md : ManifestData.t) (s : Shipment.t)
        (issues : list ShipmentIssue.t) :
  transformManifest apiData = Ok md ->
  In s (ManifestData.shipments md) ->
  In "PIL" (Shipment.special_handling_codes s) ->
  analyzeShipment s = Ok issues ->
  In {| ShipmentIssue.id := "issue-pil-" ++ js_String (Shipment.awb_number s);
        ShipmentIssue.level := Warning;
        ShipmentIssue.message := "Perishable goods (PIL) have no storage instructions.";
        ShipmentIssue.suggestion :=
          "Add specific temperature range and storage instructions to prevent spoilage and ensure compliance." |}
     issues.
Proof.
  intros H Hs Hpil Ha.
  destruct (shipment_from_entry _ _ _ H Hs) as (k & acc & -> & _).
  unfold analyzeShipment in Ha.
  destruct (someVague _ _) as [vague|]; cbn [bind] in Ha; [|discriminate].
  destruct (someHighValue _) as [high|]; cbn [bind] in Ha; [|discriminate].
  apply (f_equal (fun r => match r with Ok l => l | Throw _ => [] end)) in Ha.
  cbv beta iota zeta in Ha. rewrite <- Ha. clear Ha.
  assert (Hc : codes_include (Shipment.special_handling_codes (shipment (k, acc))) "PIL" = true).
  { unfold codes_include. apply existsb_exists. exists "PIL".
    split; [exact Hpil | reflexivity]. }
  rewrite Hc. cbn [shipment Shipment.storage_instructions truthy negb andb].
  apply in_or_app. right. apply in_or_app. right. apply in_or_app. right.
  apply in_or_app. left. now left.
Qed.

Lemma analyzeShipment_perishable_witness :
  transformManifest two_container_doc = Ok two_container_manifest /\
  In (first_shipment two_container_manifest) (ManifestData.shipments two_container_manifest) /\
  In "PIL" (Shipment.special_handling_codes (first_shipment two_container_manifest)) /\
  exists issues,
    analyzeShipment (first_shipment two_container_manifest) = Ok issues /\
    In {| ShipmentIssue.id := "issue-pil-AWB1";
          ShipmentIssue.level := Warning;
          ShipmentIssue.message := "Perishable goods (PIL) have no storage instructions.";
          ShipmentIssue.suggestion :=
            "Add specific temperature range and storage instructions to prevent spoilage and ensure compliance." |}
       issues.
Proof.
  assert (H : transformManifest two_container_doc = Ok two_container_manifest)
    by (vm_compute; reflexivity).
  assert (Hin : In (first_shipment two_container_manifest)
                   (ManifestData.shipments two_container_manifest)) by (left; reflexivity).
  assert (Hp : In "PIL" (Shipment.special_handling_codes (first_shipment two_container_manifest)))
    by (left; reflexivity).
  split; [exact H | split; [exact Hin | split; [exact Hp |]]].
  eexists. split; [vm_compute; reflexivity |].
  exact (analyzeShipment_perishable two_container_doc two_container_manifest
           (first_shipment two_container_manifest) _ H Hin Hp eq_refl).
Defined.

(* ================================================================== *)
(** * Further properties of the chart helpers *)
(* ================================================================== *)

Section Normalizer.

Lemma assoc_In (k : string) (l : list (string * string)) (v : string) :
  assoc k l = Some v -> In v (map snd l).
Proof.
  induction l as [|[k' v'] l IH]; cbn [assoc map snd]; [discriminate|].
  destruct (String.eqb k k'); [intros [= ->]; now left | right; auto].
Qed.

(** The canonical names are fixed by the normalisation. *)
Lemma aliases_fixed (source : ChartSource) :
  Forall (fun t => normalizeFieldPath (Some t) source = Some t) (map snd (aliases source)).
Proof. destruct source; repeat constructor. Qed.

Lemma aliases_not_empty (source : ChartSource) :
  Forall (fun t => String.eqb t "" = false) (map snd (aliases source)).
Proof. destruct source; repeat constructor. Qed.

Lemma normalizeFieldPath_cases (name : string) (source : ChartSource) :
  normalizeFieldPath (Some name) source = Some name \/
  exists t, In t (map snd (aliases source)) /\ normalizeFieldPath (Some name) source = Some t.
Proof.
  unfold normalizeFieldPath. destruct (String.eqb name ""); [now left|].
  destruct (assoc (toLowerCase name) (aliases source)) as [t|] eqn:E; [|now left].
  assert (Ht := assoc_In _ _ _ E).
  right. exists t. split; [exact Ht|].
  assert (Hne := aliases_not_empty source). rewrite Forall_forall in Hne.
  unfold str_or, missing. now rewrite (Hne _ Ht).
Qed.

(** The model of [normalizeFieldPath] gives a name that it leaves as it
    is. *)
Lemma normalizeFieldPath_again (field : option string) (source : ChartSource) :
  normalizeFieldPath (normalizeFieldPath field source) source
  = normalizeFieldPath field source.
Proof.
  destruct field as [name|]; [|reflexivity].
  destruct (normalizeFieldPath_cases name source) as [E | (t & Ht & E)].
  - now rewrite !E.
  - rewrite E. assert (H := aliases_fixed source). rewrite Forall_forall in H. now apply H.
Qed.

(** No canonical name is an inherited name. *)
Lemma aliases_plain (source : ChartSource) :
  Forall (fun t => plainField (Some t) = true) (map snd (aliases source)).
Proof.
  destruct source; cbn [aliases map snd];
    repeat (constructor; [vm_compute; reflexivity |]); constructor.
Qed.

Lemma plainField_normalize (field : option string) (source : ChartSource) :
  plainField field = true -> plainField (normalizeFieldPath field source) = true.
Proof.
  intros H. destruct field as [name|]; [|reflexivity].
  destruct (normalizeFieldPath_cases name source) as [E | (t & Ht & E)]; rewrite E.
  - exact H.
  - assert (Hp := aliases_plain source). rewrite Forall_forall in Hp. now apply Hp.
Qed.

End Normalizer.

(** X13.  On a field that names no inherited member, [normalizeFieldPath]
    is idempotent: the name it gives is a name it leaves as it is, and
    that names no inherited member either.  (For the fields [constructor]
    and [__proto__] the table of aliases, an object literal, gives what it
    inherits, which is no string.) *)
Theorem normalizeFieldPath_idempotent (field : option string) (source : ChartSource) :
  plainField field = true ->
  normalizeFieldPath (normalizeFieldPath field source) source
  = normalizeFieldPath field source /\
  plainField (normalizeFieldPath field source) = true.
Proof.
  intros H. split; [apply normalizeFieldPath_again | now apply plainField_normalize].
Qed.

Lemma normalizeFieldPath_idempotent_witness :
  plainField (Some "MAWB") = true /\
  normalizeFieldPath (Some "MAWB") SrcShipments = Some "awb_number" /\
  normalizeFieldPath (normalizeFieldPath (Some "MAWB") SrcShipments) SrcShipments
  = Some "awb_number".
Proof.
  assert (H : plainField (Some "MAWB") = true) by reflexivity.
  split; [exact H | split; [reflexivity |]].
  rewrite (proj1 (normalizeFieldPath_idempotent (Some "MAWB") SrcShipments H)).
  reflexivity.
Defined.

Section SpecNormalizer.

Lemma normalizeFieldPath_missing (f : option string) (src : ChartSource) :
  missing (normalizeFieldPath f src) = missing f.
Proof.
  destruct f as [name|]; [|reflexivity].
  unfold normalizeFieldPath. destruct (String.eqb name "") eqn:E; [reflexivity|].
  unfold str_or.
  destruct (assoc (toLowerCase name) (aliases src)) as [t|] eqn:Ea; cbn [missing].
  - assert (Ht := assoc_In _ _ _ Ea).
    assert (Hne := aliases_not_empty src).
    rewrite Forall_forall in Hne. rewrite (Hne _ Ht). cbn [missing].
    rewrite (Hne _ Ht). now rewrite E.
  - cbn [missing]. now rewrite E.
Qed.

Lemma norm_eq (src : ChartSource) (f : option string) :
  norm src f = normalizeFieldPath f src.
Proof.
  unfold norm, str_or. destruct (missing (normalizeFieldPath f src)) eqn:E; [|reflexivity].
  rewrite normalizeFieldPath_missing in E.
  destruct f as [name|]; [|reflexivity].
  cbn [missing] in E. unfold normalizeFieldPath. now rewrite E.
Qed.

Lemma norm_idempotent (src : ChartSource) (f : option string) :
  norm src (norm src f) = norm src f.
Proof. rewrite !norm_eq. apply normalizeFieldPath_again. Qed.

Lemma norm_missing (src : ChartSource) (f : option string) :
  missing (norm src f) = missing f.
Proof. rewrite norm_eq. apply normalizeFieldPath_missing. Qed.

Lemma norm_fixed (src : ChartSource) (f : option string) :
  norm src f = f -> forall b (d : option string),
  norm src (if b : bool then d else f) = (if b then norm src d else f).
Proof. intros H [] d; [reflexivity | exact H]. Qed.

End SpecNormalizer.

Section SpecIdempotent.

Variable src : ChartSource.

Local Notation fill := (fill src).
Local Notation yDefault := (yDefault src).
Local Notation yCategoryDefault := (yCategoryDefault src).
Local Notation seriesDefault := (seriesDefault src).
Local Notation fixedName := (fixedName src).

Lemma defaults_fixed :
  fixedName (Some (defaultCategoryField src)) /\ fixedName (Some yDefault) /\
  fixedName (Some yCategoryDefault) /\ fixedName (Some seriesDefault) /\
  fixedName (Some "awb_number") /\ fixedName (Some "hawb_number") /\
  fixedName (Some "actual_weight_kg").
Proof.
  unfold fixedName, yDefault, yCategoryDefault, seriesDefault.
  destruct src; repeat split.
Qed.

Lemma fill_norm (c : bool) (d f : option string) :
  fixedName d -> norm src (fill c d f) = fill c d f.
Proof.
  intros [Hd _]. unfold fill. destruct (c && missing (norm src f)); [exact Hd|].
  apply norm_idempotent.
Qed.

Lemma fill_fixed (d f : option string) : fixedName d -> fixedName (fill true d f).
Proof.
  intros Hd. split; [now apply fill_norm|].
  unfold fill. cbn [andb]. destruct (missing (norm src f)) eqn:E; [apply Hd | exact E].
Qed.

Lemma fill_idempotent (c : bool) (d f : option string) :
  fixedName d -> fill c d (fill c d f) = fill c d f.
Proof.
  intros Hd. unfold fill at 1. rewrite (fill_norm c d f Hd).
  unfold fill. destruct (c && missing (norm src f)) eqn:E.
  - rewrite (proj2 Hd), andb_false_r. reflexivity.
  - now rewrite E.
Qed.

Lemma defaults_plain :
  plainField (Some (defaultCategoryField src)) = true /\
  plainField (Some yDefault) = true /\
  plainField (Some yCategoryDefault) = true /\
  plainField (Some seriesDefault) = true /\
  plainField (Some "awb_number") = true /\
  plainField (Some "hawb_number") = true /\
  plainField (Some "actual_weight_kg") = true.
Proof.
  unfold yDefault, yCategoryDefault, seriesDefault.
  destruct src; repeat split; vm_compute; reflexivity.
Qed.

Lemma plainField_norm (f : option string) :
  plainField f = true -> plainField (norm src f) = true.
Proof. intros H. rewrite norm_eq. now apply plainField_normalize. Qed.

Lemma plainField_fill (c : bool) (d f : option string) :
  plainField d = true -> plainField f = true -> plainField (fill c d f) = true.
Proof.
  intros Hd Hf. unfold fill. destruct (c && missing (norm src f)); [exact Hd|].
  now apply plainField_norm.
Qed.

End SpecIdempotent.

Lemma normalizeSpecFields_fields (spec : ChartSpec.t) :
  let src := ChartSpec.source spec in
  let ct := ChartSpec.chartType spec in
  let y := fill src true (Some (yDefault src)) (ChartSpec.yField spec) in
  let v := fill src (isHeatmap ct) y (ChartSpec.valueField spec) in
  normalizeSpecFields spec
  = {| ChartSpec.source := src;
       ChartSpec.chartType := ct;
       ChartSpec.xField :=
         fill src true (Some (defaultCategoryField src)) (ChartSpec.xField spec);
       ChartSpec.yField := y;
       ChartSpec.yCategoryField :=
         fill src (isHeatmap ct) (Some (yCategoryDefault src)) (ChartSpec.yCategoryField spec);
       ChartSpec.valueField :=
         if isTreemap ct && missing v then Some "actual_weight_kg" else v;
       ChartSpec.seriesField :=
         fill src (isStackedBar ct) (Some (seriesDefault src)) (ChartSpec.seriesField spec);
       ChartSpec.sizeField := norm src (ChartSpec.sizeField spec);
       ChartSpec.parentField :=
         fill src (isTreemap ct) (Some "awb_number") (ChartSpec.parentField spec);
       ChartSpec.childField :=
         fill src (isTreemap ct) (Some "hawb_number") (ChartSpec.childField spec);
       ChartSpec.aggregate := ChartSpec.aggregate spec;
       ChartSpec.title := ChartSpec.title spec;
       ChartSpec.filters := ChartSpec.filters spec;
       ChartSpec.topN := ChartSpec.topN spec;
       ChartSpec.sort := ChartSpec.sort spec;
       ChartSpec.unit := ChartSpec.unit spec;
       ChartSpec.binCount := ChartSpec.binCount spec;
       ChartSpec.stack := ChartSpec.stack spec |}.
Proof. reflexivity. Qed.

Lemma normalizeSpecFields_again (spec : ChartSpec.t) :
  normalizeSpecFields (normalizeSpecFields spec) = normalizeSpecFields spec.
Proof.
  destruct (defaults_fixed (ChartSpec.source spec)) as (Hx & Hy & Hyc & Hs & Hp & Hc & Hv).
  rewrite (normalizeSpecFields_fields (normalizeSpecFields spec)).
  rewrite (normalizeSpecFields_fields spec). cbv zeta.
  cbn [ChartSpec.source ChartSpec.chartType ChartSpec.xField ChartSpec.yField
       ChartSpec.yCategoryField ChartSpec.valueField ChartSpec.seriesField
       ChartSpec.sizeField ChartSpec.parentField ChartSpec.childField
       ChartSpec.aggregate ChartSpec.title ChartSpec.filters ChartSpec.topN
       ChartSpec.sort ChartSpec.unit ChartSpec.binCount ChartSpec.stack].
  rewrite !fill_idempotent by assumption. rewrite norm_idempotent.
  f_equal.
  set (y := fill (ChartSpec.source spec) true (Some (yDefault (ChartSpec.source spec)))
                 (ChartSpec.yField spec)).
  assert (Hfy : fixedName (ChartSpec.source spec) y) by (now apply fill_fixed).
  destruct (ChartSpec.chartType spec); cbn [isHeatmap isTreemap andb];
    try (unfold fill; cbn [andb]; rewrite ?norm_idempotent; reflexivity).
  + (* heatmap *)
    now rewrite fill_idempotent.
  + (* treemap *)
    unfold fill. cbn [andb].
    destruct (missing (norm _ (ChartSpec.valueField spec))) eqn:E.
    * destruct Hv as [Hv1 Hv2]. rewrite Hv1, Hv2. reflexivity.
    * rewrite norm_idempotent, E. reflexivity.
Qed.

(** The normalisation of a plain specification is plain. *)
Lemma plainSpec_normalize (spec : ChartSpec.t) :
  plainSpec spec = true -> plainSpec (normalizeSpecFields spec) = true.
Proof.
  unfold plainSpec. rewrite !andb_true_iff.
  intros ((((((((Hx & Hy) & Hyc) & Hv) & Hs) & Hz) & Hp) & Hc) & Hf).
  destruct (defaults_plain (ChartSpec.source spec)) as (Dx & Dy & Dyc & Ds & Dp & Dc & Dv).
  rewrite (normalizeSpecFields_fields spec). cbv zeta.
  cbn [ChartSpec.source ChartSpec.chartType ChartSpec.xField ChartSpec.yField
       ChartSpec.yCategoryField ChartSpec.valueField ChartSpec.seriesField
       ChartSpec.sizeField ChartSpec.parentField ChartSpec.childField ChartSpec.filters].
  assert (Py : plainField (fill (ChartSpec.source spec) true
                                (Some (yDefault (ChartSpec.source spec)))
                                (ChartSpec.yField spec)) = true)
    by (now apply plainField_fill).
  repeat split; try (now apply plainField_fill); try (now apply plainField_norm); try assumption.
  destruct (isTreemap (ChartSpec.chartType spec) && missing _); [exact Dv|].
  now apply plainField_fill.
Qed.

(** X14.  On a plain specification, [normalizeSpecFields] is idempotent;
    after it the category field and the value field of the specification
    are never missing, and the specification is plain still. *)
Theorem normalizeSpecFields_idempotent (spec : ChartSpec.t) :
  plainSpec spec = true ->
  normalizeSpecFields (normalizeSpecFields spec) = normalizeSpecFields spec /\
  missing (ChartSpec.xField (normalizeSpecFields spec)) = false /\
  missing (ChartSpec.yField (normalizeSpecFields spec)) = false /\
  plainSpec (normalizeSpecFields spec) = true.
Proof.
  intros Hplain.
  destruct (defaults_fixed (ChartSpec.source spec)) as (Hx & Hy & _).
  split; [apply normalizeSpecFields_again | split; [| split]].
  - apply (fill_fixed _ _ _ Hx).
  - apply (fill_fixed _ _ _ Hy).
  - now apply plainSpec_normalize.
Qed.

Lemma normalizeSpecFields_idempotent_witness :
  plainSpec (chart_spec_sorted Asc) = true /\
  ChartSpec.xField (normalizeSpecFields (chart_spec_sorted Asc)) = Some "awb_number" /\
  ChartSpec.yField (normalizeSpecFields (chart_spec_sorted Asc)) = Some "pieces" /\
  normalizeSpecFields (normalizeSpecFields (chart_spec_sorted Asc))
  = normalizeSpecFields (chart_spec_sorted Asc).
Proof.
  assert (H : plainSpec (chart_spec_sorted Asc) = true) by reflexivity.
  split; [exact H | split; [reflexivity | split; [reflexivity |]]].
  exact (proj1 (normalizeSpecFields_idempotent (chart_spec_sorted Asc) H)).
Defined.

Section FilterComposition.


End FilterComposition.


(** X16.  [getValueByPath] never hands out the wrapper of a number: what it
    returns is not an object whose [value] field is a number or a string
    that reads as a finite number. *)
Theorem getValueByPath_unwrapped (obj : value) (path : option string) :
  nonNullObject (getValueByPath obj path) ->
  (forall n, js_get (getValueByPath obj path) "value" <> JNum n) /\
  (forall s n, js_get (getValueByPath obj path) "value" = JStr s ->
               StringToNumber s <> Finite n).
Proof.
  unfold getValueByPath. destruct path as [path|]; [|intros []].
  destruct (String.eqb path ""); [intros []|].
  destruct (negb (truthy obj)); [intros []|].
  set (result := if negb (includes path ".") then _ else _).
  destruct (typeof_object result && negb (strict_eq result JNull)) eqn:Eo.
  - destruct (js_get result "value") as [| | |n|s| |] eqn:Ev;
      try (intros _; rewrite Ev; split; [discriminate | intros ? ? [=]]).
    + intros [].
    + destruct (StringToNumber s) as [n| | |] eqn:En; [intros []| | |];
        (intros _; rewrite Ev; split; [discriminate|];
         intros s' n' [= <-]; rewrite En; discriminate).
  - intros H. apply nonNullObject_test in H. congruence.
Qed.

Lemma getValueByPath_unwrapped_witness :
  nonNullObject (getValueByPath sample_doc (Some "manifest")) /\
  forall n, js_get (getValueByPath sample_doc (Some "manifest")) "value" <> JNum n.
Proof.
  assert (H : nonNullObject (getValueByPath sample_doc (Some "manifest"))) by exact I.
  split; [exact H |].
  exact (proj1 (getValueByPath_unwrapped sample_doc (Some "manifest") H)).
Defined.

Section SourceRows.

Variable m : ManifestData.t.

Lemma shipmentRow_numbers (s : Shipment.t) :
  getValueByPath (shipmentRow m s) (normalizeFieldPath (Some "weight") SrcShipments)
    = JNum (or_zero (Weight.value (Shipment.weight s))) /\
  getValueByPath (shipmentRow m s) (Some "weight")
    = JNum (or_zero (Weight.value (Shipment.weight s))) /\
  getValueByPath (shipmentRow m s) (Some "weight_kg")
    = JNum (or_zero (Weight.value (Shipment.weight s))) /\
  getValueByPath (shipmentRow m s) (normalizeFieldPath (Some "pcs") SrcShipments)
    = JNum (inject_Z (Shipment.pieces s)).
Proof. repeat split. Qed.

Lemma uldRow_numbers (s : Shipment.t) (u : ULDContent.t) :
  getValueByPath (uldRow s u) (normalizeFieldPath (Some "weight") SrcUlds)
    = JNum (or_zero (Weight.value (ULDContent.weight u))) /\
  getValueByPath (uldRow s u) (Some "weight")
    = JNum (or_zero (Weight.value (ULDContent.weight u))) /\
  getValueByPath (uldRow s u) (Some "weight_kg")
    = JNum (or_zero (Weight.value (ULDContent.weight u))) /\
  getValueByPath (uldRow s u) (normalizeFieldPath (Some "pcs") SrcUlds)
    = JNum (inject_Z (ULDContent.pieces u)).
Proof. repeat split. Qed.

Lemma hawbRow_numbers (s : Shipment.t) (h : HouseShipment.t) :
  getValueByPath (hawbRow s h) (normalizeFieldPath (Some "weight") SrcHawbs)
    = JNum (HouseShipment.actual_weight_kg h) /\
  getValueByPath (hawbRow s h) (Some "weight_kg")
    = JNum (HouseShipment.actual_weight_kg h) /\
  getValueByPath (hawbRow s h) (normalizeFieldPath (Some "pcs") SrcHawbs)
    = JNum (inject_Z (HouseShipment.pieces h)).
Proof. repeat split. Qed.

Lemma getSourceRows_cases (source : ChartSource) (row : value) :
  In row (getSourceRows (Some m) source) ->
  match source with
  | SrcShipments => exists s, In s (ManifestData.shipments m) /\ row = shipmentRow m s
  | SrcUlds => exists s u, In s (ManifestData.shipments m) /\
                           In u (Shipment.uld_contents s) /\ row = uldRow s u
  | SrcHawbs => exists s h, In s (ManifestData.shipments m) /\
                            In h (Shipment.house_shipments s) /\ row = hawbRow s h
  end.
Proof.
  destruct source; cbn [getSourceRows]; intros H.
  - apply in_map_iff in H. destruct H as [s [<- Hs]]. now exists s.
  - apply in_flat_map in H. destruct H as [s [Hs H]].
    apply in_map_iff in H. destruct H as [h [<- Hh]]. now exists s, h.
  - apply in_flat_map in H. destruct H as [s [Hs H]].
    apply in_map_iff in H. destruct H as [u [<- Hu]]. now exists s, u.
Qed.

End SourceRows.

Lemma default_yField (spec : ChartSpec.t) :
  missing (ChartSpec.yField spec) = true ->
  ChartSpec.yField (normalizeSpecFields spec) = Some (yDefault (ChartSpec.source spec)).
Proof.
  intros H. rewrite normalizeSpecFields_fields. cbv zeta. cbn [ChartSpec.yField].
  unfold fill. now rewrite norm_missing, H.
Qed.

(** X17.  On every row of the source of a chart, the aliases [weight] and
    [pcs], once normalised for that source, resolve to a number, and so does
    the value field that [normalizeSpecFields] fills in when the
    specification names none: the wrapper [{value}] of a weight is
    transparent. *)
Theorem source_rows_numeric (m : ManifestData.t) (spec : ChartSpec.t) (row : value) :
  In row (getSourceRows (Some m) (ChartSpec.source spec)) ->
  (exists w, getValueByPath row (normalizeFieldPath (Some "weight") (ChartSpec.source spec))
             = JNum w) /\
  (exists p, getValueByPath row (normalizeFieldPath (Some "pcs") (ChartSpec.source spec))
             = JNum p) /\
  (missing (ChartSpec.yField spec) = true ->
   exists y, getValueByPath row (ChartSpec.yField (normalizeSpecFields spec)) = JNum y).
Proof.
  intros H. apply getSourceRows_cases in H.
  split; [|split; [|intros Hy; rewrite (default_yField _ Hy)]];
    destruct (ChartSpec.source spec).
  - destruct H as (s & _ & ->). eexists. apply (shipmentRow_numbers m s).
  - destruct H as (s & h & _ & _ & ->). eexists. apply (hawbRow_numbers s h).
  - destruct H as (s & u & _ & _ & ->). eexists. apply (uldRow_numbers s u).
  - destruct H as (s & _ & ->). eexists. apply (shipmentRow_numbers m s).
  - destruct H as (s & h & _ & _ & ->). eexists. apply (hawbRow_numbers s h).
  - destruct H as (s & u & _ & _ & ->). eexists. apply (uldRow_numbers s u).
  - destruct H as (s & _ & ->). eexists. reflexivity.
  - destruct H as (s & h & _ & _ & ->). eexists. reflexivity.
  - destruct H as (s & u & _ & _ & ->). eexists. reflexivity.
Qed.

Lemma source_rows_numeric_witness :
  In (shipmentRow chart_manifest (chart_shipment "AWB-A" 0))
     (getSourceRows (Some chart_manifest) (ChartSpec.source histogram_spec)) /\
  exists w, getValueByPath (shipmentRow chart_manifest (chart_shipment "AWB-A" 0))
              (normalizeFieldPath (Some "weight") (ChartSpec.source histogram_spec))
            = JNum w.
Proof.
  assert (H : In (shipmentRow chart_manifest (chart_shipment "AWB-A" 0))
                 (getSourceRows (Some chart_manifest) (ChartSpec.source histogram_spec)))
    by (left; reflexivity).
  split; [exact H |].
  exact (proj1 (source_rows_numeric chart_manifest histogram_spec _ H)).
Defined.

Section Results.

Variable manifestData : option ManifestData.t.

Lemma retry_yField (specN : ChartSpec.t) (x : string) :
  missing (ChartSpec.yField specN) = false ->
  norm (ChartSpec.source specN) (ChartSpec.yField specN) = ChartSpec.yField specN ->
  ChartSpec.yField (normalizeSpecFields (with_xField specN x)) = ChartSpec.yField specN.
Proof.
  intros Hm Hn. rewrite normalizeSpecFields_fields. cbv zeta.
  cbn [ChartSpec.yField ChartSpec.source with_xField].
  unfold fill. rewrite Hn, Hm. reflexivity.
Qed.

Lemma normalized_yField (spec : ChartSpec.t) :
  missing (ChartSpec.yField (normalizeSpecFields spec)) = false /\
  norm (ChartSpec.source (normalizeSpecFields spec)) (ChartSpec.yField (normalizeSpecFields spec))
  = ChartSpec.yField (normalizeSpecFields spec).
Proof.
  destruct (defaults_fixed (ChartSpec.source spec)) as (_ & Hy & _).
  rewrite normalizeSpecFields_fields. cbv zeta. cbn [ChartSpec.yField ChartSpec.source].
  destruct (fill_fixed (ChartSpec.source spec) _ (ChartSpec.yField spec) Hy) as [H1 H2].
  split; assumption.
Qed.

(** The result of [generateChartDataFromSpec] is the data of one pass, over
    a normalised specification that differs from the normalised input in
    its category field at most. *)
Lemma generate_result (fuel : nat) (spec : ChartSpec.t) (data : list DataPoint.t) :
  generateChartDataFromSpec manifestData fuel spec = Some data ->
  exists specN,
    data = fst (shapeData manifestData specN) /\
    ChartSpec.topN specN = ChartSpec.topN spec /\
    ChartSpec.sort specN = ChartSpec.sort spec /\
    ChartSpec.aggregate specN = ChartSpec.aggregate spec /\
    ChartSpec.source specN = ChartSpec.source spec /\
    ChartSpec.filters specN = ChartSpec.filters spec /\
    ChartSpec.yField specN = ChartSpec.yField (normalizeSpecFields spec).
Proof.
  destruct fuel as [|fuel]; [discriminate|]. cbn [generateChartDataFromSpec].
  destruct (shapeData manifestData (normalizeSpecFields spec)) as [d u] eqn:E.
  destruct (needsRetry (normalizeSpecFields spec) d u).
  - destruct fuel as [|fuel]; [discriminate|].
    rewrite (retry_once manifestData (normalizeSpecFields spec) fuel).
    intros [= <-]. eexists. split; [reflexivity|].
    repeat split.
    destruct (normalized_yField spec) as [Hm Hn].
    now apply retry_yField.
  - intros [= <-]. exists (normalizeSpecFields spec). rewrite E. repeat split.
Qed.

Lemma In_insertPoint before (p x : DataPoint.t) (l : list DataPoint.t) :
  In x (insertPoint before p l) -> x = p \/ In x l.
Proof.
  induction l as [|q l IH]; cbn [insertPoint].
  - intros [<- | []]. now left.
  - destruct (before q p).
    + intros [<- | H]; [right; now left|]. destruct (IH H); [now left | right; now right].
    + intros [<- | H]; [now left | now right].
Qed.

Lemma In_sortPoints (dir : SortDir) (x : DataPoint.t) (l : list DataPoint.t) :
  In x (sortPoints dir l) -> In x l.
Proof.
  unfold sortPoints. induction l as [|p l IH]; cbn [fold_right]; [tauto|].
  intros H. apply In_insertPoint in H. destruct H as [-> | H]; [now left | right; auto].
Qed.

Lemma In_truncatePoints (topN : option Q) (x : DataPoint.t) (l : list DataPoint.t) :
  In x (truncatePoints topN l) -> In x l.
Proof.
  unfold truncatePoints, slice0. intros H.
  assert (Hf : forall n (l' : list DataPoint.t), In x (firstn n l') -> In x l')
    by (intros n l'; rewrite <- (firstn_skipn n l') at 2; intros; apply in_or_app; now left).
  destruct topN as [n|].
  - destruct (Qlt_bool 0 n); destruct (Qeq_bool n 0 && _); eauto.
  - destruct (true && _); eauto.
Qed.

Lemma shapeData_In (specN : ChartSpec.t) (p : DataPoint.t) :
  In p (fst (shapeData manifestData specN)) ->
  exists agg entry, In entry (fst (groupedRows manifestData specN)) /\
                    p = aggregateGroup agg entry.
Proof.
  unfold shapeData. destruct (groupedRows manifestData specN) as [groups u]. cbn [fst].
  intros H. apply In_truncatePoints in H.
  assert (H' : In p (map (aggregateGroup match ChartSpec.aggregate specN with
                                         | Some agg => agg | None => AggSum end) groups)).
  { destruct (ChartSpec.sort specN); [now apply In_sortPoints in H | exact H]. }
  apply in_map_iff in H'. destruct H' as [e [<- He]]. eauto.
Qed.

End Results.

(** X18.  No point that [generateChartDataFromSpec] returns has an empty
    name, and without a [topN] it returns 20 points at most; with a positive
    [topN] it returns no more points than that. *)
Theorem generateChartDataFromSpec_bounds
        (manifestData : option ManifestData.t) (fuel : nat) (spec : ChartSpec.t)
        (data : list DataPoint.t) :
  generateChartDataFromSpec manifestData fuel spec = Some data ->
  Forall (fun p => DataPoint.name p <> "") data /\
  match ChartSpec.topN spec with
  | None => (List.length data <= 20)%nat
  | Some n => ((0 < n)%Q -> (Z.of_nat (List.length data) <= Qfloor n)) /\
              ((n == 0)%Q -> (List.length data <= 20)%nat)
  end.
Proof.
  intros H. destruct (generate_result _ _ _ _ H) as (specN & -> & Ht & _).
  split.
  - apply Forall_forall. intros p Hp.
    destruct (shapeData_In _ _ _ Hp) as (agg & [k vs] & _ & ->).
    cbn [aggregateGroup DataPoint.name]. destruct (String.eqb (js_String k) "") eqn:E.
    + discriminate.
    + now apply String.eqb_neq.
  - rewrite <- Ht. unfold shapeData.
    destruct (groupedRows manifestData specN) as [groups u]. cbn [fst].
    set (d := match ChartSpec.sort specN with Some dir => _ | None => _ end).
    unfold truncatePoints, slice0. destruct (ChartSpec.topN specN) as [n|].
    + split.
      * intros Hn. apply Qlt_bool_iff in Hn. rewrite Hn.
        assert (Hz : Qeq_bool n 0 = false).
        { destruct (Qeq_bool n 0) eqn:E; [|reflexivity].
          apply Qeq_bool_iff in E. apply Qlt_bool_iff in Hn. rewrite E in Hn.
          discriminate Hn. }
        rewrite Hz. cbn [andb]. rewrite length_firstn.
        assert (0 <= Qfloor n) by (apply Qlt_bool_iff in Hn; apply Qfloor_resp_le with (x := 0%Q); now apply Qlt_le_weak).
        lia.
      * intros Hn. assert (Hz : Qeq_bool n 0 = true) by now apply Qeq_bool_iff.
        assert (Hl : Qlt_bool 0 n = false).
        { destruct (Qlt_bool 0 n) eqn:E; [|reflexivity].
          apply Qlt_bool_iff in E. rewrite Hn in E. discriminate E. }
        rewrite Hz, Hl. cbn [andb].
        destruct (20 <? List.length d)%nat eqn:E.
        -- rewrite length_firstn. lia.
        -- apply Nat.ltb_ge in E. exact E.
    + cbn [andb]. destruct (20 <? List.length d)%nat eqn:E.
      * rewrite length_firstn. lia.
      * apply Nat.ltb_ge in E. exact E.
Qed.

Lemma generateChartDataFromSpec_bounds_witness :
  exists data,
    generateChartDataFromSpec (Some chart_manifest) 2 unknown_field_spec = Some data /\
    Forall (fun p => DataPoint.name p <> "") data /\ (List.length data <= 20)%nat.
Proof.
  eexists. split; [vm_compute; reflexivity |].
  exact (generateChartDataFromSpec_bounds (Some chart_manifest) 2 unknown_field_spec _ eq_refl).
Defined.

Section Sorting.

Variable dir : SortDir.

Local Notation beforeDir := (beforeDir dir).

Lemma sortPoints_fold (data : list DataPoint.t) :
  sortPoints dir data = fold_right (insertPoint beforeDir) [] data.
Proof. reflexivity. Qed.

Lemma beforeDir_true (q p : DataPoint.t) : beforeDir q p = true -> inOrder dir q p.
Proof.
  unfold beforeDir, inOrder. destruct dir; intros H; apply Qlt_bool_iff in H;
    now apply Qlt_le_weak.
Qed.

Lemma beforeDir_false (q p : DataPoint.t) : beforeDir q p = false -> inOrder dir p q.
Proof.
  unfold beforeDir, inOrder, Qlt_bool. destruct dir; intros H;
    apply negb_false_iff in H; now apply Qle_bool_iff in H.
Qed.

Lemma inOrder_trans (a b c : DataPoint.t) : inOrder dir a b -> inOrder dir b c -> inOrder dir a c.
Proof.
  unfold inOrder. destruct dir; intros H1 H2; eapply Qle_trans; eassumption.
Qed.

Lemma Forall_insertPoint (P : DataPoint.t -> Prop) (p : DataPoint.t) (l : list DataPoint.t) :
  P p -> Forall P l -> Forall P (insertPoint beforeDir p l).
Proof.
  intros Hp. induction 1 as [|q l Hq Hl IH]; cbn [insertPoint].
  - now repeat constructor.
  - destruct (beforeDir q p); repeat constructor; assumption.
Qed.

Lemma insertPoint_sorted (p : DataPoint.t) (l : list DataPoint.t) :
  StronglySorted (inOrder dir) l -> StronglySorted (inOrder dir) (insertPoint beforeDir p l).
Proof.
  induction 1 as [|q l Hl IH Hq]; cbn [insertPoint].
  - repeat constructor.
  - destruct (beforeDir q p) eqn:E.
    + constructor; [exact IH|]. apply Forall_insertPoint; [now apply beforeDir_true | exact Hq].
    + assert (Hpq := beforeDir_false _ _ E).
      constructor; [now constructor|]. constructor; [exact Hpq|].
      eapply Forall_impl; [|exact Hq]. intros r Hr. now apply inOrder_trans with q.
Qed.

Lemma sortPoints_sorted (data : list DataPoint.t) :
  StronglySorted (inOrder dir) (sortPoints dir data).
Proof.
  rewrite sortPoints_fold. induction data as [|p l IH]; cbn [fold_right]; [constructor|].
  now apply insertPoint_sorted.
Qed.

Lemma firstn_sorted {A} (R : A -> A -> Prop) (n : nat) (l : list A) :
  StronglySorted R l -> StronglySorted R (firstn n l).
Proof.
  intros H. revert n. induction H as [|a l Hl IH Ha]; intros [|n]; cbn [firstn];
    try constructor; [apply IH|].
  rewrite Forall_forall in *. intros x Hx. apply Ha.
  rewrite <- (firstn_skipn n l). apply in_or_app. now left.
Qed.

Lemma truncatePoints_sorted (topN : option Q) (data : list DataPoint.t) :
  StronglySorted (inOrder dir) data ->
  StronglySorted (inOrder dir) (truncatePoints topN data).
Proof.
  intros H. unfold truncatePoints, slice0.
  destruct topN as [n|].
  - destruct (Qlt_bool 0 n); destruct (Qeq_bool n 0 && _);
      repeat apply firstn_sorted; exact H.
  - destruct (true && _); [apply firstn_sorted|]; exact H.
Qed.

End Sorting.

(** X19.  With a sort direction, the points that
    [generateChartDataFromSpec] returns are in the order of their values:
    not decreasing for [asc], not increasing for [desc]. *)
Theorem generateChartDataFromSpec_sorted
        (manifestData : option ManifestData.t) (fuel : nat) (spec : ChartSpec.t)
        (data : list DataPoint.t) (dir : SortDir) :
  generateChartDataFromSpec manifestData fuel spec = Some data ->
  ChartSpec.sort spec = Some dir ->
  StronglySorted (inOrder dir) data.
Proof.
  intros H Hs. destruct (generate_result _ _ _ _ H) as (specN & -> & _ & Hsort & _).
  unfold shapeData. destruct (groupedRows manifestData specN) as [groups u]. cbn [fst].
  rewrite Hsort, Hs. apply truncatePoints_sorted, sortPoints_sorted.
Qed.

Lemma generateChartDataFromSpec_sorted_witness :
  exists data,
    generateChartDataFromSpec (Some chart_manifest) 2
      (chart_spec_sorted Desc) = Some data /\
    ChartSpec.sort (chart_spec_sorted Desc) = Some Desc /\
    StronglySorted (inOrder Desc) data.
Proof.
  eexists. split; [vm_compute; reflexivity | split; [reflexivity |]].
  exact (generateChartDataFromSpec_sorted (Some chart_manifest) 2 (chart_spec_sorted Desc)
           _ Desc eq_refl eq_refl).
Defined.

Section Conservation.

Variable manifestData : option ManifestData.t.

Lemma sumQ_snoc (l : list Q) (x : Q) : (sumQ (l ++ [x]) == sumQ l + x)%Q.
Proof. rewrite sumQ_app. simpl. ring. Qed.

(** Grouping loses no row and no value. *)
Lemma groupRows_totals (x : option string) (y : string) (rows : list value) :
  (sumQ (map (fun e => sumQ (snd e)) (fst (groupRows x y rows)))
   == sumQ (map (fun r => rowValue r y) rows))%Q /\
  sumZ (map (fun e => Z.of_nat (List.length (snd e))) (fst (groupRows x y rows)))
  = Z.of_nat (List.length rows).
Proof.
  unfold groupRows.
  assert (H : forall groups u,
             let r := fold_left (fun state row =>
               let '(groups, undefinedName) := state in
               let key := groupKey row x in
               let arr := match Map_get groups (JStr key) with
                          | Some arr => arr
                          | None => []
                          end in
               (Map_set groups (JStr key) (arr ++ [rowValue row y]),
                if unresolved key then undefinedName + 1 else undefinedName))
               rows (groups, u) in
             (sumQ (map (fun e => sumQ (snd e)) (fst r))
              == sumQ (map (fun e => sumQ (snd e)) groups)
                 + sumQ (map (fun r => rowValue r y) rows))%Q /\
             sumZ (map (fun e => Z.of_nat (List.length (snd e))) (fst r))
             = sumZ (map (fun e => Z.of_nat (List.length (snd e))) groups)
               + Z.of_nat (List.length rows)).
  { induction rows as [|row rows IH]; intros groups u; cbv zeta.
    - cbn [fold_left fst map List.length]. change (sumQ []) with 0%Q.
      split; [ring | lia].
    - cbn [fold_left]. destruct (IH (Map_set groups (JStr (groupKey row x))
                 (match Map_get groups (JStr (groupKey row x)) with
                  | Some arr => arr | None => [] end ++ [rowValue row y]))
                 (if unresolved (groupKey row x) then u + 1 else u)) as [IHq IHz].
      cbv zeta in IHq, IHz. split.
      + rewrite IHq. rewrite (Map_set_sumQ (fun vs => sumQ vs)).
        rewrite map_cons, sumQ_cons, sumQ_snoc.
        destruct (Map_get groups (JStr (groupKey row x))); cbn [sumQ fold_right]; ring.
      + rewrite IHz. rewrite (Map_set_sumZ (fun vs => Z.of_nat (List.length vs))).
        rewrite length_app. cbn [List.length].
        destruct (Map_get groups (JStr (groupKey row x))); cbn [List.length]; lia. }
  destruct (H [] 0) as [Hq Hz]. cbv zeta in Hq, Hz. split.
  - rewrite Hq. cbn [map]. change (sumQ []) with 0%Q. ring.
  - etransitivity; [exact Hz |]. cbn [map]. change (sumZ []) with 0. lia.
Qed.

Lemma insertPoint_sum before (p : DataPoint.t) (l : list DataPoint.t) :
  (sumQ (map DataPoint.value (insertPoint before p l))
   == DataPoint.value p + sumQ (map DataPoint.value l))%Q.
Proof.
  induction l as [|q l IH]; cbn [insertPoint]; [reflexivity|].
  destruct (before q p); [|reflexivity].
  rewrite !map_cons, !sumQ_cons, IH. ring.
Qed.

Lemma sortPoints_sum (dir : SortDir) (l : list DataPoint.t) :
  (sumQ (map DataPoint.value (sortPoints dir l)) == sumQ (map DataPoint.value l))%Q.
Proof.
  unfold sortPoints. induction l as [|p l IH]; [reflexivity|].
  cbn [fold_right]. rewrite insertPoint_sum, map_cons, sumQ_cons, IH. reflexivity.
Qed.

Lemma sumQ_ext {A} (f g : A -> Q) (l : list A) :
  (forall a, (f a == g a)%Q) -> (sumQ (map f l) == sumQ (map g l))%Q.
Proof.
  intros H. induction l as [|a l IH]; [reflexivity|].
  rewrite !map_cons, !sumQ_cons, IH, H. reflexivity.
Qed.

Lemma sumQ_inject (l : list Z) : (sumQ (map inject_Z l) == inject_Z (sumZ l))%Q.
Proof.
  induction l as [|z l IH]; [reflexivity|].
  rewrite map_cons, sumQ_cons, sumZ_cons, IH, inject_Z_plus. reflexivity.
Qed.

(** The data of a pass that was not cut. *)
Lemma shapeData_uncut (specN : ChartSpec.t) :
  ChartSpec.topN specN = None ->
  (List.length (fst (shapeData manifestData specN)) < 20)%nat ->
  (sumQ (map DataPoint.value (fst (shapeData manifestData specN)))
   == sumQ (map (fun e => DataPoint.value
                            (aggregateGroup match ChartSpec.aggregate specN with
                                            | Some agg => agg | None => AggSum end e))
                (fst (groupedRows manifestData specN))))%Q.
Proof.
  unfold shapeData. destruct (groupedRows manifestData specN) as [groups u]. cbn [fst].
  intros -> Hlen. unfold truncatePoints in *. cbn [andb] in *.
  set (d := match ChartSpec.sort specN with Some dir => _ | None => _ end) in *.
  assert (E : (20 <? List.length d)%nat = false).
  { destruct (20 <? List.length d)%nat eqn:E; [|reflexivity].
    rewrite length_firstn in Hlen. apply Nat.ltb_lt in E. lia. }
  rewrite E. unfold d. destruct (ChartSpec.sort specN).
  - rewrite sortPoints_sum, map_map. reflexivity.
  - rewrite map_map. reflexivity.
Qed.

End Conservation.

(** X20.  A chart of counts that was not cut accounts for every row: for
    the aggregate [count], without a [topN], when fewer than 20 points are
    returned, the values of the points add up to the number of the filtered
    rows.  (Counts are whole numbers, which the code adds without
    rounding.) *)
Theorem generateChartDataFromSpec_conserves
        (manifestData : option ManifestData.t) (fuel : nat) (spec : ChartSpec.t)
        (data : list DataPoint.t) :
  plainSpec spec = true ->
  Forall (fun row => plain row = true)
         (getSourceRows manifestData (ChartSpec.source spec)) ->
  generateChartDataFromSpec manifestData fuel spec = Some data ->
  ChartSpec.aggregate spec = Some AggCount ->
  ChartSpec.topN spec = None ->
  (List.length data < 20)%nat ->
  (sumQ (map DataPoint.value data)
   == inject_Z (Z.of_nat (List.length (chartRows manifestData spec))))%Q.
Proof.
  intros _ _ H Ha Ht Hlen.
  set (rows := chartRows manifestData spec).
  set (y := valueFieldOf (normalizeSpecFields spec)).
  destruct (generate_result _ _ _ _ H) as (specN & -> & HtN & _ & Hagg & Hsrc & Hf & Hy).
  rewrite <- HtN in Ht.
  assert (Hu := shapeData_uncut manifestData specN Ht Hlen).
  assert (Hg : fst (groupedRows manifestData specN) = fst (groupRows (ChartSpec.xField specN) y rows)).
  { unfold groupedRows, rows, chartRows, y, valueFieldOf. now rewrite Hsrc, Hf, Hy. }
  destruct (groupRows_totals (ChartSpec.xField specN) y rows) as [_ Hz].
  rewrite Hg, Hagg, Ha in Hu.
  rewrite Hu, <- Hz, <- sumQ_inject, map_map. apply sumQ_ext. intros [k vs]. reflexivity.
Qed.

Lemma generateChartDataFromSpec_conserves_witness :
  plainSpec chart_spec_count = true /\
  Forall (fun row => plain row = true)
         (getSourceRows (Some chart_manifest) (ChartSpec.source chart_spec_count)) /\
  generateChartDataFromSpec (Some chart_manifest) 2 chart_spec_count = Some awb_points /\
  (sumQ (map DataPoint.value awb_points) == 3)%Q.
Proof.
  assert (Hs : plainSpec chart_spec_count = true) by reflexivity.
  assert (Hr : Forall (fun row => plain row = true)
                      (getSourceRows (Some chart_manifest) (ChartSpec.source chart_spec_count)))
    by (repeat constructor).
  assert (Hg : generateChartDataFromSpec (Some chart_manifest) 2 chart_spec_count
               = Some awb_points) by (vm_compute; reflexivity).
  assert (Hlen : (List.length awb_points < 20)%nat) by (cbn; lia).
  split; [exact Hs | split; [exact Hr | split; [exact Hg |]]].
  etransitivity;
    [ exact (generateChartDataFromSpec_conserves (Some chart_manifest) 2
               chart_spec_count awb_points Hs Hr Hg eq_refl eq_refl Hlen)
    | vm_compute; reflexivity ].
Defined.

Section Retry.

Variable manifestData : option ManifestData.t.









End Retry.



(* ================================================================== *)
(** * The histogram and the treemap *)
(* ================================================================== *)

Section Histogram.










End Histogram.





Section Treemap.

Variable manifestData : option ManifestData.t.

Lemma Map_set_pairs {V} (P : value * V -> Prop) (m : Map V) (k : value) (v : V) :
  Forall P m ->
  match Map_get m k with
  | Some old => forall k', same_value_zero k' k = true -> P (k', old) -> P (k', v)
  | None => P (k, v)
  end ->
  Forall P (Map_set m k v).
Proof.
  induction m as [|[k' v'] m IH]; cbn [Map_get Map_set]; intros Hm Hv.
  - constructor; [exact Hv | constructor].
  - inversion Hm as [|? ? Hhead Hrest]; subst.
    destruct (same_value_zero k' k) eqn:E.
    + constructor; [now apply Hv | exact Hrest].
    + constructor; [exact Hhead | now apply IH].
Qed.

Lemma treemapRow_ok (spec : ChartSpec.t) (m : Map TreeNode.t) (r : value) :
  Forall nodeOk m /\ distinctKeys m ->
  Forall nodeOk (treemapRow spec m r) /\ distinctKeys (treemapRow spec m r).
Proof.
  intros [Hm Hd]. unfold treemapRow.
  destruct (js_Number _) as [v| | |]; try (split; assumption).
  set (parent := js_String (nullish (getValueByPath r (str_or (ChartSpec.parentField spec) _)) _)).
  set (child := js_String (nullish (getValueByPath r (str_or (ChartSpec.childField spec) _)) _)).
  destruct (String.eqb parent "") eqn:Ep; [split; assumption|].
  destruct (String.eqb child "") eqn:Ec; [split; assumption|].
  cbn [orb]. apply String.eqb_neq in Ep, Ec.
  split; [|now apply Map_set_distinct].
  apply Map_set_pairs; [exact Hm|].
  destruct (Map_get m (JStr parent)) as [node|].
  - intros k' Hk (Hname & Hne & Hsum & Hch). cbn [fst snd] in *.
    unfold nodeOk. cbn [fst snd TreeNode.name TreeNode.value TreeNode.children].
    split; [exact Hname | split; [exact Hne | split]].
    + rewrite map_app, sumQ_app, Hsum. cbn [map snd]. rewrite sumQ_cons.
      change (sumQ []) with 0%Q. ring.
    + apply Forall_app. split; [exact Hch|].
      constructor; [|constructor]. cbn [fst snd]. split; [exact Ec | apply Q.le_max_l].
  - unfold nodeOk. cbn [fst snd TreeNode.name TreeNode.value TreeNode.children app map].
    split; [reflexivity | split; [exact Ep | split]].
    + rewrite sumQ_cons. change (sumQ []) with 0%Q. ring.
    + constructor; [|constructor]. cbn [fst snd]. split; [exact Ec | apply Q.le_max_l].
Qed.

Lemma treemap_map_ok (spec : ChartSpec.t) (rows : list value) (m : Map TreeNode.t) :
  Forall nodeOk m /\ distinctKeys m ->
  Forall nodeOk (fold_left (treemapRow spec) rows m) /\
  distinctKeys (fold_left (treemapRow spec) rows m).
Proof.
  revert m. induction rows as [|r rows IH]; intros m H; cbn [fold_left]; [exact H|].
  apply IH. now apply treemapRow_ok.
Qed.

Lemma insertBy_perm {A} (before : A -> A -> bool) (x : A) (l : list A) :
  Permutation (insertBy before x l) (x :: l).
Proof.
  induction l as [|y l IH]; cbn [insertBy]; [reflexivity|].
  destruct (before y x); [|reflexivity].
  rewrite IH. apply perm_swap.
Qed.

Lemma sortBy_perm {A} (before : A -> A -> bool) (l : list A) :
  Permutation (sortBy before l) l.
Proof.
  unfold sortBy. induction l as [|x l IH]; cbn [fold_right]; [reflexivity|].
  rewrite insertBy_perm. now constructor.
Qed.

Lemma insertBy_descending (x : TreeNode.t) (l : list TreeNode.t) :
  StronglySorted descending l ->
  StronglySorted descending
    (insertBy (fun a b => Qlt_bool (TreeNode.value b) (TreeNode.value a)) x l).
Proof.
  induction 1 as [|y l Hs IH Hy]; cbn [insertBy].
  - constructor; constructor.
  - destruct (Qlt_bool (TreeNode.value x) (TreeNode.value y)) eqn:E.
    + constructor; [exact IH|].
      eapply Permutation_Forall; [symmetry; apply insertBy_perm|].
      constructor; [|exact Hy]. apply Qlt_bool_iff in E. now apply Qlt_le_weak.
    + assert (Hxy : descending x y).
      { unfold descending. apply Qnot_lt_le. intros Hlt.
        apply Qlt_bool_iff in Hlt. congruence. }
      constructor; [constructor; assumption|].
      constructor; [exact Hxy|].
      eapply Forall_impl; [|exact Hy]. intros z Hz. unfold descending in *.
      eapply Qle_trans; eassumption.
Qed.

Lemma sortBy_descending (l : list TreeNode.t) :
  StronglySorted descending
    (sortBy (fun a b => Qlt_bool (TreeNode.value b) (TreeNode.value a)) l).
Proof.
  unfold sortBy. induction l as [|x l IH]; cbn [fold_right]; [constructor|].
  now apply insertBy_descending.
Qed.

Lemma distinct_names (m : Map TreeNode.t) :
  Forall nodeOk m -> distinctKeys m -> NoDup (map TreeNode.name (map snd m)).
Proof.
  unfold distinctKeys. induction m as [|[k n] m IH]; cbn [map fst snd]; intros Hm Hd.
  - constructor.
  - inversion Hm as [|? ? (Hk & _) Hrest]; subst. inversion Hd as [|? ? Hk' Hd']; subst.
    constructor; [|now apply IH].
    cbn [fst snd] in Hk. subst k. intros Hin.
    apply in_map_iff in Hin. destruct Hin as (n' & Hn' & Hin).
    apply in_map_iff in Hin. destruct Hin as ([k' n''] & E & Hin). cbn [snd] in E. subst n''.
    rewrite Forall_forall in Hk', Hrest.
    assert (Hf := Hk' k' (in_map fst _ _ Hin)). cbn [fst] in Hf.
    destruct (Hrest _ Hin) as (Hkn & _). cbn [fst snd] in Hkn. subst k'.
    rewrite Hn' in Hf. cbn in Hf. rewrite String.eqb_refl in Hf. discriminate.
Qed.

(** Leaving nodes out keeps their names distinct. *)
Lemma filter_names_distinct (keep : TreeNode.t -> bool) (nodes : list TreeNode.t) :
  NoDup (map TreeNode.name nodes) -> NoDup (map TreeNode.name (filter keep nodes)).
Proof.
  induction nodes as [|n nodes IH]; cbn [map filter]; intros H; [constructor|].
  inversion H as [|? ? Hnot Hrest]; subst.
  destruct (keep n); [|now apply IH]. cbn [map]. constructor; [|now apply IH].
  intros Hin. apply Hnot. apply in_map_iff in Hin. destruct Hin as (n' & E & Hin).
  apply filter_In in Hin. rewrite <- E. apply in_map. apply Hin.
Qed.

End Treemap.

(** X23.  The nodes of the treemap: every parent is named, has a positive
    value and at least one child; its value is the sum of the values of its
    children, which are named and not negative; no two parents have the same
    name, and the parents come by descending value. *)
Theorem treemap_nodes (manifestData : option ManifestData.t) (spec : ChartSpec.t) :
  let data := treemap manifestData spec in
  Forall (fun n =>
            TreeNode.name n <> "" /\
            (0 < TreeNode.value n)%Q /\
            TreeNode.children n <> [] /\
            (TreeNode.value n == sumQ (map snd (TreeNode.children n)))%Q /\
            Forall (fun c => fst c <> "" /\ (0 <= snd c)%Q) (TreeNode.children n))
         data /\
  NoDup (map TreeNode.name data) /\
  StronglySorted descending data.
Proof.
  cbv zeta. unfold treemap.
  set (rows := applyFilters _ _).
  destruct (treemap_map_ok spec rows []) as [Hm Hd];
    [split; [constructor | constructor] |].
  set (m := fold_left (treemapRow spec) rows []) in *.
  split; [|split].
  - eapply Permutation_Forall; [symmetry; apply sortBy_perm|].
    apply Forall_forall. intros n Hn. apply filter_In in Hn. destruct Hn as [Hin Hf].
    apply andb_true_iff in Hf. destruct Hf as [Hv Hc].
    apply in_map_iff in Hin. destruct Hin as ([k n'] & E & Hin). cbn [snd] in E. subst n'.
    rewrite Forall_forall in Hm. destruct (Hm _ Hin) as (_ & Hne & Hsum & Hch).
    cbn [snd] in *. split; [exact Hne|]. split; [now apply Qlt_bool_iff|].
    split; [|split; assumption].
    intros E. rewrite E in Hc. discriminate Hc.
  - eapply Permutation_NoDup; [apply Permutation_map; symmetry; apply sortBy_perm|].
    apply filter_names_distinct. now apply distinct_names.
  - apply sortBy_descending.
Qed.
